(** * dctap csvreader: a shallow embedding of [dctap/csvreader.py]

    The module reads a DCTAP table (CSV text), normalises the header row,
    groups the rows into shapes and returns the shapes together with the
    warnings emitted while normalising them.

    Python values are embedded as a small universe [pyval]; dictionaries are
    association lists in insertion order (the code relies on that order:
    [list(shapes)[-1]], [list(shapes.values())]); exceptions are an explicit
    result type; the local variables of [_get_tapshapes] are a record that is
    threaded through the row loop.

    Text is modelled as Rocq [string]s, that is as sequences of 8-bit
    characters: [str.lower] and [str.strip] are the ASCII parts of the Python
    functions. *)

From Stdlib Require Import String Ascii List Bool Arith Lia FinFun.
Import ListNotations.
Open Scope string_scope.
Open Scope list_scope.

Set Warnings "-register-all".

(** * Exceptions and results *)

Inductive exn : Type :=
| KeyError
| IndexError
| TypeError
| ValueError
| AttributeError
| UnboundLocalError
| DctapError (msg : string).

Inductive result (A : Type) : Type :=
| Ok (a : A)
| Raise (e : exn).

Arguments Ok {A} a.
Arguments Raise {A} e.

Definition bind {A B : Type} (m : result A) (k : A -> result B) : result B :=
  match m with
  | Ok a => k a
  | Raise e => Raise e
  end.

Notation "x <- m ;; k" := (bind m (fun x => k))
  (at level 61, m at next level, right associativity).
Notation "' p <- m ;; k" := (bind m (fun x => match x with p => k end))
  (at level 61, p pattern, m at next level, right associativity).

(** [try: body except KeyError: handler] *)
Definition try_except_KeyError {A : Type} (body handler : result A) : result A :=
  match body with
  | Raise KeyError => handler
  | r => r
  end.

Definition is_ok {A : Type} (m : result A) : bool :=
  match m with Ok _ => true | Raise _ => false end.

(** * Python values *)

(** Hashable values used as dictionary keys: [None] and strings. *)
Inductive pykey : Type :=
| KNone
| KStr (s : string).

(** [PObj] is a dataclass instance, given by its fields in declaration order;
    [PDict] is a dictionary in insertion order. *)
Inductive pyval : Type :=
| PNone
| PStr (s : string)
| PList (l : list pyval)
| PDict (d : list (pykey * pyval))
| PObj (fields : list (string * pyval)).

Definition pydict : Type := list (pykey * pyval).
Definition pyobj : Type := list (string * pyval).

(** Truth value of an object, as tested by [if x:] and [not x]. *)
Definition truthy (v : pyval) : bool :=
  match v with
  | PNone => false
  | PStr s => negb (s =? "")
  | PList l => negb (Nat.eqb (length l) 0)
  | PDict d => negb (Nat.eqb (length d) 0)
  | PObj _ => true
  end.

(** Hashing a value to use it as a key: lists, dictionaries and dataclass
    instances are unhashable. *)
Definition as_key (v : pyval) : result pykey :=
  match v with
  | PNone => Ok KNone
  | PStr s => Ok (KStr s)
  | _ => Raise TypeError
  end.

(** * Keys with decidable equality *)

Class Key (K : Type) : Type := {
  key_eqb : K -> K -> bool;
  key_eqb_spec : forall a b, reflect (a = b) (key_eqb a b)
}.

Arguments key_eqb : simpl never.

Definition pykey_eqb (a b : pykey) : bool :=
  match a, b with
  | KNone, KNone => true
  | KStr s, KStr t => (s =? t)
  | _, _ => false
  end.

Lemma pykey_eqb_spec (a b : pykey) : reflect (a = b) (pykey_eqb a b).
Proof.
  destruct a as [|s], b as [|t]; simpl; try (constructor; congruence).
  destruct (String.eqb_spec s t); constructor; congruence.
Qed.

#[export] Instance string_Key : Key string :=
  {| key_eqb := String.eqb; key_eqb_spec := String.eqb_spec |}.

#[export] Instance pykey_Key : Key pykey :=
  {| key_eqb := pykey_eqb; key_eqb_spec := pykey_eqb_spec |}.

(** * Dictionaries in insertion order *)

Section Assoc.
Context {K V : Type} `{Key K}.

Fixpoint lookup (k : K) (d : list (K * V)) : option V :=
  match d with
  | [] => None
  | (k', v) :: rest => if key_eqb k k' then Some v else lookup k rest
  end.

(** [d[k] = v]: an existing key keeps its position, a new key goes last. *)
Fixpoint assign (k : K) (v : V) (d : list (K * V)) : list (K * V) :=
  match d with
  | [] => [(k, v)]
  | (k', v') :: rest =>
      if key_eqb k k' then (k', v) :: rest else (k', v') :: assign k v rest
  end.

Fixpoint remove_key (k : K) (d : list (K * V)) : list (K * V) :=
  match d with
  | [] => []
  | (k', v') :: rest =>
      if key_eqb k k' then rest else (k', v') :: remove_key k rest
  end.

Definition keys (d : list (K * V)) : list K := map fst d.

Definition mem (k : K) (d : list (K * V)) : bool :=
  match lookup k d with Some _ => true | None => false end.

(** [d[k]] *)
Definition getitem (d : list (K * V)) (k : K) : result V :=
  match lookup k d with
  | Some v => Ok v
  | None => Raise KeyError
  end.

(** [d.pop(k)] *)
Definition pop (d : list (K * V)) (k : K) : result (V * list (K * V)) :=
  match lookup k d with
  | Some v => Ok (v, remove_key k d)
  | None => Raise KeyError
  end.
End Assoc.

(** [d.get(k)] on a dictionary of Python values. *)
Definition dict_get (d : pydict) (k : string) : pyval :=
  match lookup (KStr k) d with
  | Some v => v
  | None => PNone
  end.

(** [list(d)[-1]] *)
Definition last_key {V : Type} (d : list (pykey * V)) : result pykey :=
  match rev (keys d) with
  | k :: _ => Ok k
  | [] => Raise IndexError
  end.

(** [some_list.remove(x)]: the first occurrence goes, [ValueError] if none. *)
Fixpoint list_remove (x : string) (l : list string) : result (list string) :=
  match l with
  | [] => Raise ValueError
  | y :: rest =>
      if (x =? y) then Ok rest
      else (rest' <- list_remove x rest ;; Ok (y :: rest'))
  end.

(** * Dataclass instances *)

Definition getattr (o : pyobj) (name : string) : option pyval := lookup name o.

(** [setattr(o, name, v)] for a declared field [name].  An object is modelled
    by its dataclass fields only, so a name that is not a field leaves the
    model of the object as it is. *)
Fixpoint setattr (o : pyobj) (name : string) (v : pyval) : pyobj :=
  match o with
  | [] => []
  | (n, v') :: rest =>
      if (name =? n) then (n, v) :: rest else (n, v') :: setattr rest name v
  end.

(** [dataclasses.asdict]: dataclass instances become dictionaries, lists and
    dictionaries are converted element by element. *)
Fixpoint asdict (v : pyval) : pyval :=
  match v with
  | PNone => PNone
  | PStr s => PStr s
  | PList l => PList (map asdict l)
  | PDict d => PDict (map (fun kv => (fst kv, asdict (snd kv))) d)
  | PObj fs => PDict (map (fun kv => (KStr (fst kv), asdict (snd kv))) fs)
  end.

Definition asdict_obj (o : pyobj) : pydict :=
  map (fun kv => (KStr (fst kv), asdict (snd kv))) o.

(** The external classes of [tapclasses.py] as seen by this module: the
    fields of a fresh instance, and the three methods the reader calls.  The
    methods are taken to return normally and to act on the fields of the
    instance they are called on: [set_settings] and [normalize] give the
    fields as the call leaves them, [get_warnings] gives the dictionary it
    returns, in the order of its items. *)
Record dataclass : Type := {
  fresh : pyobj;
  set_settings : pydict -> pyobj -> pyobj;
  normalize : pyobj -> pyobj;
  get_warnings : pyobj -> pydict
}.

(** * Text *)

Definition is_space (c : ascii) : bool :=
  let n := nat_of_ascii c in
  (Nat.leb 9 n && Nat.leb n 13) || (Nat.leb 28 n && Nat.leb n 32).

Definition newline : ascii := ascii_of_nat 10.

(** Iterating over a [StringIO]: the lines, each with its line feed. *)
Fixpoint io_lines (s : string) : list string :=
  match s with
  | EmptyString => []
  | String c rest =>
      if Ascii.eqb c newline then String c EmptyString :: io_lines rest
      else match io_lines rest with
           | [] => [String c EmptyString]
           | l :: ls => String c l :: ls
           end
  end.

Fixpoint lstrip (s : string) : string :=
  match s with
  | EmptyString => EmptyString
  | String c rest => if is_space c then lstrip rest else s
  end.

Fixpoint rstrip (s : string) : string :=
  match s with
  | EmptyString => EmptyString
  | String c rest =>
      let r := rstrip rest in
      if is_space c && (r =? "") then EmptyString else String c r
  end.

(** [s.strip()] *)
Definition strip (s : string) : string := rstrip (lstrip s).

(** [s.split(sep)] for a one-character separator. *)
Fixpoint split (sep : ascii) (s : string) : list string :=
  match s with
  | EmptyString => [EmptyString]
  | String c rest =>
      if Ascii.eqb c sep then EmptyString :: split sep rest
      else match split sep rest with
           | [] => [String c EmptyString]
           | p :: ps => String c p :: ps
           end
  end.

(** [s.replace(c, "")] for a one-character [c]. *)
Fixpoint delete_char (c : ascii) (s : string) : string :=
  match s with
  | EmptyString => EmptyString
  | String a rest =>
      if Ascii.eqb a c then delete_char c rest else String a (delete_char c rest)
  end.

Definition lower_char (c : ascii) : ascii :=
  let n := nat_of_ascii c in
  if Nat.leb 65 n && Nat.leb n 90 then ascii_of_nat (n + 32) else c.

(** [s.lower()] *)
Fixpoint lower (s : string) : string :=
  match s with
  | EmptyString => EmptyString
  | String c rest => String (lower_char c) (lower rest)
  end.

(** [needle in hay] on strings: the substring test. *)
Fixpoint contains (needle hay : string) : bool :=
  prefix needle hay ||
  match hay with
  | EmptyString => false
  | String _ rest => contains needle rest
  end.

(** [sep.join(items)]: every item must be a string. *)
Fixpoint str_items (items : list pyval) : result (list string) :=
  match items with
  | [] => Ok []
  | PStr s :: rest => (rest' <- str_items rest ;; Ok (s :: rest'))
  | _ :: _ => Raise TypeError
  end.

Definition join (sep : string) (items : list pyval) : result string :=
  strs <- str_items items ;; Ok (String.concat sep strs).

(** [key == v] for a dictionary key and a value. *)
Definition key_equals (k : pykey) (v : pyval) : bool :=
  match k, v with
  | KNone, PNone => true
  | KStr a, PStr b => (a =? b)
  | _, _ => false
  end.

(** * Header normalisation (csvreader.py, lines 150-166) *)

Definition _lowercase_despace_depunctuate (some_str : string) : string :=
  let some_str := delete_char " "%char some_str in
  let some_str := delete_char "_"%char some_str in
  let some_str := delete_char "-"%char some_str in
  lower some_str.

(** The loop compares every key of the alias table with the current value of
    [some_str], which an earlier match may already have replaced. *)
Definition _normalize_element_name (some_str : string)
    (element_aliases_dict : pyval) : result pyval :=
  let some_str := _lowercase_despace_depunctuate some_str in
  if truthy element_aliases_dict then
    match element_aliases_dict with
    | PDict d =>
        Ok (fold_left
              (fun cur key =>
                 if key_equals key cur then
                   match lookup key d with Some v => v | None => cur end
                 else cur)
              (keys d) (PStr some_str))
    | _ => Raise AttributeError
    end
  else Ok (PStr some_str).

(** * Local variables of [_get_tapshapes]

    A local that has not been assigned yet is the [None] of the option
    type; reading it raises [UnboundLocalError].  The local [shape] is a reference to a [TAPShape]
    instance held in [shapes]: it is represented by the key under which that
    instance is stored, and a method call on [shape] updates the instance
    stored in [shapes]. *)
Record frame : Type := {
  shapes : list (pykey * pyobj);
  first_valid_row_encountered : bool;
  warnings : list (pykey * list (pykey * list pyval));
  sh_id : option pykey;
  shape : option pykey;
  shape_warnings : option pydict;
  sc : option pyobj;
  sc_warnings : option pydict;
  tapshapes_dict : option pyval;
  warnings_dict : option pyval
}.

Definition local {A : Type} (x : option A) : result A :=
  match x with
  | Some a => Ok a
  | None => Raise UnboundLocalError
  end.

(** Lines 56-58. *)
Definition initial_frame : frame :=
  {| shapes := []; first_valid_row_encountered := true; warnings := [];
     sh_id := None; shape := None; shape_warnings := None; sc := None;
     sc_warnings := None; tapshapes_dict := None; warnings_dict := None |}.

Definition set_sh_id (k : pykey) (st : frame) : frame :=
  {| shapes := shapes st;
     first_valid_row_encountered := first_valid_row_encountered st;
     warnings := warnings st; sh_id := Some k; shape := shape st;
     shape_warnings := shape_warnings st; sc := sc st;
     sc_warnings := sc_warnings st; tapshapes_dict := tapshapes_dict st;
     warnings_dict := warnings_dict st |}.

(** [shape = shapes[k] = o], with the flag and the warnings as given. *)
Definition set_new_shape (k : pykey) (o : pyobj) (flag : bool)
    (ws : list (pykey * list (pykey * list pyval))) (st : frame) : frame :=
  {| shapes := assign k o (shapes st);
     first_valid_row_encountered := flag;
     warnings := ws; sh_id := sh_id st; shape := Some k;
     shape_warnings := shape_warnings st; sc := sc st;
     sc_warnings := sc_warnings st; tapshapes_dict := tapshapes_dict st;
     warnings_dict := warnings_dict st |}.

Definition set_shape_step (sh : list (pykey * pyobj)) (sw : pydict)
    (ws : list (pykey * list (pykey * list pyval))) (st : frame) : frame :=
  {| shapes := sh;
     first_valid_row_encountered := first_valid_row_encountered st;
     warnings := ws; sh_id := sh_id st; shape := shape st;
     shape_warnings := Some sw; sc := sc st;
     sc_warnings := sc_warnings st; tapshapes_dict := tapshapes_dict st;
     warnings_dict := warnings_dict st |}.

Definition set_sc_step (sh : list (pykey * pyobj)) (o : pyobj) (scw : pydict)
    (ws : list (pykey * list (pykey * list pyval))) (st : frame) : frame :=
  {| shapes := sh;
     first_valid_row_encountered := first_valid_row_encountered st;
     warnings := ws; sh_id := sh_id st; shape := shape st;
     shape_warnings := shape_warnings st; sc := Some o;
     sc_warnings := Some scw; tapshapes_dict := tapshapes_dict st;
     warnings_dict := warnings_dict st |}.

Definition set_results (t w : pyval) (st : frame) : frame :=
  {| shapes := shapes st;
     first_valid_row_encountered := first_valid_row_encountered st;
     warnings := warnings st; sh_id := sh_id st; shape := shape st;
     shape_warnings := shape_warnings st; sc := sc st;
     sc_warnings := sc_warnings st; tapshapes_dict := Some t;
     warnings_dict := Some w |}.

(** * Field population *)

(** [for key in names: try: setattr(o, key, row[key]) except KeyError: pass] *)
Definition copy_fields (names : list string) (row : pydict) (o : pyobj) : pyobj :=
  fold_left
    (fun o key =>
       match lookup (KStr key) row with
       | Some v => setattr o key v
       | None => o
       end)
    names o.

(** * Warnings *)

(** Lines 102-106 and 125-129: [warnings] is a [defaultdict(dict)], so a
    missing shape key springs into existence as an empty dictionary; a
    missing field gets a new list. *)
Definition add_warning (ws : list (pykey * list (pykey * list pyval)))
    (sh_id elem : pykey) (warn : pyval) : list (pykey * list (pykey * list pyval)) :=
  let inner := match lookup sh_id ws with Some d => d | None => [] end in
  let msgs := match lookup elem inner with Some l => l | None => [] end in
  assign sh_id (assign elem (msgs ++ [warn]) inner) ws.

(** [for (elem, warn) in emitted.items(): ...] *)
Definition add_warnings (ws : list (pykey * list (pykey * list pyval)))
    (sh_id : pykey) (emitted : pydict) : list (pykey * list (pykey * list pyval)) :=
  fold_left (fun ws ew => add_warning ws sh_id (fst ew) (snd ew)) emitted ws.

(** [dict(warnings)], as a value. *)
Definition warnings_as_dict (ws : list (pykey * list (pykey * list pyval))) : pyval :=
  PDict (map (fun kd =>
                (fst kd, PDict (map (fun el => (fst el, PList (snd el))) (snd kd))))
             ws).

(** * Statement-constraint lists *)

(** [o.sc_list.append(sc)] *)
Definition append_sc (o sc : pyobj) : result pyobj :=
  match getattr o "sc_list" with
  | Some (PList l) => Ok (setattr o "sc_list" (PList (l ++ [PObj sc])))
  | _ => Raise AttributeError
  end.

(** The instance appended last is still referred to by the local [sc]: a
    method call on [sc] is seen through the list. *)
Definition update_last_sc (o sc : pyobj) : pyobj :=
  match getattr o "sc_list" with
  | Some (PList l) => setattr o "sc_list" (PList (removelast l ++ [PObj sc]))
  | _ => o
  end.

(** * Output assembly (lines 135-139) *)

Definition public_shape (tapshape_obj : pyobj) : result pyval :=
  let tapshape_dict := asdict_obj tapshape_obj in
  '(sc_list, tapshape_dict) <- pop tapshape_dict (KStr "sc_list") ;;
  Ok (PDict (assign (KStr "statement_constraints") sc_list tapshape_dict)).

Fixpoint public_shapes (objs : list pyobj) : result (list pyval) :=
  match objs with
  | [] => Ok []
  | o :: rest =>
      d <- public_shape o ;;
      rest' <- public_shapes rest ;;
      Ok (d :: rest')
  end.

(** * Observations on rows, shapes and warnings *)

(** A row is valid when its [propertyID] is truthy; the other rows are
    skipped by the loop. *)
Definition valid (row : pydict) : bool :=
  match lookup (KStr "propertyID") row with
  | Some v => truthy v
  | None => false
  end.

Record event : Type := {
  ev_row : pydict;
  ev_key : pykey;
  ev_shape_warnings : pydict;
  ev_sc : pyobj;
  ev_sc_warnings : pydict
}.

(** The items of the [sc_list] of a shape. *)
Definition sc_items (o : pyobj) : list pyval :=
  match getattr o "sc_list" with
  | Some (PList l) => l
  | _ => []
  end.

(** The statement constraints of the shape stored under [k]. *)
Definition constraints_of (sh : list (pykey * pyobj)) (k : pykey) : list pyval :=
  match lookup k sh with
  | Some o => sc_items o
  | None => []
  end.

(** The messages filed under shape [k] and field [elem]. *)
Definition messages (ws : list (pykey * list (pykey * list pyval)))
    (k elem : pykey) : list pyval :=
  match lookup k ws with
  | Some inner => match lookup elem inner with
                  | Some l => l
                  | None => []
                  end
  | None => []
  end.

(** The messages that a warnings dictionary returned by [get_warnings] holds
    for the field [elem]. *)
Definition emitted_for (elem : pykey) (emitted : pydict) : list pyval :=
  map snd (filter (fun ew => key_eqb (fst ew) elem) emitted).

(** The row as an iteration that starts in frame [st] leaves it: the first
    valid row receives the default shape name when it has no [shapeID]
    (line 80). *)
Definition written_back (dshape : pyval) (st : frame) (row : pydict) : pydict :=
  if first_valid_row_encountered st && negb (truthy (dict_get row "shapeID"))
  then assign (KStr "shapeID") dshape row
  else row.

(** What holds of every frame the loop reaches from [initial_frame]: no shape
    exists before the first valid row, and warnings are only filed under the
    keys of existing shapes. *)
Definition consistent (st : frame) : Prop :=
  (first_valid_row_encountered st = true -> shapes st = [] /\ warnings st = [])
  /\ (forall k, In k (keys (warnings st)) -> In k (keys (shapes st))).

(** Every shape holds a list of statement constraints. *)
Definition lists_ok (sh : list (pykey * pyobj)) : Prop :=
  forall k o, lookup k sh = Some o ->
    exists l, getattr o "sc_list" = Some (PList l).

Definition result_map {A B : Type} (f : A -> B) (m : result A) : result B :=
  match m with
  | Ok a => Ok (f a)
  | Raise e => Raise e
  end.

Definition is_list (v : pyval) : bool :=
  match v with PList _ => true | _ => false end.

(** * The reader *)

Section Reader.

(** [csv.DictReader] applied to the rebuilt text, as the list of its rows. *)
Variable DictReader : string -> list pydict.

(** The two classes of [tapclasses.py]. *)
Variables TAPShape TAPStatementConstraint : dataclass.

(** ** Row loader (lines 20-36) *)

(** Lines 26-30. *)
Fixpoint new_header_line_list (raw_header_line_list : list string)
    (config_dict : pydict) : result (list pyval) :=
  match raw_header_line_list with
  | [] => Ok []
  | header :: rest =>
      let header := _lowercase_despace_depunctuate header in
      header <- _normalize_element_name header
                  (dict_get config_dict "element_aliases") ;;
      rest' <- new_header_line_list rest config_dict ;;
      Ok (header :: rest')
  end.

(** The file object is given by the text that [read()] returns. *)
Definition _get_rows (open_csvfile_obj : string) (config_dict : pydict)
    : result (list pydict) :=
  let csvfile_contents_str := open_csvfile_obj in
  let csvlines_stripped := map strip (io_lines csvfile_contents_str) in
  match csvlines_stripped with
  | [] => Raise IndexError
  | first_line :: other_lines =>
      let raw_header_line_list := split ","%char first_line in
      headers <- new_header_line_list raw_header_line_list config_dict ;;
      new_header_line_str <- join "," headers ;;
      let csvlines_stripped := new_header_line_str :: other_lines in
      if negb (contains "propertyID" new_header_line_str) then
        Raise (DctapError "Valid DCTAP CSV must have a 'propertyID' column.")
      else
        Ok (DictReader
              (String.concat ""
                 (map (fun line => String.append line (String newline ""))
                      csvlines_stripped)))
  end.

(** ** Shape grouping (lines 39-146) *)

(** Lines 60-70.  [shape] is always a fresh [TAPShape()]. *)
Definition set_shape_fields (shape : pyobj) (row : pydict) : result pyobj :=
  let tapshape_keys := map fst (fresh TAPShape) in
  tapshape_keys <- list_remove "sc_list" tapshape_keys ;;
  tapshape_keys <- list_remove "sh_warnings" tapshape_keys ;;
  Ok (copy_fields tapshape_keys row shape).

(** Lines 76-83. *)
Definition first_valid_row (dshape : pyval) (st : frame) (row : pydict)
    : result (frame * pydict) :=
  if first_valid_row_encountered st then
    '(id, row) <-
      (if truthy (dict_get row "shapeID")
       then Ok (dict_get row "shapeID", row)
       else Ok (dshape, assign (KStr "shapeID") dshape row)) ;;
    k <- as_key id ;;
    o <- set_shape_fields (fresh TAPShape) row ;;
    Ok (set_new_shape k o false (warnings st) (set_sh_id k st), row)
  else Ok (st, row).

(** Lines 85-90. *)
Definition later_valid_row (st : frame) (row : pydict) : result frame :=
  if negb (first_valid_row_encountered st) then
    if truthy (dict_get row "shapeID") then
      id <- getitem row (KStr "shapeID") ;;
      k <- as_key id ;;
      Ok (set_sh_id k st)
    else
      k <- last_key (shapes st) ;;
      Ok (set_sh_id k st)
  else Ok st.

(** Lines 92-95. *)
Definition new_shape (st : frame) (row : pydict) : result frame :=
  k <- local (sh_id st) ;;
  if negb (mem k (shapes st)) then
    o <- set_shape_fields (fresh TAPShape) row ;;
    Ok (set_new_shape k o (first_valid_row_encountered st)
          (assign k [] (warnings st)) st)
  else Ok st.

(** Lines 97-106: the methods are called on [shape], the instance created
    last, and its warnings are filed under [sh_id]. *)
Definition shape_step (config_dict : pydict) (st : frame) : result frame :=
  r <- local (shape st) ;;
  o <- getitem (shapes st) r ;;
  let o := normalize TAPShape (set_settings TAPShape config_dict o) in
  let emitted := get_warnings TAPShape o in
  k <- local (sh_id st) ;;
  Ok (set_shape_step (assign r o (shapes st)) emitted
        (add_warnings (warnings st) k emitted) st).

(** Lines 108-114. *)
Definition new_sc (row : pydict) : pyobj :=
  let sc := fresh TAPStatementConstraint in
  copy_fields (map fst sc) row sc.

(** Lines 108-129. *)
Definition sc_step (config_dict : pydict) (st : frame) (row : pydict)
    : result frame :=
  let sc := new_sc row in
  k <- local (sh_id st) ;;
  target <- getitem (shapes st) k ;;
  target <- append_sc target sc ;;
  let sc := normalize TAPStatementConstraint
              (set_settings TAPStatementConstraint config_dict sc) in
  let target := update_last_sc target sc in
  let emitted := get_warnings TAPStatementConstraint sc in
  Ok (set_sc_step (assign k target (shapes st)) sc emitted
        (add_warnings (warnings st) k emitted) st).

(** Lines 131-141. *)
Definition assemble (st : frame) : result frame :=
  shape_list <- public_shapes (map snd (shapes st)) ;;
  Ok (set_results (PDict [(KStr "shapes", PList shape_list)])
        (warnings_as_dict (warnings st)) st).

(** The body of the loop over the rows (lines 72-141).  A first valid row
    with no [shapeID] is written to, so the row comes back with the frame. *)
Definition loop_body (config_dict : pydict) (dshape : pyval) (st : frame)
    (row : pydict) : result (frame * pydict) :=
  pid <- getitem row (KStr "propertyID") ;;
  if negb (truthy pid) then Ok (st, row)
  else
    '(st, row) <- first_valid_row dshape st row ;;
    st <- later_valid_row st row ;;
    st <- new_shape st row ;;
    st <- shape_step config_dict st ;;
    st <- sc_step config_dict st row ;;
    st <- assemble st ;;
    Ok (st, row).

Fixpoint loop (config_dict : pydict) (dshape : pyval) (st : frame)
    (rows : list pydict) : result (frame * list pydict) :=
  match rows with
  | [] => Ok (st, [])
  | row :: rest =>
      '(st, row) <- loop_body config_dict dshape st row ;;
      '(st, rest) <- loop config_dict dshape st rest ;;
      Ok (st, row :: rest)
  end.

(** Lines 45-48: [dict.get] does not raise, so the handler is never run. *)
Definition default_shape (config_dict : pydict) : result pyval :=
  try_except_KeyError (Ok (dict_get config_dict "default_shape_name"))
                      (Ok (PStr "default")).

(** The result is the returned pair together with the list of rows as the
    call leaves it. *)
Definition _get_tapshapes (rows : list pydict) (config_dict : pydict)
    : result ((pyval * pyval) * list pydict) :=
  dshape <- default_shape config_dict ;;
  shape_extras <- getitem config_dict (KStr "extra_shape_elements") ;;
  sc_extras <- getitem config_dict (KStr "extra_statement_constraint_elements") ;;
  '(st, rows) <- loop config_dict dshape initial_frame rows ;;
  t <- local (tapshapes_dict st) ;;
  w <- local (warnings_dict st) ;;
  Ok ((t, w), rows).

(** Lines 12-17: the grouping runs twice over the same list of rows. *)
Definition csvreader (open_csvfile_obj : string) (config_dict : pydict)
    : result (pyval * pyval) :=
  rows_list <- _get_rows open_csvfile_obj config_dict ;;
  '(first_call, rows_list) <- _get_tapshapes rows_list config_dict ;;
  '(second_call, rows_list) <- _get_tapshapes rows_list config_dict ;;
  let tapshapes := fst first_call in
  let tapwarnings := snd second_call in
  Ok (tapshapes, tapwarnings).

(** ** The valid rows of a run

    [events] replays the loop and records, for every row that is not
    skipped, the values of the locals [row], [sh_id], [shape_warnings],
    [sc] and [sc_warnings] at the end of its iteration. *)
Definition snapshot (st : frame) (row : pydict) : list event :=
  match sh_id st, shape_warnings st, sc st, sc_warnings st with
  | Some k, Some sw, Some o, Some scw =>
      [{| ev_row := row; ev_key := k; ev_shape_warnings := sw;
          ev_sc := o; ev_sc_warnings := scw |}]
  | _, _, _, _ => []
  end.

Fixpoint events (config_dict : pydict) (dshape : pyval) (st : frame)
    (rows : list pydict) : list event :=
  match rows with
  | [] => []
  | row :: rest =>
      match loop_body config_dict dshape st row with
      | Ok (st', row') =>
          (if valid row then snapshot st' row' else [])
          ++ events config_dict dshape st' rest
      | Raise _ => []
      end
  end.

End Reader.


(** * The classes of [tapclasses.py] and sample inputs *)

(** Modelled from the spec: [tapclasses.py], which declares [TAPShape] and
    [TAPStatementConstraint], is not among the sources.  The specification
    gives both entity types a declared field set with internal bookkeeping
    fields.  The shape elements and the statement-constraint elements are
    the lists expected by [tests/test_CONFIG_get_shems_stems.py]; the
    bookkeeping fields [sc_list] and [sh_warnings] are the ones
    [set_shape_fields] removes, and [sc_warnings] is the statement-constraint
    counterpart of [sh_warnings].  Every field defaults to the empty value of
    its type. *)
Definition TAPShape_fields : pyobj :=
  [("shapeID", PStr ""); ("shapeLabel", PStr ""); ("sc_list", PList []);
   ("sh_warnings", PDict [])].

Definition TAPStatementConstraint_fields : pyobj :=
  [("propertyID", PStr ""); ("propertyLabel", PStr ""); ("mandatory", PStr "");
   ("repeatable", PStr ""); ("valueNodeType", PStr "");
   ("valueDataType", PStr ""); ("valueConstraint", PStr "");
   ("valueConstraintType", PStr ""); ("valueShape", PStr ""); ("note", PStr "");
   ("sc_warnings", PDict [])].

(** A class whose methods leave the instance alone and whose [get_warnings]
    returns a fixed dictionary. *)
Definition plain_class (fields : pyobj) (emitted : pydict) : dataclass :=
  {| fresh := fields;
     set_settings := fun _ o => o;
     normalize := fun o => o;
     get_warnings := fun _ => emitted |}.

Definition quiet_TAPShape : dataclass := plain_class TAPShape_fields [].
Definition quiet_TAPStatementConstraint : dataclass :=
  plain_class TAPStatementConstraint_fields [].

Definition sample_config : pydict :=
  [(KStr "default_shape_name", PStr "default");
   (KStr "extra_shape_elements", PList []);
   (KStr "extra_statement_constraint_elements", PList [])].

Definition sample_row (shapeID propertyID : string) : pydict :=
  [(KStr "shapeID", PStr shapeID); (KStr "propertyID", PStr propertyID)].

(** A [DictReader] stand-in that yields the given rows. *)
Definition fixed_rows (rows : list pydict) (text : string) : list pydict := rows.

(** The frame in which a run over [rows] ends. *)
Definition frame_after (TAPShape TAPStatementConstraint : dataclass)
    (config_dict : pydict) (dshape : pyval) (rows : list pydict) : frame :=
  match loop TAPShape TAPStatementConstraint config_dict dshape
             initial_frame rows with
  | Ok (st, _) => st
  | Raise _ => initial_frame
  end.

(** Rows R1(key A), R2(no key), R3(key B), R4(no key). *)
Definition carry_rows : list pydict :=
  [sample_row "A" "p1"; sample_row "" "p2"; sample_row "B" "p3";
   sample_row "" "p4"].

(** Rows in which the third row reopens the first shape. *)
Definition reopen_rows : list pydict :=
  [sample_row "A" "p1"; sample_row "B" "p2"; sample_row "A" "p3";
   sample_row "" "p4"].

(** The frames after R1 and after R1, R2 of [carry_rows]. *)
Definition frame_A : frame :=
  Eval vm_compute in
    frame_after quiet_TAPShape quiet_TAPStatementConstraint sample_config
      (PStr "default") [sample_row "A" "p1"].

Definition frame_AA : frame :=
  Eval vm_compute in
    frame_after quiet_TAPShape quiet_TAPStatementConstraint sample_config
      (PStr "default") [sample_row "A" "p1"; sample_row "" "p2"].

(** A configuration with no entries for the extra elements, and a row with
    an empty [propertyID]. *)
Definition config_without_extras : pydict :=
  [(KStr "default_shape_name", PStr "default")].

Definition skipped_row : pydict := sample_row "A" "".

(** The frame after the four rows of [carry_rows]. *)
Definition frame_carry : frame :=
  Eval vm_compute in
    frame_after quiet_TAPShape quiet_TAPStatementConstraint sample_config
      (PStr "default") carry_rows.

(** Classes whose [get_warnings] reports one message on the field
    [shapeID]: W1 from the shape, W2 from the statement constraint. *)
Definition warning_TAPShape : dataclass :=
  plain_class TAPShape_fields [(KStr "shapeID", PStr "W1")].

Definition warning_TAPStatementConstraint : dataclass :=
  plain_class TAPStatementConstraint_fields [(KStr "shapeID", PStr "W2")].

(** The frame after one row with key A, with the two warning classes. *)
Definition frame_warned : frame :=
  Eval vm_compute in
    frame_after warning_TAPShape warning_TAPStatementConstraint sample_config
      (PStr "default") [sample_row "A" "p1"].

(** A configuration with the alias table that maps the normalised headers
    to the element names, and a header line for it. *)
Definition aliased_config : pydict :=
  [(KStr "default_shape_name", PStr "default");
   (KStr "element_aliases",
    PDict [(KStr "propertyid", PStr "propertyID");
           (KStr "shapeid", PStr "shapeID")]);
   (KStr "extra_shape_elements", PList []);
   (KStr "extra_statement_constraint_elements", PList [])].

Definition sample_header : string := "shapeID,propertyID".

(** What the pipeline returns for [carry_rows]. *)
Definition carry_output : pyval * pyval :=
  Eval vm_compute in
    match csvreader (fixed_rows carry_rows) quiet_TAPShape
            quiet_TAPStatementConstraint sample_header aliased_config with
    | Ok r => r
    | Raise _ => (PNone, PNone)
    end.

(** A configuration with no default shape name, and a row with no [shapeID]
    column. *)
Definition config_without_default : pydict :=
  [(KStr "extra_shape_elements", PList []);
   (KStr "extra_statement_constraint_elements", PList [])].

Definition row_without_shapeID : pydict := [(KStr "propertyID", PStr "dc:title")].

(** An alias table that maps a header to a name of which "propertyID" is
    only a part, and a header line for it. *)
Definition longer_alias_config : pydict :=
  [(KStr "element_aliases", PDict [(KStr "pid", PStr "propertyIDs")])].

Definition longer_alias_header : string := "pid,note".

(** Rows with columns named after bookkeeping fields. *)
Definition row_with_sc_warnings : pydict :=
  [(KStr "propertyID", PStr "dc:title"); (KStr "sc_warnings", PStr "boom")].

Definition row_with_sh_warnings : pydict :=
  [(KStr "propertyID", PStr "dc:title"); (KStr "shapeID", PStr "a");
   (KStr "sh_warnings", PStr "boom"); (KStr "sc_list", PStr "boom")].

(** The rows of the end-to-end example of the specification: a row with no
    [shapeID], a row keyed ":b2", and again a row with no [shapeID]. *)
Definition end_to_end_rows : list pydict :=
  [sample_row "" "dc:title"; sample_row ":b2" "dc:date";
   sample_row "" "dc:creator"].

(** The grouping of [reopen_rows]. *)
Definition reopen_grouping : (pyval * pyval) * list pydict :=
  Eval vm_compute in
    match _get_tapshapes quiet_TAPShape quiet_TAPStatementConstraint
            reopen_rows sample_config with
    | Ok r => r
    | Raise _ => ((PNone, PNone), [])
    end.

(** What also holds of every frame the loop reaches: once a valid row has
    been seen, [sh_id] is assigned and [shape] refers to a shape held in
    [shapes]. *)
Definition bound (st : frame) : Prop :=
  first_valid_row_encountered st = false ->
  exists k r, sh_id st = Some k /\ shape st = Some r
              /\ In r (keys (shapes st)).

(** The local [shape] refers to the shape created last. *)
Definition recent (st : frame) : Prop :=
  first_valid_row_encountered st = false ->
  exists r, shape st = Some r /\ last_key (shapes st) = Ok r.

(** Every shape but the first has an entry in [warnings]. *)
Definition later_shapes_filed (st : frame) : Prop :=
  forall k, In k (tl (keys (shapes st))) -> In k (keys (warnings st)).

(** The frames after the first two and the first three rows of
    [reopen_rows]: shapes A and B exist, and the third row names A again. *)
Definition frame_AB : frame :=
  Eval vm_compute in
    frame_after quiet_TAPShape quiet_TAPStatementConstraint sample_config
      (PStr "default") [sample_row "A" "p1"; sample_row "B" "p2"].

Definition frame_ABA : frame :=
  Eval vm_compute in
    frame_after quiet_TAPShape quiet_TAPStatementConstraint sample_config
      (PStr "default")
      [sample_row "A" "p1"; sample_row "B" "p2"; sample_row "A" "p3"].

(** Lines 76-95, with all the locals: the row continues or reopens a shape,
    creates a later shape, or is the first valid row. *)
Definition resolved (TAPShape : dataclass) (st st3 : frame) (row1 : pydict)
    (k : pykey) : Prop :=
  (first_valid_row_encountered st = false /\ mem k (shapes st) = true /\
   st3 = set_sh_id k st) \/
  (first_valid_row_encountered st = false /\ mem k (shapes st) = false /\
   exists o, set_shape_fields TAPShape (fresh TAPShape) row1 = Ok o /\
     st3 = set_new_shape k o false (assign k [] (warnings st))
             (set_sh_id k st)) \/
  (first_valid_row_encountered st = true /\
   exists o, set_shape_fields TAPShape (fresh TAPShape) row1 = Ok o /\
     st3 = set_sh_id k (set_new_shape k o false (warnings st)
                          (set_sh_id k st))).

(** With classes that report no warning, [warnings] is exactly one empty
    entry for each shape but the first. *)
Definition quiet_filed (st : frame) : Prop :=
  warnings st = map (fun k => (k, [])) (tl (keys (shapes st))).

(** Values in which no dataclass instance is left. *)
Fixpoint plain (v : pyval) : bool :=
  match v with
  | PNone => true
  | PStr _ => true
  | PList l => forallb plain l
  | PDict d => forallb (fun kv => plain (snd kv)) d
  | PObj _ => false
  end.

(** * Facts about results *)

Lemma bind_Ok {A B : Type} (m : result A) (k : A -> result B) (b : B) :
  bind m k = Ok b -> exists a, m = Ok a /\ k a = Ok b.
Proof.
  destruct m as [a|e]; simpl; intros E; [eauto | discriminate].
Qed.

(** Splits a successful sequence into its successful steps. *)
Ltac bind_inv H :=
  let a := fresh "a" in
  let Ha := fresh "Ha" in
  apply bind_Ok in H; destruct H as (a & Ha & H).

(** * Facts about dictionaries *)

Section AssocFacts.
Context {K V : Type} `{Key K}.

Lemma key_eqb_refl (k : K) : key_eqb k k = true.
Proof. destruct (key_eqb_spec k k); congruence. Qed.

Lemma key_eqb_neq (k k' : K) : k <> k' -> key_eqb k k' = false.
Proof. destruct (key_eqb_spec k k'); congruence. Qed.

Lemma key_eqb_eq (k k' : K) : key_eqb k k' = true -> k = k'.
Proof. destruct (key_eqb_spec k k'); congruence. Qed.

Lemma lookup_assign_same (k : K) (v : V) (d : list (K * V)) :
  lookup k (assign k v d) = Some v.
Proof.
  induction d as [|[k' v'] d IH]; simpl.
  - now rewrite key_eqb_refl.
  - destruct (key_eqb k k') eqn:E; simpl; rewrite E; auto.
Qed.

Lemma lookup_assign_other (k k' : K) (v : V) (d : list (K * V)) :
  k <> k' -> lookup k' (assign k v d) = lookup k' d.
Proof.
  intros N. induction d as [|[k0 v0] d IH]; simpl.
  - rewrite key_eqb_neq; auto.
  - destruct (key_eqb k k0) eqn:E; simpl.
    + apply key_eqb_eq in E. subst k0.
      rewrite key_eqb_neq; auto.
    + now rewrite IH.
Qed.

Lemma lookup_assign (k k' : K) (v : V) (d : list (K * V)) :
  lookup k' (assign k v d) = if key_eqb k k' then Some v else lookup k' d.
Proof.
  destruct (key_eqb_spec k k') as [->|N].
  - apply lookup_assign_same.
  - now apply lookup_assign_other.
Qed.

Lemma lookup_In_keys (k : K) (d : list (K * V)) :
  lookup k d <> None <-> In k (keys d).
Proof.
  induction d as [|[k' v'] d IH]; simpl.
  - split; [congruence | tauto].
  - destruct (key_eqb_spec k k') as [->|N].
    + split; [auto | congruence].
    + rewrite IH. split; [auto | intros [E|I]; congruence].
Qed.

Lemma lookup_None_keys (k : K) (d : list (K * V)) :
  lookup k d = None <-> ~ In k (keys d).
Proof.
  rewrite <- lookup_In_keys. destruct (lookup k d); intuition congruence.
Qed.

Lemma mem_In_keys (k : K) (d : list (K * V)) :
  mem k d = true <-> In k (keys d).
Proof.
  unfold mem. rewrite <- lookup_In_keys.
  destruct (lookup k d); split; congruence.
Qed.

(** An assignment keeps the order of the keys: an existing key stays where
    it is and a new key goes last. *)
Lemma keys_assign (k : K) (v : V) (d : list (K * V)) :
  keys (assign k v d) = if mem k d then keys d else keys d ++ [k].
Proof.
  unfold mem. induction d as [|[k' v'] d IH]; simpl; auto.
  destruct (key_eqb k k') eqn:E; simpl; auto.
  rewrite IH. now destruct (lookup k d).
Qed.

Lemma lookup_remove_key_same (k : K) (d : list (K * V)) :
  NoDup (keys d) -> lookup k (remove_key k d) = None.
Proof.
  induction d as [|[k0 v0] d IH]; simpl; auto.
  intros ND. inversion ND as [|? ? NI ND']; subst.
  destruct (key_eqb k k0) eqn:E; simpl.
  - apply key_eqb_eq in E. subst k0. now apply lookup_None_keys.
  - rewrite E. auto.
Qed.
End AssocFacts.

(** * Facts about attributes and field population *)

Lemma getattr_setattr (o : pyobj) (n m : string) (v : pyval) :
  getattr (setattr o n v) m =
  if (n =? m) then match getattr o m with Some _ => Some v | None => None end
  else getattr o m.
Proof.
  unfold getattr. induction o as [|[n0 v0] o IH]; simpl.
  - now destruct (n =? m).
  - change (key_eqb m n0) with (m =? n0).
    destruct (String.eqb_spec n n0) as [->|N0]; simpl;
      change (key_eqb m n0) with (m =? n0).
    + rewrite (String.eqb_sym m n0). destruct (String.eqb_spec n0 m); auto.
    + destruct (String.eqb_spec m n0) as [->|N1].
      * destruct (String.eqb_spec n n0); congruence.
      * apply IH.
Qed.

Lemma names_setattr (o : pyobj) (n : string) (v : pyval) :
  map fst (setattr o n v) = map fst o.
Proof.
  induction o as [|[n0 v0] o IH]; simpl; auto.
  destruct (n =? n0); simpl; congruence.
Qed.

(** The populated instance has the fields of the instance it started from. *)
Lemma names_copy_fields (names : list string) (row : pydict) (o : pyobj) :
  map fst (copy_fields names row o) = map fst o.
Proof.
  unfold copy_fields. revert o.
  induction names as [|n names IH]; intros o; simpl; auto.
  rewrite IH. destruct (lookup (KStr n) row); auto using names_setattr.
Qed.

(** A field that is not among the names iterated over keeps its value. *)
Lemma getattr_copy_fields_other (names : list string) (row : pydict)
    (o : pyobj) (m : string) :
  ~ In m names -> getattr (copy_fields names row o) m = getattr o m.
Proof.
  unfold copy_fields. revert o.
  induction names as [|n names IH]; intros o NI; simpl; auto.
  rewrite IH by (simpl in NI; tauto).
  destruct (lookup (KStr n) row); auto.
  rewrite getattr_setattr.
  destruct (String.eqb_spec n m); auto. subst. simpl in NI. tauto.
Qed.

(** A field that is iterated over receives the value of the column of the
    same name, and keeps its value when the row has no such column. *)
Lemma getattr_copy_fields_in (names : list string) (row : pydict)
    (o : pyobj) (m : string) :
  In m names ->
  getattr (copy_fields names row o) m =
  match getattr o m, lookup (KStr m) row with
  | Some _, Some v => Some v
  | old, _ => old
  end.
Proof.
  unfold copy_fields. revert o.
  induction names as [|n names IH]; intros o I; simpl in *; [tauto|].
  set (o' := match lookup (KStr n) row with
             | Some v => setattr o n v | None => o end).
  assert (Ho' : getattr o' m =
                if (n =? m) then
                  match getattr o m, lookup (KStr m) row with
                  | Some _, Some v => Some v
                  | old, _ => old
                  end
                else getattr o m).
  { unfold o'. destruct (String.eqb_spec n m) as [->|N].
    - destruct (lookup (KStr m) row).
      + rewrite getattr_setattr, String.eqb_refl. reflexivity.
      + now destruct (getattr o m).
    - destruct (lookup (KStr n) row); auto.
      rewrite getattr_setattr. destruct (String.eqb_spec n m); congruence. }
  destruct (in_dec string_dec m names) as [I'|NI'].
  - rewrite (IH o' I'), Ho'.
    destruct (n =? m); auto.
    destruct (getattr o m), (lookup (KStr m) row); auto.
  - fold (copy_fields names row o').
    rewrite getattr_copy_fields_other by auto.
    rewrite Ho'. destruct I as [->|]; [|tauto].
    now rewrite String.eqb_refl.
Qed.

Lemma list_remove_incl (x : string) (l l' : list string) :
  list_remove x l = Ok l' -> forall y, In y l' -> In y l.
Proof.
  revert l'. induction l as [|a l IH]; simpl; intros l' E y I; [discriminate|].
  destruct (x =? a).
  - injection E as <-. auto.
  - bind_inv E. injection E as <-. destruct I as [->|I]; eauto.
Qed.

Lemma list_remove_NoDup (x : string) (l l' : list string) :
  NoDup l -> list_remove x l = Ok l' -> ~ In x l'.
Proof.
  revert l'. induction l as [|a l IH]; simpl; intros l' ND E; [discriminate|].
  inversion ND as [|? ? NI ND']; subst.
  destruct (String.eqb_spec x a) as [->|N].
  - injection E as <-. auto.
  - bind_inv E. injection E as <-. intros [->|I]; [congruence|].
    eapply IH; eauto.
Qed.

Lemma setattr_setattr (o : pyobj) (n : string) (v w : pyval) :
  setattr (setattr o n v) n w = setattr o n w.
Proof.
  induction o as [|[n0 v0] o IH]; simpl; auto.
  destruct (n =? n0) eqn:E; simpl; rewrite E; congruence.
Qed.

(** Appending an instance and then calling its methods leaves the list with
    the instance as the methods left it. *)
Lemma append_then_update (target sc0 sc1 : pyobj) (l : list pyval) :
  getattr target "sc_list" = Some (PList l) ->
  append_sc target sc0 = Ok (setattr target "sc_list" (PList (l ++ [PObj sc0])))
  /\ update_last_sc (setattr target "sc_list" (PList (l ++ [PObj sc0]))) sc1
     = setattr target "sc_list" (PList (l ++ [PObj sc1])).
Proof.
  intros G. unfold append_sc, update_last_sc. rewrite G. split; auto.
  rewrite getattr_setattr, String.eqb_refl, G.
  now rewrite removelast_last, setattr_setattr.
Qed.

Lemma append_sc_inv (target sc0 t' : pyobj) :
  append_sc target sc0 = Ok t' ->
  exists l, getattr target "sc_list" = Some (PList l).
Proof.
  unfold append_sc. destruct (getattr target "sc_list") as [[]|]; try discriminate.
  eauto.
Qed.

(** * The phases of one iteration *)

Section Phases.
Variables TAPShape TAPStatementConstraint : dataclass.
Variable config_dict : pydict.
Variable dshape : pyval.

Local Abbreviation body :=
  (loop_body TAPShape TAPStatementConstraint config_dict dshape).

Lemma first_valid_row_inv (st st1 : frame) (row row1 : pydict) :
  first_valid_row TAPShape dshape st row = Ok (st1, row1) ->
  row1 = written_back dshape st row /\
  ((first_valid_row_encountered st = false /\ st1 = st) \/
   (first_valid_row_encountered st = true /\
    exists k o,
      as_key (if truthy (dict_get row "shapeID")
              then dict_get row "shapeID" else dshape) = Ok k /\
      set_shape_fields TAPShape (fresh TAPShape) row1 = Ok o /\
      st1 = set_new_shape k o false (warnings st) (set_sh_id k st))).
Proof.
  unfold first_valid_row, written_back.
  destruct (first_valid_row_encountered st); simpl.
  - destruct (truthy (dict_get row "shapeID")); simpl; intros E;
      bind_inv E; bind_inv E; injection E as <- <-;
      (split; [reflexivity | right; split; [reflexivity | eauto]]).
  - intros E. injection E as <- <-. auto.
Qed.

Lemma truthy_dict_get (row : pydict) (name : string) :
  truthy (dict_get row name) = true ->
  getitem row (KStr name) = Ok (dict_get row name).
Proof.
  unfold dict_get, getitem. destruct (lookup (KStr name) row); auto.
  discriminate.
Qed.

Lemma later_valid_row_inv (st st2 : frame) (row : pydict) :
  later_valid_row st row = Ok st2 ->
  (first_valid_row_encountered st = true /\ st2 = st) \/
  (first_valid_row_encountered st = false /\
   exists k, st2 = set_sh_id k st /\
     if truthy (dict_get row "shapeID")
     then as_key (dict_get row "shapeID") = Ok k
     else last_key (shapes st) = Ok k).
Proof.
  unfold later_valid_row.
  destruct (first_valid_row_encountered st); simpl.
  - intros E. injection E as <-. auto.
  - destruct (truthy (dict_get row "shapeID")) eqn:T; intros E; right;
      split; auto.
    + rewrite (truthy_dict_get _ _ T) in E. simpl in E.
      bind_inv E. injection E as <-. eauto.
    + bind_inv E. injection E as <-. eauto.
Qed.

Lemma new_shape_inv (st st3 : frame) (row : pydict) :
  new_shape TAPShape st row = Ok st3 ->
  exists k, sh_id st = Some k /\
    ((mem k (shapes st) = true /\ st3 = st) \/
     (mem k (shapes st) = false /\
      exists o, set_shape_fields TAPShape (fresh TAPShape) row = Ok o /\
        st3 = set_new_shape k o (first_valid_row_encountered st)
                (assign k [] (warnings st)) st)).
Proof.
  unfold new_shape. intros E. bind_inv E.
  destruct (sh_id st) as [k|]; [|discriminate]. injection Ha as <-.
  exists k. split; auto.
  destruct (mem k (shapes st)); simpl in E.
  - injection E as <-. auto.
  - bind_inv E. injection E as <-. right. eauto.
Qed.

Lemma shape_step_inv (st st4 : frame) :
  shape_step TAPShape config_dict st = Ok st4 ->
  exists r o k,
    shape st = Some r /\ lookup r (shapes st) = Some o /\ sh_id st = Some k /\
    let o' := normalize TAPShape (set_settings TAPShape config_dict o) in
    st4 = set_shape_step (assign r o' (shapes st)) (get_warnings TAPShape o')
            (add_warnings (warnings st) k (get_warnings TAPShape o')) st.
Proof.
  unfold shape_step. intros E. bind_inv E.
  destruct (shape st) as [r|]; [|discriminate]. injection Ha as <-.
  bind_inv E. unfold getitem in Ha.
  destruct (lookup r (shapes st)) as [o|] eqn:L; [|discriminate].
  injection Ha as <-. bind_inv E.
  destruct (sh_id st) as [k|]; [|discriminate]. injection Ha as <-.
  injection E as <-. exists r, o, k. auto.
Qed.

Lemma sc_step_inv (st st5 : frame) (row : pydict) :
  sc_step TAPStatementConstraint config_dict st row = Ok st5 ->
  exists k target l,
    sh_id st = Some k /\ lookup k (shapes st) = Some target /\
    getattr target "sc_list" = Some (PList l) /\
    let o := normalize TAPStatementConstraint
               (set_settings TAPStatementConstraint config_dict
                  (new_sc TAPStatementConstraint row)) in
    st5 = set_sc_step
            (assign k (setattr target "sc_list" (PList (l ++ [PObj o])))
               (shapes st))
            o (get_warnings TAPStatementConstraint o)
            (add_warnings (warnings st) k
               (get_warnings TAPStatementConstraint o)) st.
Proof.
  unfold sc_step. intros E. bind_inv E.
  destruct (sh_id st) as [k|]; [|discriminate]. injection Ha as <-.
  bind_inv E. unfold getitem in Ha.
  destruct (lookup k (shapes st)) as [target|] eqn:L; [|discriminate].
  injection Ha as <-. bind_inv E.
  destruct (append_sc_inv _ _ _ Ha) as [l G].
  destruct (append_then_update target (new_sc TAPStatementConstraint row)
              (normalize TAPStatementConstraint
                 (set_settings TAPStatementConstraint config_dict
                    (new_sc TAPStatementConstraint row))) l G) as [A U].
  rewrite A in Ha. injection Ha as <-. rewrite U in E.
  injection E as <-. exists k, target, l. auto.
Qed.

Lemma assemble_inv (st st6 : frame) :
  assemble st = Ok st6 ->
  exists ds, public_shapes (map snd (shapes st)) = Ok ds /\
    st6 = set_results (PDict [(KStr "shapes", PList ds)])
            (warnings_as_dict (warnings st)) st.
Proof.
  unfold assemble. intros E. bind_inv E. injection E as <-. eauto.
Qed.

(** A row whose [propertyID] is falsy leaves the frame and the row as they
    are. *)
Lemma loop_body_skip (st : frame) (row : pydict) (v : pyval) :
  lookup (KStr "propertyID") row = Some v -> truthy v = false ->
  body st row = Ok (st, row).
Proof.
  intros L T. unfold loop_body, getitem. rewrite L. simpl. now rewrite T.
Qed.

Lemma loop_body_invalid (st st' : frame) (row row' : pydict) :
  valid row = false -> body st row = Ok (st', row') -> st' = st /\ row' = row.
Proof.
  unfold valid, loop_body, getitem.
  destruct (lookup (KStr "propertyID") row) as [v|]; simpl; [|discriminate].
  intros ->. simpl. intros E. injection E as <- <-. auto.
Qed.

(** A valid row goes through the six phases in turn. *)
Lemma loop_body_valid (st st' : frame) (row row' : pydict) :
  valid row = true -> body st row = Ok (st', row') ->
  exists st1 st2 st3 st4 st5,
    first_valid_row TAPShape dshape st row = Ok (st1, row') /\
    later_valid_row st1 row' = Ok st2 /\
    new_shape TAPShape st2 row' = Ok st3 /\
    shape_step TAPShape config_dict st3 = Ok st4 /\
    sc_step TAPStatementConstraint config_dict st4 row' = Ok st5 /\
    assemble st5 = Ok st'.
Proof.
  unfold valid, loop_body, getitem.
  destruct (lookup (KStr "propertyID") row) as [v|]; simpl; [|discriminate].
  intros ->. simpl. intros E.
  bind_inv E. destruct a as [st1 row1].
  bind_inv E. rename a into st2.
  bind_inv E. rename a into st3.
  bind_inv E. rename a into st4.
  bind_inv E. rename a into st5.
  bind_inv E. injection E as <- <-.
  exists st1, st2, st3, st4, st5. auto 10.
Qed.

End Phases.

Lemma In_keys_assign {K V : Type} `{Key K} (k x : K) (v : V) (d : list (K * V)) :
  In x (keys (assign k v d)) <-> x = k \/ In x (keys d).
Proof.
  rewrite keys_assign. destruct (mem k d) eqn:M.
  - apply mem_In_keys in M. split; [auto | intros [->|]; auto].
  - rewrite in_app_iff. simpl. intuition congruence.
Qed.

(** * One iteration on a valid row *)

Section ValidStep.
Variables TAPShape TAPStatementConstraint : dataclass.
Variable config_dict : pydict.
Variable dshape : pyval.

Local Abbreviation body :=
  (loop_body TAPShape TAPStatementConstraint config_dict dshape).
Local Abbreviation shape_methods :=
  (fun o => normalize TAPShape (set_settings TAPShape config_dict o)).
Local Abbreviation sc_methods :=
  (fun o => normalize TAPStatementConstraint
              (set_settings TAPStatementConstraint config_dict o)).

(** Lines 76-95: the key is resolved, and a shape is created for it when it
    is new. *)
Lemma resolve_key (st st1 st2 st3 : frame) (row row1 : pydict) :
  consistent st ->
  first_valid_row TAPShape dshape st row = Ok (st1, row1) ->
  later_valid_row st1 row1 = Ok st2 ->
  new_shape TAPShape st2 row1 = Ok st3 ->
  exists k,
    sh_id st3 = Some k /\
    first_valid_row_encountered st3 = false /\
    row1 = written_back dshape st row /\
    (if truthy (dict_get row "shapeID")
     then as_key (dict_get row "shapeID") = Ok k
     else if first_valid_row_encountered st then as_key dshape = Ok k
          else last_key (shapes st) = Ok k) /\
    ((mem k (shapes st) = true /\ shapes st3 = shapes st /\
      warnings st3 = warnings st) \/
     (mem k (shapes st) = false /\
      exists o, set_shape_fields TAPShape (fresh TAPShape) row1 = Ok o /\
        shapes st3 = assign k o (shapes st) /\
        (warnings st3 = warnings st \/
         warnings st3 = assign k [] (warnings st)))).
Proof.
  intros [C1 C2] E1 E2 E3.
  apply first_valid_row_inv in E1. destruct E1 as [-> E1].
  destruct E1 as [[F ->]|[F (k & o & K & O & ->)]].
  - (* a later valid row *)
    apply later_valid_row_inv in E2.
    destruct E2 as [[F' _]|[_ (k & -> & K)]]; [congruence|].
    apply new_shape_inv in E3. destruct E3 as (k' & S & E3).
    simpl in S. injection S as <-.
    unfold written_back in *. rewrite F in *. simpl in *.
    exists k. destruct E3 as [[M ->]|[M (o & O & ->)]]; simpl;
      rewrite ?F; (repeat split; auto).
    right. split; auto. exists o. auto.
  - (* the first valid row *)
    destruct (C1 F) as [S0 W0].
    apply later_valid_row_inv in E2. simpl in E2.
    destruct E2 as [[F' _]|[_ (k2 & -> & K2)]]; [discriminate|].
    assert (k2 = k) as ->.
    { unfold written_back in K2. rewrite F in K2. simpl in K2.
      destruct (truthy (dict_get row "shapeID")) eqn:T; simpl in K2.
      - rewrite T in K2. congruence.
      - unfold dict_get at 1 2 in K2.
        rewrite lookup_assign_same in K2.
        destruct (truthy dshape); [congruence|].
        rewrite S0 in K2. unfold last_key in K2. simpl in K2. congruence. }
    apply new_shape_inv in E3. destruct E3 as (k' & S & E3).
    simpl in S. injection S as <-.
    simpl in E3. rewrite S0 in E3. unfold mem in E3. simpl in E3.
    rewrite key_eqb_refl in E3.
    destruct E3 as [[_ ->]|[M _]]; [|discriminate].
    exists k. simpl. rewrite F, S0.
    repeat split; auto.
    + destruct (truthy (dict_get row "shapeID")); auto.
    + right. split; auto. exists o. auto.
Qed.

(** The frame after an iteration on a valid row, phase by phase. *)
Lemma valid_step (st st' : frame) (row row' : pydict) :
  consistent st -> valid row = true -> body st row = Ok (st', row') ->
  exists k sh3 ws3 r o3 target l,
    row' = written_back dshape st row /\
    (if truthy (dict_get row "shapeID")
     then as_key (dict_get row "shapeID") = Ok k
     else if first_valid_row_encountered st then as_key dshape = Ok k
          else last_key (shapes st) = Ok k) /\
    ((mem k (shapes st) = true /\ sh3 = shapes st /\ ws3 = warnings st) \/
     (mem k (shapes st) = false /\
      exists o, set_shape_fields TAPShape (fresh TAPShape) row' = Ok o /\
        sh3 = assign k o (shapes st) /\
        (ws3 = warnings st \/ ws3 = assign k [] (warnings st)))) /\
    lookup r sh3 = Some o3 /\
    lookup k (assign r (shape_methods o3) sh3) = Some target /\
    getattr target "sc_list" = Some (PList l) /\
    let sw := get_warnings TAPShape (shape_methods o3) in
    let o := sc_methods (new_sc TAPStatementConstraint row') in
    let scw := get_warnings TAPStatementConstraint o in
    shapes st' = assign k (setattr target "sc_list" (PList (l ++ [PObj o])))
                   (assign r (shape_methods o3) sh3) /\
    warnings st' = add_warnings (add_warnings ws3 k sw) k scw /\
    first_valid_row_encountered st' = false /\
    sh_id st' = Some k /\ shape_warnings st' = Some sw /\
    sc st' = Some o /\ sc_warnings st' = Some scw /\
    (exists ds, public_shapes (map snd (shapes st')) = Ok ds /\
       tapshapes_dict st' = Some (PDict [(KStr "shapes", PList ds)])) /\
    warnings_dict st' = Some (warnings_as_dict (warnings st')).
Proof.
  intros C V E.
  destruct (loop_body_valid _ _ _ _ _ _ _ _ V E)
    as (st1 & st2 & st3 & st4 & st5 & E1 & E2 & E3 & E4 & E5 & E6).
  destruct (resolve_key _ _ _ _ _ _ C E1 E2 E3)
    as (k & S3 & F3 & R & Kspec & Sh3).
  apply shape_step_inv in E4.
  destruct E4 as (r & o3 & k4 & R4 & L4 & S4 & ->).
  rewrite S3 in S4. injection S4 as <-.
  apply sc_step_inv in E5.
  destruct E5 as (k5 & target & l & S5 & L5 & G5 & ->).
  simpl in S5. rewrite S3 in S5. injection S5 as <-. simpl in L5.
  apply assemble_inv in E6. destruct E6 as (ds & P & ->). simpl in P.
  exists k, (shapes st3), (warnings st3), r, o3, target, l.
  simpl. repeat split; auto.
  exists ds. auto.
Qed.

End ValidStep.

(** * Shapes, constraints and messages across an assignment *)

Lemma constraints_of_assign (sh : list (pykey * pyobj)) (k k' : pykey) (o : pyobj) :
  constraints_of (assign k o sh) k' =
  if key_eqb k k' then sc_items o else constraints_of sh k'.
Proof.
  unfold constraints_of. rewrite lookup_assign. now destruct (key_eqb k k').
Qed.

Lemma constraints_of_update (sh : list (pykey * pyobj)) (r k' : pykey) (o o' : pyobj) :
  lookup r sh = Some o -> sc_items o' = sc_items o ->
  constraints_of (assign r o' sh) k' = constraints_of sh k'.
Proof.
  intros L E. rewrite constraints_of_assign.
  destruct (key_eqb_spec r k') as [<-|N]; auto.
  unfold constraints_of. now rewrite L.
Qed.

Lemma messages_assign_empty (ws : list (pykey * list (pykey * list pyval)))
    (k k' e : pykey) :
  lookup k ws = None -> messages (assign k [] ws) k' e = messages ws k' e.
Proof.
  intros L. unfold messages. rewrite lookup_assign.
  destruct (key_eqb_spec k k') as [<-|N]; auto. now rewrite L.
Qed.

Lemma messages_add_warning (ws : list (pykey * list (pykey * list pyval)))
    (k elem k' e : pykey) (warn : pyval) :
  messages (add_warning ws k elem warn) k' e =
  messages ws k' e ++
  (if key_eqb k k' && key_eqb elem e then [warn] else []).
Proof.
  unfold messages, add_warning. rewrite lookup_assign.
  destruct (key_eqb_spec k k') as [<-|N]; cbn [andb].
  - rewrite lookup_assign.
    destruct (key_eqb_spec elem e) as [<-|N'].
    + destruct (lookup k ws) as [inner|]; auto.
    + rewrite app_nil_r. destruct (lookup k ws) as [inner|]; auto.
  - now rewrite app_nil_r.
Qed.

Lemma messages_add_warnings (emitted : pydict)
    (ws : list (pykey * list (pykey * list pyval))) (k k' e : pykey) :
  messages (add_warnings ws k emitted) k' e =
  messages ws k' e ++ (if key_eqb k k' then emitted_for e emitted else []).
Proof.
  unfold add_warnings, emitted_for. revert ws.
  induction emitted as [|[elem warn] emitted IH]; intros ws; simpl.
  - destruct (key_eqb k k'); now rewrite app_nil_r.
  - rewrite IH, messages_add_warning, <- app_assoc. f_equal.
    destruct (key_eqb k k'), (key_eqb elem e); simpl; auto.
Qed.

Lemma keys_add_warnings (emitted : pydict)
    (ws : list (pykey * list (pykey * list pyval))) (k x : pykey) :
  In x (keys (add_warnings ws k emitted)) -> x = k \/ In x (keys ws).
Proof.
  unfold add_warnings. revert ws.
  induction emitted as [|[elem warn] emitted IH]; intros ws; simpl; auto.
  intros I. apply IH in I. destruct I as [->|I]; auto.
  unfold add_warning in I. apply In_keys_assign in I. tauto.
Qed.

(** * What an iteration on a valid row does *)

Section StepFacts.
Variables TAPShape TAPStatementConstraint : dataclass.
Variable config_dict : pydict.
Variable dshape : pyval.

Local Abbreviation body :=
  (loop_body TAPShape TAPStatementConstraint config_dict dshape).
Local Abbreviation sc_methods :=
  (fun o => normalize TAPStatementConstraint
              (set_settings TAPStatementConstraint config_dict o)).

(** The iteration leaves exactly one event, for the row as written back,
    with the constraint built from that row. *)
Lemma step_snapshot (st st' : frame) (row row' : pydict) :
  consistent st -> valid row = true -> body st row = Ok (st', row') ->
  row' = written_back dshape st row /\
  exists k sw,
    sh_id st' = Some k /\
    snapshot st' row' =
    [{| ev_row := row'; ev_key := k; ev_shape_warnings := sw;
        ev_sc := sc_methods (new_sc TAPStatementConstraint row');
        ev_sc_warnings :=
          get_warnings TAPStatementConstraint
            (sc_methods (new_sc TAPStatementConstraint row')) |}].
Proof.
  intros C V E.
  destruct (valid_step _ _ _ _ _ _ _ _ C V E)
    as (k & sh3 & ws3 & r & o3 & target & l & R & _ & _ & _ & _ & _ &
        _ & _ & _ & S & SW & SC & SCW & _).
  split; auto. unfold snapshot. rewrite S, SW, SC, SCW. eauto.
Qed.

(** Lines 76-90: the key the row resolves to. *)
Lemma step_key (st st' : frame) (row row' : pydict) (k : pykey) :
  consistent st -> valid row = true -> body st row = Ok (st', row') ->
  sh_id st' = Some k ->
  (if truthy (dict_get row "shapeID")
   then as_key (dict_get row "shapeID") = Ok k
   else if first_valid_row_encountered st then as_key dshape = Ok k
        else last_key (shapes st) = Ok k)
  /\ keys (shapes st') =
     (if mem k (shapes st) then keys (shapes st) else keys (shapes st) ++ [k])
  /\ In k (keys (shapes st')).
Proof.
  intros C V E S.
  destruct (valid_step _ _ _ _ _ _ _ _ C V E)
    as (k0 & sh3 & ws3 & r & o3 & target & l & R & Kspec & Sh3 & L3 & L4 &
        _ & Sh' & _ & _ & S' & _).
  rewrite S in S'. injection S' as <-.
  assert (K3 : keys sh3 =
               if mem k (shapes st) then keys (shapes st)
               else keys (shapes st) ++ [k]).
  { destruct Sh3 as [(M & -> & _)|(M & o & _ & -> & _)]; rewrite M; auto.
    now rewrite keys_assign, M. }
  assert (K' : keys (shapes st') = keys sh3).
  { rewrite Sh'. rewrite keys_assign.
    unfold mem at 1. rewrite L4.
    rewrite keys_assign. unfold mem. now rewrite L3. }
  split; auto. split; [congruence|].
  rewrite Sh'. apply In_keys_assign. auto.
Qed.

(** Lines 101-106 and 124-129: the messages of the shape hook, then those
    of the constraint hook, are added to the lists of [sh_id]. *)
Lemma step_messages (st st' : frame) (row row' : pydict)
    (k : pykey) (sw scw : pydict) :
  consistent st -> valid row = true -> body st row = Ok (st', row') ->
  sh_id st' = Some k -> shape_warnings st' = Some sw ->
  sc_warnings st' = Some scw ->
  forall k' e,
    messages (warnings st') k' e =
    messages (warnings st) k' e ++
    (if key_eqb k k' then emitted_for e sw ++ emitted_for e scw else []).
Proof.
  intros C V E S SW SCW k' e.
  destruct (valid_step _ _ _ _ _ _ _ _ C V E)
    as (k0 & sh3 & ws3 & r & o3 & target & l & R & Kspec & Sh3 & L3 & L4 &
        _ & _ & W' & _ & S' & SW' & _ & SCW' & _).
  rewrite S in S'. injection S' as <-.
  rewrite SW in SW'. injection SW' as ->.
  rewrite SCW in SCW'. injection SCW' as ->.
  rewrite W', !messages_add_warnings, <- app_assoc.
  assert (M3 : messages ws3 k' e = messages (warnings st) k' e).
  { destruct Sh3 as [(_ & _ & ->)|(M & o & _ & _ & [->| ->])]; auto.
    apply messages_assign_empty. apply lookup_None_keys.
    intros I. apply (proj2 C) in I. apply mem_In_keys in I. congruence. }
  rewrite M3. f_equal. now destruct (key_eqb k k').
Qed.

Lemma step_consistent (st st' : frame) (row row' : pydict) :
  consistent st -> valid row = true -> body st row = Ok (st', row') ->
  consistent st'.
Proof.
  intros C V E.
  destruct (valid_step _ _ _ _ _ _ _ _ C V E)
    as (k & sh3 & ws3 & r & o3 & target & l & R & Kspec & Sh3 & L3 & L4 &
        _ & Sh' & W' & F' & S' & _).
  destruct (step_key _ _ _ _ _ C V E S') as (_ & K' & I').
  split; [congruence|].
  intros x Ix. rewrite W' in Ix.
  apply keys_add_warnings in Ix. destruct Ix as [->|Ix]; auto.
  apply keys_add_warnings in Ix. destruct Ix as [->|Ix]; auto.
  assert (Ix' : x = k \/ In x (keys (warnings st))).
  { destruct Sh3 as [(_ & _ & ->)|(M & o & _ & _ & [->| ->])]; auto.
    apply In_keys_assign in Ix. auto. }
  destruct Ix' as [->|Ix']; auto.
  apply (proj2 C) in Ix'. rewrite K'.
  destruct (mem k (shapes st)); auto. apply in_or_app. auto.
Qed.

(** Lines 131-141: the results are assembled from the shapes and warnings
    as the iteration leaves them. *)
Lemma step_assembled (st st' : frame) (row row' : pydict) :
  consistent st -> valid row = true -> body st row = Ok (st', row') ->
  first_valid_row_encountered st' = false /\
  (exists ds, public_shapes (map snd (shapes st')) = Ok ds /\
     tapshapes_dict st' = Some (PDict [(KStr "shapes", PList ds)])) /\
  warnings_dict st' = Some (warnings_as_dict (warnings st')).
Proof.
  intros C V E.
  destruct (valid_step _ _ _ _ _ _ _ _ C V E)
    as (k & sh3 & ws3 & r & o3 & target & l & _ & _ & _ & _ & _ &
        _ & _ & _ & F' & _ & _ & _ & _ & T' & W').
  auto.
Qed.

(** ** Statement-constraint lists *)

(** The methods of a shape do not touch its list of statement constraints,
    and a fresh shape has an empty list. *)
Hypothesis shape_methods_keep_sc_list : forall o,
  getattr (normalize TAPShape (set_settings TAPShape config_dict o)) "sc_list"
  = getattr o "sc_list".
Hypothesis fresh_sc_list : getattr (fresh TAPShape) "sc_list" = Some (PList []).
Hypothesis fresh_names : NoDup (map fst (fresh TAPShape)).

Lemma set_shape_fields_sc_list (row : pydict) (o : pyobj) :
  set_shape_fields TAPShape (fresh TAPShape) row = Ok o ->
  getattr o "sc_list" = Some (PList []).
Proof.
  unfold set_shape_fields. intros E. bind_inv E. bind_inv E.
  injection E as <-.
  rewrite getattr_copy_fields_other, fresh_sc_list; auto.
  intros I. eapply list_remove_incl in I; eauto.
  eapply list_remove_NoDup in I; eauto.
Qed.

(** Every shape keeps holding a list. *)
Lemma step_lists (st st' : frame) (row row' : pydict) :
  consistent st -> valid row = true -> body st row = Ok (st', row') ->
  lists_ok (shapes st) -> lists_ok (shapes st').
Proof.
  intros C V E LO.
  destruct (valid_step _ _ _ _ _ _ _ _ C V E)
    as (k & sh3 & ws3 & r & o3 & target & l & R & Kspec & Sh3 & L3 & L4 &
        G & Sh' & _).
  assert (LO3 : lists_ok sh3).
  { destruct Sh3 as [(_ & -> & _)|(M & o0 & O & -> & _)]; auto.
    intros x o. rewrite lookup_assign.
    destruct (key_eqb k x); [|apply LO].
    intros [= <-]. exists []. eapply set_shape_fields_sc_list; eauto. }
  intros x o. rewrite Sh', lookup_assign.
  destruct (key_eqb k x).
  - intros [= <-]. rewrite getattr_setattr, String.eqb_refl, G. eauto.
  - rewrite lookup_assign. destruct (key_eqb r x); [|apply LO3].
    intros [= <-]. rewrite shape_methods_keep_sc_list. eapply LO3; eauto.
Qed.

(** Line 116: the constraint of the row goes last in the list of the shape
    it resolves to, and no other list changes. *)
Lemma step_constraints (st st' : frame) (row row' : pydict)
    (k : pykey) (o : pyobj) :
  consistent st -> valid row = true -> body st row = Ok (st', row') ->
  sh_id st' = Some k -> sc st' = Some o ->
  forall k',
    constraints_of (shapes st') k' =
    constraints_of (shapes st) k' ++ (if key_eqb k k' then [PObj o] else []).
Proof.
  intros C V E S SC k'.
  destruct (valid_step _ _ _ _ _ _ _ _ C V E)
    as (k0 & sh3 & ws3 & r & o3 & target & l & R & Kspec & Sh3 & L3 & L4 &
        G & Sh' & _ & _ & S' & _ & SC' & _).
  rewrite S in S'. injection S' as <-.
  rewrite SC in SC'. injection SC' as ->.
  assert (C3 : forall x, constraints_of sh3 x = constraints_of (shapes st) x).
  { intros x.
    destruct Sh3 as [(_ & -> & _)|(M & o0 & O & -> & _)]; auto.
    rewrite constraints_of_assign.
    destruct (key_eqb_spec k x) as [<-|N]; auto.
    unfold sc_items. rewrite (set_shape_fields_sc_list _ _ O).
    unfold constraints_of.
    unfold mem in M. now destruct (lookup k (shapes st)). }
  set (sh4 := assign r
                (normalize TAPShape (set_settings TAPShape config_dict o3))
                sh3) in *.
  assert (C4 : forall x, constraints_of sh4 x = constraints_of sh3 x).
  { intros x. unfold sh4. eapply constraints_of_update; eauto.
    unfold sc_items. now rewrite shape_methods_keep_sc_list. }
  rewrite Sh', constraints_of_assign.
  destruct (key_eqb_spec k k') as [<-|N].
  - unfold sc_items. rewrite getattr_setattr, String.eqb_refl, G.
    f_equal. rewrite <- C3, <- C4. unfold constraints_of, sc_items.
    now rewrite L4, G.
  - now rewrite C4, C3, app_nil_r.
Qed.

End StepFacts.

Lemma valid_written_back (dshape : pyval) (st : frame) (row : pydict) :
  valid (written_back dshape st row) = valid row.
Proof.
  unfold written_back, valid.
  destruct (first_valid_row_encountered st && negb (truthy (dict_get row "shapeID")));
    auto.
  rewrite lookup_assign_other; auto. discriminate.
Qed.

Lemma consistent_initial : consistent initial_frame.
Proof. split; simpl; auto. Qed.

(** * The loop over the rows *)

Section LoopFacts.
Variables TAPShape TAPStatementConstraint : dataclass.
Variable config_dict : pydict.
Variable dshape : pyval.

Local Abbreviation body :=
  (loop_body TAPShape TAPStatementConstraint config_dict dshape).
Local Abbreviation run :=
  (loop TAPShape TAPStatementConstraint config_dict dshape).
Local Abbreviation trace :=
  (events TAPShape TAPStatementConstraint config_dict dshape).
Local Abbreviation sc_methods :=
  (fun o => normalize TAPStatementConstraint
              (set_settings TAPStatementConstraint config_dict o)).

Lemma loop_cons_inv (st st' : frame) (row : pydict) (rest rows' : list pydict) :
  run st (row :: rest) = Ok (st', rows') ->
  exists st1 row1 rest',
    body st row = Ok (st1, row1) /\ run st1 rest = Ok (st', rest') /\
    rows' = row1 :: rest'.
Proof.
  simpl. intros E. bind_inv E. destruct a as [st1 row1].
  bind_inv E. destruct a as [st2 rest']. injection E as <- <-.
  exists st1, row1, rest'. auto.
Qed.

(** The step of the loop, by cases on the validity of the row. *)
Lemma body_cases (st st1 : frame) (row row1 : pydict) :
  consistent st -> body st row = Ok (st1, row1) ->
  (valid row = false /\ st1 = st /\ row1 = row) \/
  (valid row = true /\ consistent st1 /\
   row1 = written_back dshape st row /\
   exists ev, snapshot st1 row1 = [ev] /\ ev_row ev = row1 /\
     sh_id st1 = Some (ev_key ev) /\
     shape_warnings st1 = Some (ev_shape_warnings ev) /\
     sc st1 = Some (ev_sc ev) /\
     sc_warnings st1 = Some (ev_sc_warnings ev) /\
     ev_sc ev = sc_methods (new_sc TAPStatementConstraint row1) /\
     ev_sc_warnings ev = get_warnings TAPStatementConstraint (ev_sc ev)).
Proof.
  intros C E. destruct (valid row) eqn:V.
  - right. split; auto. split; [eapply step_consistent; eauto|].
    destruct (step_snapshot _ _ _ _ _ _ _ _ C V E) as (R & k & sw & S & Sn).
    split; auto. eexists. split; [exact Sn|]. simpl.
    unfold snapshot in Sn.
    destruct (sh_id st1), (shape_warnings st1), (sc st1), (sc_warnings st1);
      try discriminate.
    injection Sn as -> -> -> ->. auto 10.
  - left. split; auto. eapply loop_body_invalid; eauto.
Qed.

Lemma loop_consistent (rows : list pydict) :
  forall st st' rows',
    consistent st -> run st rows = Ok (st', rows') -> consistent st'.
Proof.
  induction rows as [|row rest IH]; intros st st' rows' C E.
  - simpl in E. injection E as <- _. auto.
  - apply loop_cons_inv in E. destruct E as (st1 & row1 & rest' & B & L & _).
    destruct (body_cases _ _ _ _ C B) as [(_ & -> & _)|(_ & C1 & _)]; eauto.
Qed.

(** The events are the valid rows, in the order of the rows, each with the
    constraint built from it. *)
Lemma loop_events (rows : list pydict) :
  forall st st' rows',
    consistent st -> run st rows = Ok (st', rows') ->
    map ev_row (trace st rows) = filter valid rows' /\
    Forall (fun ev =>
              ev_sc ev = sc_methods (new_sc TAPStatementConstraint (ev_row ev))
              /\ ev_sc_warnings ev
                 = get_warnings TAPStatementConstraint (ev_sc ev))
           (trace st rows).
Proof.
  induction rows as [|row rest IH]; intros st st' rows' C E.
  - simpl in E. injection E as _ <-. simpl. auto.
  - apply loop_cons_inv in E. destruct E as (st1 & row1 & rest' & B & L & ->).
    simpl. rewrite B.
    destruct (body_cases _ _ _ _ C B)
      as [(V & -> & ->)|(V & C1 & R & ev & Sn & Er & _ & _ & _ & _ & Esc & Ew)].
    + rewrite V. simpl. eauto.
    + destruct (IH _ _ _ C1 L) as [IH1 IH2].
      assert (V1 : valid row1 = true)
        by (rewrite R, valid_written_back; exact V).
      rewrite V, V1, Sn. simpl.
      split; [congruence|]. constructor; auto.
      rewrite Er. auto.
Qed.

(** Lines 101-106 and 124-129 over a whole run. *)
Lemma loop_messages (rows : list pydict) :
  forall st st' rows',
    consistent st -> run st rows = Ok (st', rows') ->
    forall k e,
      messages (warnings st') k e =
      messages (warnings st) k e ++
      flat_map (fun ev =>
                  if key_eqb (ev_key ev) k
                  then emitted_for e (ev_shape_warnings ev)
                       ++ emitted_for e (ev_sc_warnings ev)
                  else [])
               (trace st rows).
Proof.
  induction rows as [|row rest IH]; intros st st' rows' C E k e.
  - simpl in E. injection E as <- _. simpl. now rewrite app_nil_r.
  - apply loop_cons_inv in E. destruct E as (st1 & row1 & rest' & B & L & ->).
    simpl. rewrite B.
    destruct (body_cases _ _ _ _ C B)
      as [(V & -> & ->)|(V & C1 & R & ev & Sn & Er & S & SW & _ & SCW & _)].
    + rewrite V. simpl. eauto.
    + rewrite V, Sn. simpl.
      rewrite (IH _ _ _ C1 L k e).
      rewrite (step_messages _ _ _ _ _ _ _ _ _ _ _ C V B S SW SCW k e).
      now rewrite <- app_assoc.
Qed.

(** The shapes are created in the order in which their keys first occur:
    a run only ever adds keys at the end. *)
Lemma loop_keys (rows : list pydict) :
  forall st st' rows',
    consistent st -> run st rows = Ok (st', rows') ->
    exists later, keys (shapes st') = keys (shapes st) ++ later.
Proof.
  induction rows as [|row rest IH]; intros st st' rows' C E.
  - simpl in E. injection E as <- _. exists []. now rewrite app_nil_r.
  - apply loop_cons_inv in E. destruct E as (st1 & row1 & rest' & B & L & ->).
    destruct (body_cases _ _ _ _ C B)
      as [(V & -> & ->)|(V & C1 & R & ev & Sn & Er & S & _)]; eauto.
    destruct (IH _ _ _ C1 L) as [later K].
    destruct (step_key _ _ _ _ _ _ _ _ _ C V B S) as (_ & K1 & _).
    rewrite K, K1. destruct (mem (ev_key ev) (shapes st)); eauto.
    rewrite <- app_assoc. eauto.
Qed.

Lemma loop_app (before : list pydict) :
  forall st st' rest rows',
    run st (before ++ rest) = Ok (st', rows') ->
    exists st1 before' rest',
      run st before = Ok (st1, before') /\ run st1 rest = Ok (st', rest') /\
      rows' = before' ++ rest'.
Proof.
  induction before as [|row before IH]; intros st st' rest rows' E.
  - exists st, [], rows'. auto.
  - simpl app in E. apply loop_cons_inv in E.
    destruct E as (st1 & row1 & rest1 & B & L & ->).
    destruct (IH _ _ _ _ L) as (st2 & before' & rest' & L1 & L2 & ->).
    exists st2, (row1 :: before'), rest'. simpl. rewrite B. simpl.
    rewrite L1. auto.
Qed.

(** The results held by the frame are those assembled from its shapes and
    warnings. *)
Lemma loop_assembled (rows : list pydict) :
  forall st st' rows',
    consistent st -> run st rows = Ok (st', rows') ->
    (forall t w, tapshapes_dict st = Some t -> warnings_dict st = Some w ->
       (exists ds, public_shapes (map snd (shapes st)) = Ok ds /\
                   t = PDict [(KStr "shapes", PList ds)]) /\
       w = warnings_as_dict (warnings st)) ->
    forall t w, tapshapes_dict st' = Some t -> warnings_dict st' = Some w ->
      (exists ds, public_shapes (map snd (shapes st')) = Ok ds /\
                  t = PDict [(KStr "shapes", PList ds)]) /\
      w = warnings_as_dict (warnings st').
Proof.
  induction rows as [|row rest IH]; intros st st' rows' C E A.
  - simpl in E. injection E as <- _. auto.
  - apply loop_cons_inv in E. destruct E as (st1 & row1 & rest' & B & L & ->).
    destruct (body_cases _ _ _ _ C B)
      as [(V & -> & ->)|(V & C1 & _)]; [eapply IH; eauto|].
    eapply IH; eauto.
    destruct (step_assembled _ _ _ _ _ _ _ _ C V B) as (_ & (ds & P & T) & W).
    intros t w Et Ew. rewrite T in Et. rewrite W in Ew.
    injection Et as <-. injection Ew as <-. eauto.
Qed.

End LoopFacts.

(** * Statement constraints over a whole run *)

Section ConstraintFacts.
Variables TAPShape TAPStatementConstraint : dataclass.
Variable config_dict : pydict.
Variable dshape : pyval.

Local Abbreviation run :=
  (loop TAPShape TAPStatementConstraint config_dict dshape).
Local Abbreviation trace :=
  (events TAPShape TAPStatementConstraint config_dict dshape).

Hypothesis shape_methods_keep_sc_list : forall o,
  getattr (normalize TAPShape (set_settings TAPShape config_dict o)) "sc_list"
  = getattr o "sc_list".
Hypothesis fresh_sc_list : getattr (fresh TAPShape) "sc_list" = Some (PList []).
Hypothesis fresh_names : NoDup (map fst (fresh TAPShape)).

Lemma loop_constraints (rows : list pydict) :
  forall st st' rows',
    consistent st -> run st rows = Ok (st', rows') ->
    forall k,
      constraints_of (shapes st') k =
      constraints_of (shapes st) k ++
      map (fun ev => PObj (ev_sc ev))
          (filter (fun ev => key_eqb (ev_key ev) k) (trace st rows)).
Proof.
  induction rows as [|row rest IH]; intros st st' rows' C E k.
  - simpl in E. injection E as <- _. simpl. now rewrite app_nil_r.
  - apply loop_cons_inv in E. destruct E as (st1 & row1 & rest' & B & L & ->).
    simpl. rewrite B.
    destruct (body_cases _ _ _ _ _ _ _ _ C B)
      as [(V & -> & ->)|(V & C1 & R & ev & Sn & Er & S & _ & SC & _)].
    + rewrite V. simpl. eauto.
    + rewrite V, Sn. simpl.
      rewrite (IH _ _ _ C1 L k).
      rewrite (step_constraints _ _ _ _ shape_methods_keep_sc_list
                 fresh_sc_list fresh_names _ _ _ _ _ _ C V B S SC k).
      rewrite <- app_assoc. f_equal.
      now destruct (key_eqb (ev_key ev) k).
Qed.

Lemma loop_lists (rows : list pydict) :
  forall st st' rows',
    consistent st -> run st rows = Ok (st', rows') ->
    lists_ok (shapes st) -> lists_ok (shapes st').
Proof.
  induction rows as [|row rest IH]; intros st st' rows' C E LO.
  - simpl in E. injection E as <- _. auto.
  - apply loop_cons_inv in E. destruct E as (st1 & row1 & rest' & B & L & ->).
    destruct (body_cases _ _ _ _ _ _ _ _ C B)
      as [(V & -> & ->)|(V & C1 & _)].
    + eapply IH; eauto.
    + eapply IH; eauto.
      exact (step_lists _ _ _ _ shape_methods_keep_sc_list fresh_sc_list
               fresh_names st st1 row row1 C V B LO).
Qed.

End ConstraintFacts.

(** * The public form of a shape *)

Lemma lookup_asdict_obj (o : pyobj) (name : string) :
  lookup (KStr name) (asdict_obj o) =
  match getattr o name with Some v => Some (asdict v) | None => None end.
Proof.
  unfold getattr. induction o as [|[n v] o IH]; simpl; auto.
  change (key_eqb (KStr name) (KStr n)) with (name =? n).
  change (key_eqb name n) with (name =? n).
  destruct (name =? n); auto.
Qed.

Lemma public_shape_inv (o : pyobj) (d : pyval) :
  public_shape o = Ok d ->
  exists x, getattr o "sc_list" = Some x /\
    d = PDict (assign (KStr "statement_constraints") (asdict x)
                 (remove_key (KStr "sc_list") (asdict_obj o))).
Proof.
  unfold public_shape, pop. rewrite lookup_asdict_obj.
  destruct (getattr o "sc_list") as [x|]; simpl; [|discriminate].
  intros [= <-]. eauto.
Qed.

Lemma public_shape_of_list (o : pyobj) (l : list pyval) :
  getattr o "sc_list" = Some (PList l) ->
  exists d, public_shape o = Ok (PDict d) /\
    lookup (KStr "statement_constraints") d = Some (PList (map asdict l)) /\
    (NoDup (map fst o) -> lookup (KStr "sc_list") d = None).
Proof.
  intros G. unfold public_shape, pop. rewrite lookup_asdict_obj, G. simpl.
  eexists. split; [reflexivity|]. split.
  - apply lookup_assign_same.
  - intros ND. rewrite lookup_assign_other by discriminate.
    apply lookup_remove_key_same. unfold keys, asdict_obj.
    rewrite map_map. simpl.
    rewrite <- (map_map fst KStr). apply Injective_map_NoDup; auto.
    intros a b [=]. auto.
Qed.

Lemma public_shapes_Forall2 (objs : list pyobj) :
  forall ds, public_shapes objs = Ok ds ->
    Forall2 (fun o d => public_shape o = Ok d) objs ds.
Proof.
  induction objs as [|o objs IH]; simpl; intros ds E.
  - injection E as <-. constructor.
  - bind_inv E. bind_inv E. injection E as <-. constructor; auto.
Qed.

(** Line 116: the constraint of the row is the last item of the list of the
    shape stored under the resolved key. *)
Lemma step_filed (TAPShape TAPStatementConstraint : dataclass)
    (config_dict : pydict) (dshape : pyval)
    (st st' : frame) (row row' : pydict) (k : pykey) (o : pyobj) :
  consistent st -> valid row = true ->
  loop_body TAPShape TAPStatementConstraint config_dict dshape st row
  = Ok (st', row') ->
  sh_id st' = Some k -> sc st' = Some o ->
  exists l, constraints_of (shapes st') k = l ++ [PObj o].
Proof.
  intros C V E S SC.
  destruct (valid_step _ _ _ _ _ _ _ _ C V E)
    as (k0 & sh3 & ws3 & r & o3 & target & l & _ & _ & _ & _ & _ &
        G & Sh' & _ & _ & S' & _ & SC' & _).
  rewrite S in S'. injection S' as <-.
  rewrite SC in SC'. injection SC' as ->.
  exists l. rewrite Sh', constraints_of_assign, key_eqb_refl.
  unfold sc_items. now rewrite getattr_setattr, String.eqb_refl, G.
Qed.

(** * The claims *)

(** C1. A valid row that comes after the first valid row resolves to its own
    [shapeID] when that is truthy, and otherwise to the last key of [shapes],
    which is the key of the shape created most recently: keys are only ever
    added at the end of [shapes].  The row is not written to, and its
    statement constraint is filed under the resolved key.  For rows R1(A),
    R2(no key), R3(B), R4(no key) the keys are A, A, B, B; when R3 reopens A
    after B was created, R4 still resolves to B. *)
Theorem C1_carry_forward :
  (forall (TAPShape TAPStatementConstraint : dataclass) (config_dict : pydict)
          (dshape : pyval) (rows rows' : list pydict) (st st' : frame)
          (row row' : pydict),
      loop TAPShape TAPStatementConstraint config_dict dshape
           initial_frame rows = Ok (st, rows') ->
      first_valid_row_encountered st = false ->
      valid row = true ->
      loop_body TAPShape TAPStatementConstraint config_dict dshape st row
      = Ok (st', row') ->
      exists k o,
        sh_id st' = Some k /\ sc st' = Some o /\ row' = row /\
        (if truthy (dict_get row "shapeID")
         then as_key (dict_get row "shapeID") = Ok k
         else last_key (shapes st) = Ok k) /\
        keys (shapes st') =
        (if mem k (shapes st) then keys (shapes st) else keys (shapes st) ++ [k])
        /\ exists l, constraints_of (shapes st') k = l ++ [PObj o])
  /\ map ev_key (events quiet_TAPShape quiet_TAPStatementConstraint
                   sample_config (PStr "default") initial_frame carry_rows)
     = [KStr "A"; KStr "A"; KStr "B"; KStr "B"]
  /\ map ev_key (events quiet_TAPShape quiet_TAPStatementConstraint
                   sample_config (PStr "default") initial_frame reopen_rows)
     = [KStr "A"; KStr "B"; KStr "A"; KStr "B"].
Proof.
  split; [|split; vm_compute; reflexivity].
  intros TAPShape TAPStatementConstraint config_dict dshape rows rows' st st'
         row row' L F V B.
  assert (C : consistent st)
    by (eapply loop_consistent; eauto using consistent_initial).
  destruct (body_cases _ _ _ _ _ _ _ _ C B)
    as [(V' & _)|(_ & _ & R & ev & _ & _ & S & _ & SC & _)]; [congruence|].
  destruct (step_key _ _ _ _ _ _ _ _ _ C V B S) as (K & Ks & _).
  exists (ev_key ev), (ev_sc ev).
  rewrite F in K. unfold written_back in R. rewrite F in R. simpl in R.
  repeat split; auto.
  eapply step_filed; eauto.
Qed.

Lemma C1_carry_forward_witness :
  loop quiet_TAPShape quiet_TAPStatementConstraint sample_config
       (PStr "default") initial_frame [sample_row "A" "p1"]
  = Ok (frame_A, [sample_row "A" "p1"]) /\
  first_valid_row_encountered frame_A = false /\
  valid (sample_row "" "p2") = true /\
  loop_body quiet_TAPShape quiet_TAPStatementConstraint sample_config
            (PStr "default") frame_A (sample_row "" "p2")
  = Ok (frame_AA, sample_row "" "p2") /\
  exists k o,
    sh_id frame_AA = Some k /\ sc frame_AA = Some o /\
    sample_row "" "p2" = sample_row "" "p2" /\
    (if truthy (dict_get (sample_row "" "p2") "shapeID")
     then as_key (dict_get (sample_row "" "p2") "shapeID") = Ok k
     else last_key (shapes frame_A) = Ok k) /\
    keys (shapes frame_AA) =
    (if mem k (shapes frame_A) then keys (shapes frame_A)
     else keys (shapes frame_A) ++ [k])
    /\ exists l, constraints_of (shapes frame_AA) k = l ++ [PObj o].
Proof.
  assert (H1 : loop quiet_TAPShape quiet_TAPStatementConstraint sample_config
                 (PStr "default") initial_frame [sample_row "A" "p1"]
               = Ok (frame_A, [sample_row "A" "p1"]))
    by (vm_compute; reflexivity).
  assert (H2 : first_valid_row_encountered frame_A = false)
    by (vm_compute; reflexivity).
  assert (H3 : valid (sample_row "" "p2") = true)
    by (vm_compute; reflexivity).
  assert (H4 : loop_body quiet_TAPShape quiet_TAPStatementConstraint
                 sample_config (PStr "default") frame_A (sample_row "" "p2")
               = Ok (frame_AA, sample_row "" "p2"))
    by (vm_compute; reflexivity).
  split; [exact H1|]. split; [exact H2|]. split; [exact H3|].
  split; [exact H4|].
  exact (proj1 C1_carry_forward _ _ _ _ _ _ _ _ _ _ H1 H2 H3 H4).
Defined.

(** * Skipped rows and the configuration *)

Section RunFacts.
Variables TAPShape TAPStatementConstraint : dataclass.

Local Abbreviation grouping := (_get_tapshapes TAPShape TAPStatementConstraint).

Lemma default_shape_get (config_dict : pydict) :
  default_shape config_dict = Ok (dict_get config_dict "default_shape_name").
Proof. reflexivity. Qed.

Lemma result_map_fst_cons {S A : Type} (m : result (S * list A)) (a : A) :
  result_map fst ('(st, rest) <- m ;; Ok (st, a :: rest)) = result_map fst m.
Proof. destruct m as [[st rest]|e]; reflexivity. Qed.

(** Only the frame in which the loop ends matters for the returned pair. *)
Lemma get_tapshapes_fst (rows : list pydict) (config_dict : pydict) :
  result_map fst (grouping rows config_dict) =
  (dshape <- default_shape config_dict ;;
   _ <- getitem config_dict (KStr "extra_shape_elements") ;;
   _ <- getitem config_dict (KStr "extra_statement_constraint_elements") ;;
   st <- result_map fst (loop TAPShape TAPStatementConstraint config_dict
                              dshape initial_frame rows) ;;
   t <- local (tapshapes_dict st) ;;
   w <- local (warnings_dict st) ;;
   Ok (t, w)).
Proof.
  unfold _get_tapshapes. rewrite default_shape_get. simpl.
  destruct (getitem config_dict (KStr "extra_shape_elements")); simpl; auto.
  destruct (getitem config_dict (KStr "extra_statement_constraint_elements"));
    simpl; auto.
  destruct (loop _ _ _ _ _ _) as [[st rows']|e]; simpl; auto.
  destruct (local (tapshapes_dict st)); simpl; auto.
  destruct (local (warnings_dict st)); simpl; auto.
Qed.

Section Skip.
Variable config_dict : pydict.
Variable dshape : pyval.
Variable row : pydict.
Variable v : pyval.
Hypothesis row_propertyID : lookup (KStr "propertyID") row = Some v.
Hypothesis propertyID_empty : truthy v = false.

Local Abbreviation run :=
  (loop TAPShape TAPStatementConstraint config_dict dshape).
Local Abbreviation trace :=
  (events TAPShape TAPStatementConstraint config_dict dshape).

Lemma skipped_not_valid : valid row = false.
Proof. unfold valid. now rewrite row_propertyID. Qed.

Lemma loop_skip_row (before rest : list pydict) :
  forall st,
    result_map fst (run st (before ++ row :: rest))
    = result_map fst (run st (before ++ rest)).
Proof.
  induction before as [|b before IH]; intros st; simpl.
  - rewrite (loop_body_skip _ _ _ _ _ _ _ row_propertyID propertyID_empty).
    simpl. apply result_map_fst_cons.
  - destruct (loop_body _ _ _ _ st b) as [[st1 b1]|e]; simpl; auto.
    now rewrite !result_map_fst_cons.
Qed.

Lemma events_skip_row (before rest : list pydict) :
  forall st, trace st (before ++ row :: rest) = trace st (before ++ rest).
Proof.
  induction before as [|b before IH]; intros st; simpl.
  - rewrite (loop_body_skip _ _ _ _ _ _ _ row_propertyID propertyID_empty).
    now rewrite skipped_not_valid.
  - destruct (loop_body _ _ _ _ st b) as [[st1 b1]|e]; simpl; auto.
    now rewrite IH.
Qed.

End Skip.

Lemma loop_all_skipped (config_dict : pydict) (dshape : pyval)
    (rows : list pydict) :
  Forall (fun row => exists v, lookup (KStr "propertyID") row = Some v
                               /\ truthy v = false) rows ->
  forall st,
    loop TAPShape TAPStatementConstraint config_dict dshape st rows
    = Ok (st, rows).
Proof.
  induction 1 as [|row rows (v & L & T) _ IH]; intros st; simpl; auto.
  rewrite (loop_body_skip _ _ _ _ _ _ _ L T). simpl. now rewrite IH.
Qed.

(** The loop reads the configuration only when it hands it to
    [set_settings]. *)
Lemma loop_body_ext (c1 c2 : pydict) (dshape : pyval) :
  (forall o, set_settings TAPShape c1 o = set_settings TAPShape c2 o) ->
  (forall o, set_settings TAPStatementConstraint c1 o
             = set_settings TAPStatementConstraint c2 o) ->
  forall st row,
    loop_body TAPShape TAPStatementConstraint c1 dshape st row
    = loop_body TAPShape TAPStatementConstraint c2 dshape st row.
Proof.
  intros H1 H2 st row.
  assert (Hsh : forall st, shape_step TAPShape c1 st = shape_step TAPShape c2 st).
  { intros st0. unfold shape_step.
    destruct (local (shape st0)) as [r|]; simpl; auto.
    destruct (getitem (shapes st0) r) as [o|]; simpl; auto.
    now rewrite H1. }
  assert (Hsc : forall st row, sc_step TAPStatementConstraint c1 st row
                               = sc_step TAPStatementConstraint c2 st row).
  { intros st0 row0. unfold sc_step. now rewrite H2. }
  unfold loop_body.
  destruct (getitem row (KStr "propertyID")) as [pid|]; simpl; auto.
  destruct (negb (truthy pid)); auto.
  destruct (first_valid_row _ _ _ _) as [[st1 row1]|]; simpl; auto.
  destruct (later_valid_row _ _) as [st2|]; simpl; auto.
  destruct (new_shape _ _ _) as [st3|]; simpl; auto.
  rewrite Hsh. destruct (shape_step _ _ _) as [st4|]; simpl; auto.
  now rewrite Hsc.
Qed.

Lemma loop_ext (c1 c2 : pydict) (dshape : pyval) :
  (forall o, set_settings TAPShape c1 o = set_settings TAPShape c2 o) ->
  (forall o, set_settings TAPStatementConstraint c1 o
             = set_settings TAPStatementConstraint c2 o) ->
  forall rows st,
    loop TAPShape TAPStatementConstraint c1 dshape st rows
    = loop TAPShape TAPStatementConstraint c2 dshape st rows.
Proof.
  intros H1 H2. induction rows as [|row rows IH]; intros st; simpl; auto.
  rewrite (loop_body_ext _ _ _ H1 H2).
  destruct (loop_body _ _ _ _ _ _) as [[st1 row1]|]; simpl; auto.
  now rewrite IH.
Qed.

End RunFacts.

(** C4. A row whose [propertyID] is empty (falsy) is skipped: the iteration
    returns the frame it was given, so no key is resolved, no shape is
    created or changed, no warning is filed and the carried-forward state
    (the keys of [shapes]) stays as it was; the row is not written to; it
    contributes no event, hence no statement constraint; and the returned
    pair, or the exception raised, is the one obtained without the row. *)
Theorem C4_empty_propertyID_skipped :
  forall (TAPShape TAPStatementConstraint : dataclass) (row : pydict)
         (v : pyval),
    lookup (KStr "propertyID") row = Some v -> truthy v = false ->
    (forall config_dict dshape st,
        loop_body TAPShape TAPStatementConstraint config_dict dshape st row
        = Ok (st, row)) /\
    (forall config_dict dshape st before rest,
        events TAPShape TAPStatementConstraint config_dict dshape st
               (before ++ row :: rest)
        = events TAPShape TAPStatementConstraint config_dict dshape st
                 (before ++ rest)) /\
    (forall config_dict before rest,
        result_map fst (_get_tapshapes TAPShape TAPStatementConstraint
                          (before ++ row :: rest) config_dict)
        = result_map fst (_get_tapshapes TAPShape TAPStatementConstraint
                            (before ++ rest) config_dict)).
Proof.
  intros TAPShape TAPStatementConstraint row v L T. split; [|split].
  - intros. eapply loop_body_skip; eauto.
  - intros. eapply events_skip_row; eauto.
  - intros config_dict before rest. rewrite !get_tapshapes_fst.
    destruct (default_shape config_dict) as [dshape|]; simpl; auto.
    destruct (getitem config_dict (KStr "extra_shape_elements")); simpl; auto.
    destruct (getitem config_dict (KStr "extra_statement_constraint_elements"));
      simpl; auto.
    now rewrite (loop_skip_row _ _ _ _ _ _ L T).
Qed.

Lemma C4_empty_propertyID_skipped_witness :
  lookup (KStr "propertyID") skipped_row = Some (PStr "") /\
  truthy (PStr "") = false /\
  (forall config_dict dshape st,
      loop_body quiet_TAPShape quiet_TAPStatementConstraint config_dict dshape
                st skipped_row
      = Ok (st, skipped_row)) /\
  (forall config_dict dshape st before rest,
      events quiet_TAPShape quiet_TAPStatementConstraint config_dict dshape st
             (before ++ skipped_row :: rest)
      = events quiet_TAPShape quiet_TAPStatementConstraint config_dict dshape
               st (before ++ rest)) /\
  (forall config_dict before rest,
      result_map fst (_get_tapshapes quiet_TAPShape quiet_TAPStatementConstraint
                        (before ++ skipped_row :: rest) config_dict)
      = result_map fst (_get_tapshapes quiet_TAPShape
                          quiet_TAPStatementConstraint
                          (before ++ rest) config_dict)).
Proof.
  assert (H1 : lookup (KStr "propertyID") skipped_row = Some (PStr ""))
    by (vm_compute; reflexivity).
  assert (H2 : truthy (PStr "") = false) by (vm_compute; reflexivity).
  split; [exact H1|]. split; [exact H2|].
  exact (C4_empty_propertyID_skipped quiet_TAPShape
           quiet_TAPStatementConstraint skipped_row (PStr "") H1 H2).
Defined.

(** C10. When every row has an empty (falsy) [propertyID], zero rows
    included, the loop never assigns [tapshapes_dict] and [warnings_dict]:
    the call returns no value, and once lines 50-53 have found both extra
    element entries in the configuration it raises [UnboundLocalError] at
    the return statement. *)
Theorem C10_no_valid_row_unbound_local :
  forall (TAPShape TAPStatementConstraint : dataclass) (rows : list pydict)
         (config_dict : pydict),
    Forall (fun row => exists v, lookup (KStr "propertyID") row = Some v
                                 /\ truthy v = false) rows ->
    is_ok (_get_tapshapes TAPShape TAPStatementConstraint rows config_dict)
    = false /\
    (mem (KStr "extra_shape_elements") config_dict = true ->
     mem (KStr "extra_statement_constraint_elements") config_dict = true ->
     _get_tapshapes TAPShape TAPStatementConstraint rows config_dict
     = Raise UnboundLocalError).
Proof.
  intros TAPShape TAPStatementConstraint rows config_dict A.
  unfold _get_tapshapes. rewrite default_shape_get. simpl.
  unfold getitem, mem.
  destruct (lookup (KStr "extra_shape_elements") config_dict); simpl;
    [|split; [auto | discriminate]].
  destruct (lookup (KStr "extra_statement_constraint_elements") config_dict);
    simpl; [|split; [auto | discriminate]].
  rewrite (loop_all_skipped _ _ _ _ _ A). simpl. auto.
Qed.

Lemma C10_no_valid_row_unbound_local_witness :
  Forall (fun row => exists v, lookup (KStr "propertyID") row = Some v
                               /\ truthy v = false) [skipped_row] /\
  is_ok (_get_tapshapes quiet_TAPShape quiet_TAPStatementConstraint
           [skipped_row] sample_config) = false /\
  (mem (KStr "extra_shape_elements") sample_config = true ->
   mem (KStr "extra_statement_constraint_elements") sample_config = true ->
   _get_tapshapes quiet_TAPShape quiet_TAPStatementConstraint
     [skipped_row] sample_config
   = Raise UnboundLocalError).
Proof.
  assert (H : Forall (fun row => exists v,
                        lookup (KStr "propertyID") row = Some v
                        /\ truthy v = false) [skipped_row]).
  { constructor; [|constructor]. exists (PStr "").
    split; vm_compute; reflexivity. }
  split; [exact H|].
  exact (C10_no_valid_row_unbound_local quiet_TAPShape
           quiet_TAPStatementConstraint [skipped_row] sample_config H).
Defined.

(** C9, as the code has it.  Lines 50-53 subscript the configuration, so
    both extra element entries must be present: without one of them the call
    raises [KeyError] before any row is looked at.  When both are present
    their values are read and never used: replacing them by any other values
    leaves the result of the call as it is, given that [set_settings], which
    receives the whole configuration, does not depend on them either. *)
Theorem C9_extra_elements_required_but_unused :
  forall (TAPShape TAPStatementConstraint : dataclass) (rows : list pydict)
         (config_dict : pydict),
    ((mem (KStr "extra_shape_elements") config_dict = false \/
      mem (KStr "extra_statement_constraint_elements") config_dict = false) ->
     _get_tapshapes TAPShape TAPStatementConstraint rows config_dict
     = Raise KeyError) /\
    (forall v1 v2 : pyval,
        let changed :=
          assign (KStr "extra_statement_constraint_elements") v2
            (assign (KStr "extra_shape_elements") v1 config_dict) in
        mem (KStr "extra_shape_elements") config_dict = true ->
        mem (KStr "extra_statement_constraint_elements") config_dict = true ->
        (forall o, set_settings TAPShape changed o
                   = set_settings TAPShape config_dict o) ->
        (forall o, set_settings TAPStatementConstraint changed o
                   = set_settings TAPStatementConstraint config_dict o) ->
        _get_tapshapes TAPShape TAPStatementConstraint rows changed
        = _get_tapshapes TAPShape TAPStatementConstraint rows config_dict).
Proof.
  intros TAPShape TAPStatementConstraint rows config_dict. split.
  - unfold _get_tapshapes, getitem, mem. rewrite default_shape_get. simpl.
    destruct (lookup (KStr "extra_shape_elements") config_dict); simpl; auto.
    destruct (lookup (KStr "extra_statement_constraint_elements") config_dict);
      simpl; auto.
    intros [?|?]; discriminate.
  - intros v1 v2 changed M1 M2 H1 H2.
    unfold _get_tapshapes. rewrite !default_shape_get. simpl.
    assert (D : dict_get changed "default_shape_name"
                = dict_get config_dict "default_shape_name").
    { unfold dict_get, changed.
      now rewrite !lookup_assign_other by discriminate. }
    assert (G1 : exists x, getitem changed (KStr "extra_shape_elements") = Ok x).
    { unfold getitem, changed.
      rewrite lookup_assign_other by discriminate.
      rewrite lookup_assign_same. eauto. }
    assert (G2 : exists x, getitem changed
                             (KStr "extra_statement_constraint_elements")
                           = Ok x).
    { unfold getitem, changed. rewrite lookup_assign_same. eauto. }
    destruct G1 as [x1 ->], G2 as [x2 ->]. simpl.
    unfold getitem, mem in *.
    destruct (lookup (KStr "extra_shape_elements") config_dict);
      [|discriminate].
    destruct (lookup (KStr "extra_statement_constraint_elements") config_dict);
      [|discriminate].
    simpl. rewrite D. now rewrite (loop_ext _ _ _ _ _ H1 H2).
Qed.

Lemma C9_extra_elements_required_but_unused_witness :
  let changed :=
    assign (KStr "extra_statement_constraint_elements") (PList [PStr "b"])
      (assign (KStr "extra_shape_elements") (PList [PStr "a"]) sample_config) in
  mem (KStr "extra_shape_elements") sample_config = true /\
  mem (KStr "extra_statement_constraint_elements") sample_config = true /\
  (forall o, set_settings quiet_TAPShape changed o
             = set_settings quiet_TAPShape sample_config o) /\
  (forall o, set_settings quiet_TAPStatementConstraint changed o
             = set_settings quiet_TAPStatementConstraint sample_config o) /\
  _get_tapshapes quiet_TAPShape quiet_TAPStatementConstraint carry_rows changed
  = _get_tapshapes quiet_TAPShape quiet_TAPStatementConstraint carry_rows
      sample_config.
Proof.
  intros changed.
  assert (M1 : mem (KStr "extra_shape_elements") sample_config = true)
    by (vm_compute; reflexivity).
  assert (M2 : mem (KStr "extra_statement_constraint_elements") sample_config
               = true) by (vm_compute; reflexivity).
  assert (H1 : forall o, set_settings quiet_TAPShape changed o
                         = set_settings quiet_TAPShape sample_config o)
    by (intros o; reflexivity).
  assert (H2 : forall o, set_settings quiet_TAPStatementConstraint changed o
                         = set_settings quiet_TAPStatementConstraint
                             sample_config o)
    by (intros o; reflexivity).
  split; [exact M1|]. split; [exact M2|]. split; [exact H1|].
  split; [exact H2|].
  exact (proj2 (C9_extra_elements_required_but_unused quiet_TAPShape
                  quiet_TAPStatementConstraint carry_rows sample_config)
               (PList [PStr "a"]) (PList [PStr "b"]) M1 M2 H1 H2).
Defined.

(** Against C9 as stated: with a configuration that has no extra element
    entries the call fails, where the claim has it succeed. *)
Lemma C9_counterexample :
  _get_tapshapes quiet_TAPShape quiet_TAPStatementConstraint
    [sample_row "" "dc:title"] config_without_extras
  = Raise KeyError
  /\ is_ok (_get_tapshapes quiet_TAPShape quiet_TAPStatementConstraint
              [sample_row "" "dc:title"] sample_config) = true.
Proof. split; vm_compute; reflexivity. Qed.

Lemma TAPShape_fields_NoDup : NoDup (map fst TAPShape_fields).
Proof.
  simpl. repeat constructor; simpl; intuition discriminate.
Qed.

(** C6. In the frame a run ends in, the list of statement constraints of
    every shape holds exactly one constraint for each valid row that resolved
    to the key of the shape, in the order of the rows: the events of the run
    are the valid rows in source order, each with the constraint built from
    it, and the list of the shape stored under [k] is the list of the
    constraints of the events whose key is [k].  The public form of the
    shape carries the same constraints, as dictionaries, in the same order.
    The methods of a shape are assumed to leave its [sc_list] alone, and a
    fresh shape to start with an empty one.  For rows keyed A, B, A and then
    a row with no key, shape A holds the constraints of rows 1 and 3 and
    shape B those of rows 2 and 4. *)
Theorem C6_constraints_in_row_order :
  (forall (TAPShape TAPStatementConstraint : dataclass) (config_dict : pydict)
         (dshape : pyval) (rows rows' : list pydict) (st : frame),
    (forall o,
        getattr (normalize TAPShape (set_settings TAPShape config_dict o))
                "sc_list"
        = getattr o "sc_list") ->
    getattr (fresh TAPShape) "sc_list" = Some (PList []) ->
    NoDup (map fst (fresh TAPShape)) ->
    loop TAPShape TAPStatementConstraint config_dict dshape initial_frame rows
    = Ok (st, rows') ->
    let evs := events TAPShape TAPStatementConstraint config_dict dshape
                      initial_frame rows in
    map ev_row evs = filter valid rows' /\
    (forall ev, In ev evs ->
       ev_sc ev = normalize TAPStatementConstraint
                    (set_settings TAPStatementConstraint config_dict
                       (new_sc TAPStatementConstraint (ev_row ev)))) /\
    (forall k o, lookup k (shapes st) = Some o ->
       let mine := filter (fun ev => key_eqb (ev_key ev) k) evs in
       getattr o "sc_list" = Some (PList (map (fun ev => PObj (ev_sc ev)) mine))
       /\ exists d,
            public_shape o = Ok (PDict d) /\
            lookup (KStr "statement_constraints") d
            = Some (PList (map (fun ev => asdict (PObj (ev_sc ev))) mine))))
  /\ (let st := frame_after quiet_TAPShape quiet_TAPStatementConstraint
                   sample_config (PStr "default") reopen_rows in
      let constraint p :=
        PObj (new_sc quiet_TAPStatementConstraint (sample_row "" p)) in
      constraints_of (shapes st) (KStr "A") = [constraint "p1"; constraint "p3"]
      /\ constraints_of (shapes st) (KStr "B")
         = [constraint "p2"; constraint "p4"]).
Proof.
  split; [|split; vm_compute; reflexivity].
  intros TAPShape TAPStatementConstraint config_dict dshape rows rows' st
         Hm Hf Hn L evs.
  destruct (loop_events _ _ _ _ _ _ _ _ consistent_initial L) as [Er Esc].
  split; [exact Er|]. split.
  - intros ev I. rewrite Forall_forall in Esc. now apply Esc.
  - intros k o Lk mine.
    assert (LO : lists_ok (shapes st)).
    { eapply (loop_lists _ _ _ _ Hm Hf Hn); eauto using consistent_initial.
      intros k0 o0. discriminate. }
    destruct (LO _ _ Lk) as [l G].
    pose proof (loop_constraints _ _ _ _ Hm Hf Hn _ _ _ _
                  consistent_initial L k) as Ck.
    unfold constraints_of at 1 2 in Ck. rewrite Lk in Ck.
    unfold sc_items in Ck. rewrite G in Ck. simpl in Ck.
    fold evs in Ck. fold mine in Ck. subst l.
    split; [exact G|].
    destruct (public_shape_of_list _ _ G) as (d & P & S & _).
    exists d. split; [exact P|]. now rewrite S, map_map.
Qed.

Lemma C6_constraints_in_row_order_witness :
  (forall o,
      getattr (normalize quiet_TAPShape
                 (set_settings quiet_TAPShape sample_config o)) "sc_list"
      = getattr o "sc_list") /\
  getattr (fresh quiet_TAPShape) "sc_list" = Some (PList []) /\
  NoDup (map fst (fresh quiet_TAPShape)) /\
  loop quiet_TAPShape quiet_TAPStatementConstraint sample_config
       (PStr "default") initial_frame carry_rows
  = Ok (frame_carry, carry_rows) /\
  let evs := events quiet_TAPShape quiet_TAPStatementConstraint sample_config
                    (PStr "default") initial_frame carry_rows in
  map ev_row evs = filter valid carry_rows /\
  (forall ev, In ev evs ->
     ev_sc ev = normalize quiet_TAPStatementConstraint
                  (set_settings quiet_TAPStatementConstraint sample_config
                     (new_sc quiet_TAPStatementConstraint (ev_row ev)))) /\
  (forall k o, lookup k (shapes frame_carry) = Some o ->
     let mine := filter (fun ev => key_eqb (ev_key ev) k) evs in
     getattr o "sc_list" = Some (PList (map (fun ev => PObj (ev_sc ev)) mine))
     /\ exists d,
          public_shape o = Ok (PDict d) /\
          lookup (KStr "statement_constraints") d
          = Some (PList (map (fun ev => asdict (PObj (ev_sc ev))) mine))).
Proof.
  assert (H1 : forall o,
             getattr (normalize quiet_TAPShape
                        (set_settings quiet_TAPShape sample_config o)) "sc_list"
             = getattr o "sc_list") by (intros o; reflexivity).
  assert (H2 : getattr (fresh quiet_TAPShape) "sc_list" = Some (PList []))
    by (vm_compute; reflexivity).
  assert (H3 : NoDup (map fst (fresh quiet_TAPShape)))
    by exact TAPShape_fields_NoDup.
  assert (H4 : loop quiet_TAPShape quiet_TAPStatementConstraint sample_config
                 (PStr "default") initial_frame carry_rows
               = Ok (frame_carry, carry_rows)) by (vm_compute; reflexivity).
  split; [exact H1|]. split; [exact H2|]. split; [exact H3|].
  split; [exact H4|].
  exact (proj1 C6_constraints_in_row_order quiet_TAPShape
           quiet_TAPStatementConstraint sample_config (PStr "default")
           carry_rows carry_rows frame_carry H1 H2 H3 H4).
Defined.

(** C7. For every shape key and field name, the list of messages in the
    warning collection is the concatenation, over the valid rows that
    resolved to that key and in the order of the rows (the events of a run
    are its valid rows in source order), of the messages the
    shape hook emitted for the field followed by those the
    statement-constraint hook emitted for it; the returned mapping is that
    collection.  In particular, when in the first valid row the shape hook
    emits W1 and the statement-constraint hook emits W2 on the same field,
    the list of that field is [W1, W2]. *)
Theorem C7_warning_order :
  forall (TAPShape TAPStatementConstraint : dataclass) (config_dict : pydict)
         (dshape : pyval),
    (forall (rows rows' : list pydict) (st : frame),
        loop TAPShape TAPStatementConstraint config_dict dshape
             initial_frame rows = Ok (st, rows') ->
        (forall k e,
            messages (warnings st) k e =
            flat_map (fun ev =>
                        if key_eqb (ev_key ev) k
                        then emitted_for e (ev_shape_warnings ev)
                             ++ emitted_for e (ev_sc_warnings ev)
                        else [])
                     (events TAPShape TAPStatementConstraint config_dict
                             dshape initial_frame rows)) /\
        map ev_row (events TAPShape TAPStatementConstraint config_dict
                           dshape initial_frame rows)
        = filter valid rows' /\
        (forall t w, tapshapes_dict st = Some t -> warnings_dict st = Some w ->
                     w = warnings_as_dict (warnings st))) /\
    (forall (row row' : pydict) (st : frame) (k f : pykey) (W1 W2 : pyval),
        valid row = true ->
        loop_body TAPShape TAPStatementConstraint config_dict dshape
                  initial_frame row = Ok (st, row') ->
        sh_id st = Some k ->
        shape_warnings st = Some [(f, W1)] ->
        sc_warnings st = Some [(f, W2)] ->
        messages (warnings st) k f = [W1; W2]).
Proof.
  intros TAPShape TAPStatementConstraint config_dict dshape. split.
  - intros rows rows' st L. split; [|split].
    + intros k e.
      now rewrite (loop_messages _ _ _ _ _ _ _ _ consistent_initial L k e).
    + exact (proj1 (loop_events _ _ _ _ _ _ _ _ consistent_initial L)).
    + intros t w Et Ew.
      refine (proj2 (loop_assembled _ _ _ _ _ _ _ _ consistent_initial L _
                       t w Et Ew)).
      intros t0 w0. discriminate.
  - intros row row' st k f W1 W2 V B S SW SCW.
    rewrite (step_messages _ _ _ _ _ _ _ _ _ _ _ consistent_initial
               V B S SW SCW k f).
    rewrite key_eqb_refl. unfold emitted_for. simpl.
    now rewrite key_eqb_refl.
Qed.

Lemma C7_warning_order_witness :
  loop warning_TAPShape warning_TAPStatementConstraint sample_config
       (PStr "default") initial_frame [sample_row "A" "p1"]
  = Ok (frame_warned, [sample_row "A" "p1"]) /\
  valid (sample_row "A" "p1") = true /\
  loop_body warning_TAPShape warning_TAPStatementConstraint sample_config
            (PStr "default") initial_frame (sample_row "A" "p1")
  = Ok (frame_warned, sample_row "A" "p1") /\
  sh_id frame_warned = Some (KStr "A") /\
  shape_warnings frame_warned = Some [(KStr "shapeID", PStr "W1")] /\
  sc_warnings frame_warned = Some [(KStr "shapeID", PStr "W2")] /\
  ((forall k e,
       messages (warnings frame_warned) k e =
       flat_map (fun ev =>
                   if key_eqb (ev_key ev) k
                   then emitted_for e (ev_shape_warnings ev)
                        ++ emitted_for e (ev_sc_warnings ev)
                   else [])
                (events warning_TAPShape warning_TAPStatementConstraint
                        sample_config (PStr "default") initial_frame
                        [sample_row "A" "p1"])) /\
   map ev_row (events warning_TAPShape warning_TAPStatementConstraint
                      sample_config (PStr "default") initial_frame
                      [sample_row "A" "p1"])
   = filter valid [sample_row "A" "p1"] /\
   (forall t w, tapshapes_dict frame_warned = Some t ->
                warnings_dict frame_warned = Some w ->
                w = warnings_as_dict (warnings frame_warned))) /\
  messages (warnings frame_warned) (KStr "A") (KStr "shapeID")
  = [PStr "W1"; PStr "W2"].
Proof.
  assert (H1 : loop warning_TAPShape warning_TAPStatementConstraint
                 sample_config (PStr "default") initial_frame
                 [sample_row "A" "p1"]
               = Ok (frame_warned, [sample_row "A" "p1"]))
    by (vm_compute; reflexivity).
  assert (H2 : valid (sample_row "A" "p1") = true)
    by (vm_compute; reflexivity).
  assert (H3 : loop_body warning_TAPShape warning_TAPStatementConstraint
                 sample_config (PStr "default") initial_frame
                 (sample_row "A" "p1")
               = Ok (frame_warned, sample_row "A" "p1"))
    by (vm_compute; reflexivity).
  assert (H4 : sh_id frame_warned = Some (KStr "A")) by reflexivity.
  assert (H5 : shape_warnings frame_warned
               = Some [(KStr "shapeID", PStr "W1")]) by reflexivity.
  assert (H6 : sc_warnings frame_warned
               = Some [(KStr "shapeID", PStr "W2")]) by reflexivity.
  split; [exact H1|]. split; [exact H2|]. split; [exact H3|].
  split; [exact H4|]. split; [exact H5|]. split; [exact H6|].
  split.
  - exact (proj1 (C7_warning_order warning_TAPShape
                    warning_TAPStatementConstraint sample_config
                    (PStr "default"))
                 [sample_row "A" "p1"] [sample_row "A" "p1"] frame_warned H1).
  - exact (proj2 (C7_warning_order warning_TAPShape
                    warning_TAPStatementConstraint sample_config
                    (PStr "default"))
                 (sample_row "A" "p1") (sample_row "A" "p1") frame_warned
                 (KStr "A") (KStr "shapeID") (PStr "W1") (PStr "W2")
                 H2 H3 H4 H5 H6).
Defined.

(** * Running the grouping twice (lines 14-17) *)

Lemma assign_idem {K V : Type} `{Key K} (k : K) (v : V) (d : list (K * V)) :
  assign k v (assign k v d) = assign k v d.
Proof.
  induction d as [|[k' v'] d IH]; simpl.
  - now rewrite key_eqb_refl.
  - destruct (key_eqb k k') eqn:E; simpl; rewrite E; congruence.
Qed.

Section Rerun.
Variables TAPShape TAPStatementConstraint : dataclass.
Variable config_dict : pydict.
Variable dshape : pyval.

Local Abbreviation body :=
  (loop_body TAPShape TAPStatementConstraint config_dict dshape).
Local Abbreviation run :=
  (loop TAPShape TAPStatementConstraint config_dict dshape).

(** The row as the first call leaves it is handled like the row itself. *)
Lemma first_valid_row_written_back (st : frame) (row : pydict) :
  first_valid_row TAPShape dshape st (written_back dshape st row)
  = first_valid_row TAPShape dshape st row.
Proof.
  unfold written_back, first_valid_row.
  destruct (first_valid_row_encountered st); simpl; auto.
  destruct (truthy (dict_get row "shapeID")) eqn:T; simpl; [now rewrite T|].
  unfold dict_get at 1 2. rewrite lookup_assign_same.
  destruct (truthy dshape); simpl; auto.
  now rewrite assign_idem.
Qed.

Lemma body_written_back (st : frame) (row : pydict) :
  valid row = true -> body st (written_back dshape st row) = body st row.
Proof.
  intros V. unfold loop_body. rewrite first_valid_row_written_back.
  assert (G : getitem (written_back dshape st row) (KStr "propertyID")
              = getitem row (KStr "propertyID")).
  { unfold written_back, getitem.
    destruct (first_valid_row_encountered st
              && negb (truthy (dict_get row "shapeID"))); auto.
    rewrite lookup_assign_other; auto. discriminate. }
  rewrite G. unfold valid, getitem in *.
  destruct (lookup (KStr "propertyID") row) as [pid|]; [|discriminate].
  simpl. now rewrite V.
Qed.

Lemma body_rerun (st st1 : frame) (row row1 : pydict) :
  body st row = Ok (st1, row1) -> body st row1 = Ok (st1, row1).
Proof.
  intros B. destruct (valid row) eqn:V.
  - destruct (loop_body_valid _ _ _ _ _ _ _ _ V B)
      as (s1 & s2 & s3 & s4 & s5 & E1 & _).
    apply first_valid_row_inv in E1. destruct E1 as [-> _].
    now rewrite (body_written_back _ _ V).
  - destruct (loop_body_invalid _ _ _ _ _ _ _ _ V B) as [-> ->]. exact B.
Qed.

(** A second run over the rows as the first run left them ends in the same
    frame and leaves the rows as they are. *)
Lemma loop_rerun (rows : list pydict) :
  forall st st' rows',
    run st rows = Ok (st', rows') -> run st rows' = Ok (st', rows').
Proof.
  induction rows as [|row rest IH]; intros st st' rows' E.
  - simpl in E. injection E as <- <-. reflexivity.
  - apply loop_cons_inv in E. destruct E as (st1 & row1 & rest' & B & L & ->).
    simpl. rewrite (body_rerun _ _ _ _ B). simpl.
    now rewrite (IH _ _ _ L).
Qed.

End Rerun.

Lemma get_tapshapes_inv (TAPShape TAPStatementConstraint : dataclass)
    (rows rows' : list pydict) (config_dict : pydict) (t w : pyval) :
  _get_tapshapes TAPShape TAPStatementConstraint rows config_dict
  = Ok ((t, w), rows') ->
  exists st,
    loop TAPShape TAPStatementConstraint config_dict
         (dict_get config_dict "default_shape_name") initial_frame rows
    = Ok (st, rows') /\
    tapshapes_dict st = Some t /\ warnings_dict st = Some w.
Proof.
  unfold _get_tapshapes. rewrite default_shape_get. simpl. intros E.
  bind_inv E. bind_inv E. bind_inv E. destruct a1 as [st rows1].
  bind_inv E. bind_inv E. injection E as <- <- <-.
  exists st. split; [exact Ha1|].
  destruct (tapshapes_dict st); [|discriminate].
  destruct (warnings_dict st); [|discriminate].
  simpl in *. split; congruence.
Qed.

(** The second grouping call returns what the first one returned. *)
Lemma get_tapshapes_rerun (TAPShape TAPStatementConstraint : dataclass)
    (rows rows' : list pydict) (config_dict : pydict) (r : pyval * pyval) :
  _get_tapshapes TAPShape TAPStatementConstraint rows config_dict
  = Ok (r, rows') ->
  _get_tapshapes TAPShape TAPStatementConstraint rows' config_dict
  = Ok (r, rows').
Proof.
  unfold _get_tapshapes. rewrite default_shape_get. simpl. intros E.
  bind_inv E. rewrite Ha. simpl. bind_inv E. rewrite Ha0. simpl.
  bind_inv E. destruct a1 as [st rows1].
  bind_inv E. bind_inv E. injection E as <- <-.
  rewrite (loop_rerun _ _ _ _ _ _ _ _ Ha1). simpl.
  rewrite Ha2. simpl. rewrite Ha3. reflexivity.
Qed.

(** C8, as the code has it.  The pipeline returns a pair.  Its first
    component is a dictionary with the single key "shapes", whose value is
    the list of the shapes in the order in which they were created, each as
    a plain dictionary in which the entry [sc_list] has been removed and its
    value stored under "statement_constraints".  Its second component is the
    warning collection as a plain dictionary from shape key to field name to
    list of messages.  Both components describe the frame in which the
    grouping of the loaded rows ends: the second of the two grouping calls
    runs over the rows as the first call left them and ends in the same
    frame. *)
Theorem C8_result_structure :
  forall (DictReader : string -> list pydict)
         (TAPShape TAPStatementConstraint : dataclass)
         (open_csvfile_obj : string) (config_dict : pydict) (a b : pyval),
    csvreader DictReader TAPShape TAPStatementConstraint open_csvfile_obj
              config_dict = Ok (a, b) ->
    let dshape := dict_get config_dict "default_shape_name" in
    exists (rows rows' : list pydict) (st : frame) (ds : list pyval),
      _get_rows DictReader open_csvfile_obj config_dict = Ok rows /\
      loop TAPShape TAPStatementConstraint config_dict dshape initial_frame rows
      = Ok (st, rows') /\
      a = PDict [(KStr "shapes", PList ds)] /\
      is_list a = false /\
      Forall2 (fun o d =>
                 exists x, getattr o "sc_list" = Some x /\
                   d = PDict (assign (KStr "statement_constraints") (asdict x)
                                (remove_key (KStr "sc_list") (asdict_obj o))))
              (map snd (shapes st)) ds /\
      (forall before rest sta before',
          rows = before ++ rest ->
          loop TAPShape TAPStatementConstraint config_dict dshape
               initial_frame before = Ok (sta, before') ->
          exists later, keys (shapes st) = keys (shapes sta) ++ later) /\
      b = warnings_as_dict (warnings st).
Proof.
  intros DictReader TAPShape TAPStatementConstraint open_csvfile_obj
         config_dict a b E dshape.
  unfold csvreader in E.
  bind_inv E. rename a0 into rows.
  bind_inv E. destruct a0 as [[t1 w1] rows1].
  rewrite (get_tapshapes_rerun _ _ _ _ _ _ Ha0) in E.
  simpl in E. injection E as <- <-.
  apply get_tapshapes_inv in Ha0. destruct Ha0 as (st & L & T & W).
  assert (A0 : forall t w,
             tapshapes_dict initial_frame = Some t ->
             warnings_dict initial_frame = Some w ->
             (exists ds, public_shapes (map snd (shapes initial_frame)) = Ok ds
                         /\ t = PDict [(KStr "shapes", PList ds)])
             /\ w = warnings_as_dict (warnings initial_frame))
    by (intros t w; discriminate).
  destruct (loop_assembled _ _ _ _ _ _ _ _ consistent_initial L A0 _ _ T W)
    as [(ds & P & ->) ->].
  exists rows, rows1, st, ds.
  repeat (split; [solve [auto]|]). split; [|split; [|reflexivity]].
  - apply public_shapes_Forall2 in P.
    eapply Forall2_impl; [|exact P].
    intros o d. apply public_shape_inv.
  - intros before rest sta before' -> La.
    destruct (loop_app _ _ _ _ _ _ _ _ _ L)
      as (sta' & before'' & rest' & La' & Lr & _).
    fold dshape in La'. rewrite La in La'. injection La' as <- <-.
    eapply loop_keys; eauto.
    eapply loop_consistent; eauto using consistent_initial.
Qed.

Lemma C8_result_structure_witness :
  csvreader (fixed_rows carry_rows) quiet_TAPShape
            quiet_TAPStatementConstraint sample_header aliased_config
  = Ok (fst carry_output, snd carry_output) /\
  let dshape := dict_get aliased_config "default_shape_name" in
  exists (rows rows' : list pydict) (st : frame) (ds : list pyval),
    _get_rows (fixed_rows carry_rows) sample_header aliased_config = Ok rows /\
    loop quiet_TAPShape quiet_TAPStatementConstraint aliased_config dshape
         initial_frame rows = Ok (st, rows') /\
    fst carry_output = PDict [(KStr "shapes", PList ds)] /\
    is_list (fst carry_output) = false /\
    Forall2 (fun o d =>
               exists x, getattr o "sc_list" = Some x /\
                 d = PDict (assign (KStr "statement_constraints") (asdict x)
                              (remove_key (KStr "sc_list") (asdict_obj o))))
            (map snd (shapes st)) ds /\
    (forall before rest sta before',
        rows = before ++ rest ->
        loop quiet_TAPShape quiet_TAPStatementConstraint aliased_config dshape
             initial_frame before = Ok (sta, before') ->
        exists later, keys (shapes st) = keys (shapes sta) ++ later) /\
    snd carry_output = warnings_as_dict (warnings st).
Proof.
  assert (H : csvreader (fixed_rows carry_rows) quiet_TAPShape
                quiet_TAPStatementConstraint sample_header aliased_config
              = Ok (fst carry_output, snd carry_output))
    by (vm_compute; reflexivity).
  split; [exact H|].
  exact (C8_result_structure (fixed_rows carry_rows) quiet_TAPShape
           quiet_TAPStatementConstraint sample_header aliased_config
           (fst carry_output) (snd carry_output) H).
Defined.

(** Against C8 as stated: the first component of the returned pair is not a
    list but a dictionary with the single key "shapes". *)
Lemma C8_counterexample :
  exists shape_list b,
    csvreader (fixed_rows [sample_row "" "dc:title"]) quiet_TAPShape
              quiet_TAPStatementConstraint sample_header aliased_config
    = Ok (PDict [(KStr "shapes", PList shape_list)], b)
    /\ is_list (PDict [(KStr "shapes", PList shape_list)]) = false.
Proof. vm_compute. eexists. eexists. split; reflexivity. Qed.

(** C2, at the input where the code departs from it.  With no
    [default_shape_name] in the configuration, [dict.get] returns [None]
    without raising, so the handler that would set the literal "default" is
    never run: a first valid row with no [shapeID] is keyed [None], [None] is
    what is written back into the row, and the one shape of the output has
    [None] as its [shapeID].  With a configured default the same row is
    keyed by it, as the claim says. *)
Theorem C2_unconfigured_default_is_None :
  default_shape config_without_default = Ok PNone /\
  _get_tapshapes quiet_TAPShape quiet_TAPStatementConstraint
    [row_without_shapeID] config_without_default
  = Ok ((PDict
           [(KStr "shapes",
             PList
               [PDict
                  [(KStr "shapeID", PNone); (KStr "shapeLabel", PStr "");
                   (KStr "sh_warnings", PDict []);
                   (KStr "statement_constraints",
                    PList [asdict (PObj (new_sc quiet_TAPStatementConstraint
                                           row_without_shapeID))])]])],
         PDict []),
        [[(KStr "propertyID", PStr "dc:title"); (KStr "shapeID", PNone)]]) /\
  keys (shapes (frame_after quiet_TAPShape quiet_TAPStatementConstraint
                  config_without_default PNone [row_without_shapeID]))
  = [KNone] /\
  result_map snd
    (_get_tapshapes quiet_TAPShape quiet_TAPStatementConstraint
       [row_without_shapeID] sample_config)
  = Ok [[(KStr "propertyID", PStr "dc:title");
         (KStr "shapeID", PStr "default")]] /\
  keys (shapes (frame_after quiet_TAPShape quiet_TAPStatementConstraint
                  sample_config (PStr "default") [row_without_shapeID]))
  = [KStr "default"].
Proof. repeat split; vm_compute; reflexivity. Qed.

(** C3, at the input where the code departs from it.  Line 33 tests whether
    "propertyID" occurs in the rebuilt header line as a piece of text, not
    whether it is one of the header names: with an alias that yields the
    header "propertyIDs", no header is "propertyID" and still no error is
    raised; the rows are read. *)
Theorem C3_substring_passes_header_check :
  forall DictReader : string -> list pydict,
    new_header_line_list (split ","%char longer_alias_header)
      longer_alias_config
    = Ok [PStr "propertyIDs"; PStr "note"] /\
    ~ In (PStr "propertyID") [PStr "propertyIDs"; PStr "note"] /\
    contains "propertyID" "propertyIDs,note" = true /\
    _get_rows DictReader longer_alias_header longer_alias_config
    = Ok (DictReader (String.append "propertyIDs,note" (String newline ""))).
Proof.
  intros DictReader. split; [vm_compute; reflexivity|]. split.
  - simpl. intros [H|[H|[]]]; discriminate.
  - split; vm_compute; reflexivity.
Qed.

(** C5, at the input where the code departs from it.  The shape populator
    removes the bookkeeping fields [sc_list] and [sh_warnings] from the names
    it copies; the statement-constraint populator iterates over every field
    of the class, so a column named after the bookkeeping field
    [sc_warnings] overwrites it. *)
Theorem C5_sc_population_copies_bookkeeping :
  getattr (fresh quiet_TAPStatementConstraint) "sc_warnings" = Some (PDict [])
  /\ getattr (new_sc quiet_TAPStatementConstraint row_with_sc_warnings)
             "sc_warnings"
     = Some (PStr "boom")
  /\ set_shape_fields quiet_TAPShape (fresh quiet_TAPShape) row_with_sh_warnings
     = Ok [("shapeID", PStr "a"); ("shapeLabel", PStr "");
           ("sc_list", PList []); ("sh_warnings", PDict [])].
Proof. repeat split; vm_compute; reflexivity. Qed.

(** * What holds of the header check (lines 25-34) *)

Lemma prefix_append (s t u : string) :
  prefix s t = true -> prefix s (String.append t u) = true.
Proof.
  revert t. induction s as [|a s IH]; intros t;
    [intros _; destruct (String.append t u); reflexivity|].
  destruct t as [|b t]; simpl; [discriminate|].
  destruct (ascii_dec a b); auto.
Qed.

Lemma prefix_refl (s : string) : prefix s s = true.
Proof.
  induction s as [|a s IH]; simpl; auto.
  destruct (ascii_dec a a); congruence.
Qed.

Lemma contains_refl (s : string) : contains s s = true.
Proof.
  destruct s as [|a s]; [reflexivity|].
  unfold contains; fold contains. now rewrite prefix_refl.
Qed.

Lemma contains_append_l (n a b : string) :
  contains n a = true -> contains n (String.append a b) = true.
Proof.
  induction a as [|c a IH]; simpl.
  - rewrite orb_false_r. intros P.
    destruct n; [now destruct b | discriminate].
  - intros H. apply orb_true_iff in H. apply orb_true_iff.
    destruct H as [P|C]; [left | right; auto].
    exact (prefix_append n (String c a) b P).
Qed.

Lemma contains_append_r (n a b : string) :
  contains n b = true -> contains n (String.append a b) = true.
Proof.
  induction a as [|c a IH]; simpl; auto.
  intros H. rewrite (IH H). apply orb_true_r.
Qed.

Lemma contains_concat (sep s : string) (items : list string) :
  In s items -> contains s (String.concat sep items) = true.
Proof.
  induction items as [|x items IH]; simpl; [tauto|].
  intros [->|I].
  - destruct items; [apply contains_refl|].
    apply contains_append_l, contains_refl.
  - destruct items as [|y items]; [destruct I|].
    apply contains_append_r, contains_append_r. auto.
Qed.

Lemma str_items_In (items : list pyval) (strs : list string) (s : string) :
  str_items items = Ok strs -> In (PStr s) items -> In s strs.
Proof.
  revert strs. induction items as [|v items IH]; simpl; intros strs E I;
    [tauto|].
  destruct v; try discriminate.
  bind_inv E. injection E as <-. destruct I as [[= ->]|I]; simpl; eauto.
Qed.

(** A header that is "propertyID" makes the test of line 33 pass. *)
Lemma header_present_passes_check (headers : list pyval) (line : string) :
  In (PStr "propertyID") headers -> join "," headers = Ok line ->
  contains "propertyID" line = true.
Proof.
  unfold join. intros I E. bind_inv E. injection E as <-.
  apply contains_concat. eapply str_items_In; eauto.
Qed.

Section LoaderFacts.
Variable DictReader : string -> list pydict.

(** The format error is raised exactly when the rebuilt header line does not
    contain the text "propertyID". *)
Lemma format_error_iff (text : string) (config_dict : pydict) (msg : string) :
  _get_rows DictReader text config_dict = Raise (DctapError msg) <->
  exists first_line other_lines headers line,
    map strip (io_lines text) = first_line :: other_lines /\
    new_header_line_list (split ","%char first_line) config_dict = Ok headers /\
    join "," headers = Ok line /\
    contains "propertyID" line = false /\
    msg = "Valid DCTAP CSV must have a 'propertyID' column.".
Proof.
  unfold _get_rows.
  destruct (map strip (io_lines text)) as [|first_line other_lines]; simpl.
  - split; [discriminate | intros (? & ? & ? & ? & ? & _); discriminate].
  - assert (NH : forall raw e,
               new_header_line_list raw config_dict = Raise e ->
               forall m, e <> DctapError m).
    { induction raw as [|h raw IH]; simpl; intros e E m; [discriminate|].
      unfold _normalize_element_name in E.
      destruct (truthy (dict_get config_dict "element_aliases")).
      - destruct (dict_get config_dict "element_aliases"); simpl in E;
          try (injection E as <-; discriminate).
        destruct (new_header_line_list raw config_dict) eqn:R; simpl in E;
          [discriminate|]. injection E as <-. eapply IH; eauto.
      - simpl in E.
        destruct (new_header_line_list raw config_dict) eqn:R; simpl in E;
          [discriminate|]. injection E as <-. eapply IH; eauto. }
    assert (NJ : forall items e,
               join "," items = Raise e -> forall m, e <> DctapError m).
    { unfold join. induction items as [|v items IH]; simpl; intros e E m;
        [discriminate|].
      destruct v; simpl in E; try (injection E as <-; discriminate).
      destruct (str_items items) eqn:S; simpl in E; [discriminate|].
      injection E as <-. apply (IH e0); auto. }
    destruct (new_header_line_list (split ","%char first_line) config_dict)
      as [headers|e] eqn:H; simpl.
    + destruct (join "," headers) as [line|e] eqn:J; simpl.
      * destruct (contains "propertyID" line) eqn:C; simpl.
        -- split; [discriminate|].
           intros (f & o & h & l & L' & H' & J' & C' & _).
           injection L' as <- <-. rewrite H in H'. injection H' as <-.
           rewrite J in J'. injection J' as <-. congruence.
        -- split.
           ++ intros E. injection E as <-.
              exists first_line, other_lines, headers, line. auto.
           ++ intros (f & o & h & l & _ & _ & _ & _ & ->). reflexivity.
      * split.
        -- intros E. injection E as ->. exfalso. eapply NJ; eauto.
        -- intros (f & o & h & l & L' & H' & J' & _).
           injection L' as <- <-. rewrite H in H'. injection H' as <-.
           rewrite J in J'. discriminate.
    + split.
      * intros E. injection E as ->. exfalso. eapply NH; eauto.
      * intros (f & o & h & l & L' & H' & _).
        injection L' as <- <-. rewrite H in H'. discriminate.
Qed.

(** With "propertyID" among the header names the format error is not
    raised. *)
Lemma header_present_no_format_error (text : string) (config_dict : pydict)
    (first_line : string) (other_lines : list string) (headers : list pyval) :
  map strip (io_lines text) = first_line :: other_lines ->
  new_header_line_list (split ","%char first_line) config_dict = Ok headers ->
  In (PStr "propertyID") headers ->
  forall msg, _get_rows DictReader text config_dict <> Raise (DctapError msg).
Proof.
  intros L H I msg E. apply format_error_iff in E.
  destruct E as (f & o & h & l & L' & H' & J & C & _).
  rewrite L in L'. injection L' as <- <-. rewrite H in H'. injection H' as <-.
  rewrite (header_present_passes_check _ _ I J) in C. discriminate.
Qed.

End LoaderFacts.

(** An exception of the loader does not depend on the row reader: it is
    raised before [DictReader] is called. *)
Lemma loader_error_before_rows (reader1 reader2 : string -> list pydict)
    (text : string) (config_dict : pydict) (e : exn) :
  _get_rows reader1 text config_dict = Raise e ->
  _get_rows reader2 text config_dict = Raise e.
Proof.
  unfold _get_rows.
  destruct (map strip (io_lines text)) as [|first_line other_lines]; auto.
  destruct (new_header_line_list _ _) as [headers|]; simpl; auto.
  destruct (join "," headers) as [line|]; simpl; auto.
  destruct (negb (contains "propertyID" line)); auto. discriminate.
Qed.

(** * What holds of the first valid row (lines 76-83) *)

(** The first valid row is keyed by its own [shapeID] when that is truthy
    and by [dshape] otherwise; in the latter case [dshape] is written into
    the row, which then carries it; one shape exists afterwards. *)
Lemma first_valid_row_key (TAPShape TAPStatementConstraint : dataclass)
    (config_dict : pydict) (dshape : pyval) (row row' : pydict) (st : frame) :
  valid row = true ->
  loop_body TAPShape TAPStatementConstraint config_dict dshape
            initial_frame row = Ok (st, row') ->
  exists k,
    sh_id st = Some k /\ keys (shapes st) = [k] /\
    if truthy (dict_get row "shapeID")
    then as_key (dict_get row "shapeID") = Ok k /\ row' = row
    else as_key dshape = Ok k /\
         row' = assign (KStr "shapeID") dshape row /\
         dict_get row' "shapeID" = dshape.
Proof.
  intros V B.
  destruct (body_cases _ _ _ _ _ _ _ _ consistent_initial B)
    as [(V' & _)|(_ & _ & R & ev & _ & _ & S & _)]; [congruence|].
  destruct (step_key _ _ _ _ _ _ _ _ _ consistent_initial V B S)
    as (K & Ks & _).
  exists (ev_key ev). split; auto. split; [exact Ks|].
  unfold written_back in R. simpl in *.
  destruct (truthy (dict_get row "shapeID")); simpl in R; auto.
  repeat split; auto. rewrite R. unfold dict_get.
  now rewrite lookup_assign_same.
Qed.

(** * What holds of field population (lines 60-70 and 108-114) *)

Lemma list_remove_keeps (x y : string) (l l' : list string) :
  list_remove x l = Ok l' -> In y l -> y <> x -> In y l'.
Proof.
  revert l'. induction l as [|a l IH]; simpl; intros l' E I N; [tauto|].
  destruct (String.eqb_spec x a) as [->|Nx].
  - injection E as <-. destruct I; congruence.
  - bind_inv E. injection E as <-. destruct I as [->|I]; simpl; eauto.
Qed.

Lemma list_remove_keeps_NoDup (x : string) (l l' : list string) :
  NoDup l -> list_remove x l = Ok l' -> NoDup l'.
Proof.
  revert l'. induction l as [|a l IH]; simpl; intros l' ND E; [discriminate|].
  inversion ND as [|? ? NI ND']; subst.
  destruct (x =? a).
  - now injection E as <-.
  - bind_inv E. injection E as <-. constructor; auto.
    intros I. apply NI. eapply list_remove_incl; eauto.
Qed.

(** A statement constraint keeps the fields of its class; every field takes
    the value of the column of its name, and its default when the row has no
    such column; the other columns of the row are not looked at. *)
Lemma new_sc_fields (TAPStatementConstraint : dataclass) (row : pydict) :
  map fst (new_sc TAPStatementConstraint row)
  = map fst (fresh TAPStatementConstraint) /\
  forall name, In name (map fst (fresh TAPStatementConstraint)) ->
    getattr (new_sc TAPStatementConstraint row) name =
    match getattr (fresh TAPStatementConstraint) name,
          lookup (KStr name) row with
    | Some _, Some v => Some v
    | old, _ => old
    end.
Proof.
  unfold new_sc. split.
  - apply names_copy_fields.
  - intros name I. now apply getattr_copy_fields_in.
Qed.

(** A shape keeps the fields of its class; [sc_list] and [sh_warnings] keep
    their defaults whatever the row holds; every other field takes the value
    of the column of its name, and its default when the row has no such
    column. *)
Lemma set_shape_fields_fields (TAPShape : dataclass) (row : pydict) (o : pyobj) :
  NoDup (map fst (fresh TAPShape)) ->
  set_shape_fields TAPShape (fresh TAPShape) row = Ok o ->
  map fst o = map fst (fresh TAPShape) /\
  getattr o "sc_list" = getattr (fresh TAPShape) "sc_list" /\
  getattr o "sh_warnings" = getattr (fresh TAPShape) "sh_warnings" /\
  forall name, In name (map fst (fresh TAPShape)) ->
    name <> "sc_list" -> name <> "sh_warnings" ->
    getattr o name =
    match getattr (fresh TAPShape) name, lookup (KStr name) row with
    | Some _, Some v => Some v
    | old, _ => old
    end.
Proof.
  unfold set_shape_fields. intros ND E. bind_inv E. bind_inv E.
  injection E as <-. rename a into keys1, a0 into keys2.
  split; [apply names_copy_fields|]. split; [|split].
  - apply getattr_copy_fields_other. intros I.
    eapply list_remove_incl in I; eauto.
    eapply list_remove_NoDup in I; eauto.
  - apply getattr_copy_fields_other. intros I.
    assert (ND1 : NoDup keys1) by (eapply list_remove_keeps_NoDup; eauto).
    eapply list_remove_NoDup in I; eauto.
  - intros name I N1 N2. apply getattr_copy_fields_in.
    eapply list_remove_keeps; eauto. eapply list_remove_keeps; eauto.
Qed.

(** * The end-to-end example

    With the default shape name "default", the first row opens the shape
    "default", the second opens ":b2", and the third, which has no
    [shapeID], goes to ":b2", the shape created last. *)
Lemma end_to_end_grouping :
  let st := frame_after quiet_TAPShape quiet_TAPStatementConstraint
              sample_config (PStr "default") end_to_end_rows in
  let constraint p :=
    PObj (new_sc quiet_TAPStatementConstraint (sample_row "" p)) in
  keys (shapes st) = [KStr "default"; KStr ":b2"] /\
  constraints_of (shapes st) (KStr "default") = [constraint "dc:title"] /\
  constraints_of (shapes st) (KStr ":b2")
  = [constraint "dc:date"; constraint "dc:creator"].
Proof. repeat split; vm_compute; reflexivity. Qed.

(** * Header normalisation (lines 150-166) *)

(** A character that [_lowercase_despace_depunctuate] leaves in place: not a
    space, an underscore or a hyphen, and not an upper-case letter. *)
Lemma lower_char_idem (c : ascii) : lower_char (lower_char c) = lower_char c.
Proof. destruct c as [[] [] [] [] [] [] [] []]; reflexivity. Qed.

Lemma lower_char_not_upper (c : ascii) :
  Nat.leb 65 (nat_of_ascii (lower_char c))
  && Nat.leb (nat_of_ascii (lower_char c)) 90 = false.
Proof. destruct c as [[] [] [] [] [] [] [] []]; reflexivity. Qed.

Lemma lower_char_fixed (c : ascii) :
  Nat.leb 65 (nat_of_ascii c) && Nat.leb (nat_of_ascii c) 90 = false ->
  lower_char c = c.
Proof. unfold lower_char. now intros ->. Qed.

Lemma lower_char_eqb_space (c : ascii) :
  Ascii.eqb (lower_char c) " " = Ascii.eqb c " ".
Proof. destruct c as [[] [] [] [] [] [] [] []]; reflexivity. Qed.

Lemma lower_char_eqb_underscore (c : ascii) :
  Ascii.eqb (lower_char c) "_" = Ascii.eqb c "_".
Proof. destruct c as [[] [] [] [] [] [] [] []]; reflexivity. Qed.

Lemma lower_char_eqb_hyphen (c : ascii) :
  Ascii.eqb (lower_char c) "-" = Ascii.eqb c "-".
Proof. destruct c as [[] [] [] [] [] [] [] []]; reflexivity. Qed.

Lemma lower_char_eqb_comma (c : ascii) :
  Ascii.eqb (lower_char c) "," = Ascii.eqb c ",".
Proof. destruct c as [[] [] [] [] [] [] [] []]; reflexivity. Qed.

Lemma In_delete_char (c a : ascii) (s : string) :
  In a (list_ascii_of_string (delete_char c s)) <->
  a <> c /\ In a (list_ascii_of_string s).
Proof.
  induction s as [|b s IH]; simpl; [tauto|].
  destruct (Ascii.eqb_spec b c) as [->|N]; simpl; rewrite IH.
  - split; [tauto|]. intros [Na [E|I]]; [congruence | auto].
  - split; [intros [->|[Na I]]; auto | intros [Na [E|I]]; auto].
Qed.

Lemma In_lower (a : ascii) (s : string) :
  In a (list_ascii_of_string (lower s)) ->
  exists b, In b (list_ascii_of_string s) /\ a = lower_char b.
Proof.
  induction s as [|b s IH]; simpl; [tauto|].
  intros [<-|I]; [eauto|]. destruct (IH I) as (b' & I' & ->). eauto.
Qed.

Lemma delete_char_absent (c : ascii) (s : string) :
  ~ In c (list_ascii_of_string s) -> delete_char c s = s.
Proof.
  induction s as [|b s IH]; simpl; auto. intros NI.
  destruct (Ascii.eqb_spec b c) as [->|N]; [tauto|].
  rewrite IH; auto.
Qed.

Lemma lower_fixed (s : string) :
  (forall c, In c (list_ascii_of_string s) ->
     Nat.leb 65 (nat_of_ascii c) && Nat.leb (nat_of_ascii c) 90 = false) ->
  lower s = s.
Proof.
  induction s as [|b s IH]; intros H; [reflexivity|].
  cbn [lower]. rewrite lower_char_fixed by (apply H; simpl; auto).
  rewrite IH; auto. intros c I. apply H. simpl. auto.
Qed.

(** What the normalised name is made of. *)
Lemma normalised_chars (some_str : string) (c : ascii) :
  In c (list_ascii_of_string (_lowercase_despace_depunctuate some_str)) ->
  c <> " "%char /\ c <> "_"%char /\ c <> "-"%char /\
  Nat.leb 65 (nat_of_ascii c) && Nat.leb (nat_of_ascii c) 90 = false.
Proof.
  unfold _lowercase_despace_depunctuate. intros I.
  apply In_lower in I. destruct I as (b & I & ->).
  apply In_delete_char in I. destruct I as [Nh I].
  apply In_delete_char in I. destruct I as [Nu I].
  apply In_delete_char in I. destruct I as [Ns _].
  repeat split; try apply lower_char_not_upper.
  - intros E. apply Ns. apply Ascii.eqb_eq.
    rewrite <- lower_char_eqb_space. now apply Ascii.eqb_eq.
  - intros E. apply Nu. apply Ascii.eqb_eq.
    rewrite <- lower_char_eqb_underscore. now apply Ascii.eqb_eq.
  - intros E. apply Nh. apply Ascii.eqb_eq.
    rewrite <- lower_char_eqb_hyphen. now apply Ascii.eqb_eq.
Qed.

(** A name made of such characters only is its own normal form. *)
Lemma normalised_fixed (s : string) :
  (forall c, In c (list_ascii_of_string s) ->
     c <> " "%char /\ c <> "_"%char /\ c <> "-"%char /\
     Nat.leb 65 (nat_of_ascii c) && Nat.leb (nat_of_ascii c) 90 = false) ->
  _lowercase_despace_depunctuate s = s.
Proof.
  intros H. unfold _lowercase_despace_depunctuate.
  rewrite (delete_char_absent " " s) by (intros I; apply H in I; tauto).
  rewrite (delete_char_absent "_" s) by (intros I; apply H in I; tauto).
  rewrite (delete_char_absent "-" s) by (intros I; apply H in I; tauto).
  apply lower_fixed. intros c I. now apply H.
Qed.



(** X2. [_lowercase_despace_depunctuate] is idempotent: a normalised name is
    its own normal form. *)
Theorem X2_normalisation_idempotent :
  forall some_str : string,
    _lowercase_despace_depunctuate (_lowercase_despace_depunctuate some_str)
    = _lowercase_despace_depunctuate some_str.
Proof.
  intros some_str. apply normalised_fixed. apply normalised_chars.
Qed.

Lemma key_equals_PStr (k : pykey) (s : string) :
  key_equals k (PStr s) = key_eqb k (KStr s).
Proof. destruct k; reflexivity. Qed.

(** The loop of lines 163-165, over the keys [ks] of the table [d]. *)
Lemma alias_loop_stable (d : pydict) (ks : list pykey) (cur : pyval) :
  (forall k, In k ks -> key_equals k cur = false) ->
  fold_left
    (fun cur key =>
       if key_equals key cur then
         match lookup key d with Some v => v | None => cur end
       else cur) ks cur = cur.
Proof.
  revert cur. induction ks as [|k ks IH]; intros cur H; simpl; auto.
  rewrite (H k) by (simpl; auto). apply IH. intros k' I. apply H. simpl. auto.
Qed.

Lemma alias_loop_lookup (d : pydict) (name : string) :
  (forall k v, In (k, v) d ->
     forall k', In k' (keys d) -> key_equals k' v = false) ->
  forall ks, incl ks (keys d) ->
    fold_left
      (fun cur key =>
         if key_equals key cur then
           match lookup key d with Some v => v | None => cur end
         else cur) ks (PStr name)
    = if existsb (fun k => key_eqb k (KStr name)) ks
      then match lookup (KStr name) d with Some v => v | None => PStr name end
      else PStr name.
Proof.
  intros NC. induction ks as [|k ks IH]; intros Inc; simpl; auto.
  rewrite key_equals_PStr.
  destruct (key_eqb_spec k (KStr name)) as [->|N]; simpl.
  - destruct (lookup (KStr name) d) as [v|] eqn:L.
    + apply alias_loop_stable. intros k' I.
      assert (Iv : In (KStr name, v) d).
      { clear - L. induction d as [|[k0 v0] d IH]; simpl in *; [discriminate|].
        destruct (key_eqb_spec (KStr name) k0) as [<-|N].
        - injection L as <-. auto.
        - auto. }
      apply (NC _ _ Iv). apply Inc. simpl. auto.
    + exfalso. apply lookup_None_keys in L. apply L. apply Inc. simpl. auto.
  - apply IH. intros x I. apply Inc. simpl. auto.
Qed.

(** X3. With an alias table in which no value is itself a key,
    [_normalize_element_name] returns the value stored under the normalised
    name, and the normalised name itself when the table has no such key. *)
Theorem X3_alias_resolution :
  forall (some_str : string) (d : pydict),
    d <> [] ->
    (forall k v, In (k, v) d ->
       forall k', In k' (keys d) -> key_equals k' v = false) ->
    _normalize_element_name some_str (PDict d)
    = Ok (match lookup (KStr (_lowercase_despace_depunctuate some_str)) d with
          | Some v => v
          | None => PStr (_lowercase_despace_depunctuate some_str)
          end).
Proof.
  intros some_str d NE NC. unfold _normalize_element_name.
  destruct d as [|kv d]; [congruence|]. cbn [truthy length Nat.eqb negb].
  f_equal. rewrite (alias_loop_lookup _ _ NC) by apply incl_refl.
  set (n := _lowercase_despace_depunctuate some_str).
  destruct (existsb (fun k => key_eqb k (KStr n)) (keys (kv :: d))) eqn:E; auto.
  destruct (lookup (KStr n) (kv :: d)) as [v|] eqn:L; auto.
  exfalso.
  assert (I : In (KStr n) (keys (kv :: d)))
    by (apply lookup_In_keys; congruence).
  assert (T : existsb (fun k => key_eqb k (KStr n)) (keys (kv :: d)) = true).
  { apply existsb_exists. exists (KStr n). split; auto. apply key_eqb_refl. }
  congruence.
Qed.

Lemma X3_alias_resolution_witness :
  [(KStr "propertyid", PStr "propertyID"); (KStr "shapeid", PStr "shapeID")]
  <> [] /\
  (forall k v,
      In (k, v) [(KStr "propertyid", PStr "propertyID");
                 (KStr "shapeid", PStr "shapeID")] ->
      forall k',
        In k' (keys [(KStr "propertyid", PStr "propertyID");
                     (KStr "shapeid", PStr "shapeID")]) ->
        key_equals k' v = false) /\
  _normalize_element_name "Property_ID"
    (PDict [(KStr "propertyid", PStr "propertyID");
            (KStr "shapeid", PStr "shapeID")])
  = Ok (match lookup (KStr (_lowercase_despace_depunctuate "Property_ID"))
                [(KStr "propertyid", PStr "propertyID");
                 (KStr "shapeid", PStr "shapeID")] with
        | Some v => v
        | None => PStr (_lowercase_despace_depunctuate "Property_ID")
        end).
Proof.
  assert (H1 : [(KStr "propertyid", PStr "propertyID");
                (KStr "shapeid", PStr "shapeID")] <> []) by discriminate.
  assert (H2 : forall k v,
             In (k, v) [(KStr "propertyid", PStr "propertyID");
                        (KStr "shapeid", PStr "shapeID")] ->
             forall k',
               In k' (keys [(KStr "propertyid", PStr "propertyID");
                            (KStr "shapeid", PStr "shapeID")]) ->
               key_equals k' v = false).
  { intros k v [E|[E|[]]] k' [<-|[<-|[]]]; injection E as <- <-;
      vm_compute; reflexivity. }
  split; [exact H1|]. split; [exact H2|].
  exact (X3_alias_resolution "Property_ID" _ H1 H2).
Defined.

(** X4. [_normalize_element_name] does not tell spellings of a name apart
    that differ in case, spaces, underscores or hyphens: it gives the same
    result on a name and on its normalised form, so the normalisation of
    line 28 before the call of line 29 changes nothing. *)
Theorem X4_alias_resolution_ignores_spelling :
  forall (some_str : string) (element_aliases_dict : pyval),
    _normalize_element_name (_lowercase_despace_depunctuate some_str)
      element_aliases_dict
    = _normalize_element_name some_str element_aliases_dict.
Proof.
  intros some_str element_aliases_dict. unfold _normalize_element_name.
  now rewrite (normalised_fixed _ (normalised_chars some_str)).
Qed.

(** * The row loader (lines 20-36) *)

Lemma io_lines_nil (s : string) : io_lines s = [] <-> s = "".
Proof.
  destruct s as [|c s]; simpl; [tauto|].
  destruct (Ascii.eqb c newline); [split; discriminate|].
  destruct (io_lines s); split; discriminate.
Qed.

Lemma split_not_nil (sep : ascii) (s : string) : split sep s <> [].
Proof.
  destruct s as [|c s]; simpl; [discriminate|].
  destruct (Ascii.eqb c sep); [discriminate|].
  destruct (split sep s); discriminate.
Qed.

(** An alias table that the loop of lines 162-165 cannot go through: truthy
    and not a dictionary. *)
Lemma normalize_element_name_error (some_str : string) (a : pyval) (e : exn) :
  _normalize_element_name some_str a = Raise e <->
  e = AttributeError /\ truthy a = true /\ forall d, a <> PDict d.
Proof.
  unfold _normalize_element_name. destruct (truthy a) eqn:T.
  - destruct a; try discriminate;
      (split; [intros [= <-]; repeat split; congruence
              | intros (-> & _ & N); try reflexivity]).
    exfalso. eapply N. reflexivity.
  - split; [discriminate | intros (_ & ? & _); discriminate].
Qed.

Lemma new_header_line_list_error (raw : list string) (config_dict : pydict)
    (e : exn) :
  new_header_line_list raw config_dict = Raise e <->
  raw <> [] /\ e = AttributeError /\
  truthy (dict_get config_dict "element_aliases") = true /\
  forall d, dict_get config_dict "element_aliases" <> PDict d.
Proof.
  induction raw as [|h raw IH]; simpl.
  - split; [discriminate | intros [N _]; congruence].
  - destruct (_normalize_element_name (_lowercase_despace_depunctuate h)
                (dict_get config_dict "element_aliases")) as [v|e0] eqn:N;
      simpl.
    + destruct (new_header_line_list raw config_dict) as [hs|e1]; simpl.
      * split; [discriminate|]. intros (_ & -> & T & ND).
        assert (X : _normalize_element_name (_lowercase_despace_depunctuate h)
                      (dict_get config_dict "element_aliases")
                    = Raise AttributeError)
          by (apply normalize_element_name_error; auto).
        congruence.
      * split.
        -- intros [= ->]. destruct (proj1 IH eq_refl) as (_ & A). 
           split; [discriminate | exact A].
        -- intros (_ & -> & T & ND).
           assert (X : _normalize_element_name
                         (_lowercase_despace_depunctuate h)
                         (dict_get config_dict "element_aliases")
                       = Raise AttributeError)
             by (apply normalize_element_name_error; auto).
           congruence.
    + apply normalize_element_name_error in N. destruct N as (-> & T & ND).
      split.
      * intros [= <-]. split; [discriminate | auto].
      * intros (_ & -> & _). reflexivity.
Qed.

Lemma join_error (sep : string) (items : list pyval) (e : exn) :
  join sep items = Raise e -> e = TypeError.
Proof.
  unfold join.
  assert (H : forall e, str_items items = Raise e -> e = TypeError).
  { induction items as [|v items IH]; simpl; intros e0 E; [discriminate|].
    destruct v; try (injection E as <-; reflexivity).
    destruct (str_items items); simpl in E; [discriminate|].
    injection E as <-. auto. }
  destruct (str_items items) as [strs|e0] eqn:S; simpl; [discriminate|].
  intros [= <-]. auto.
Qed.

(** X5. [_get_rows] raises [IndexError] exactly when the text is empty:
    there is no first line to take the headers from. *)
Theorem X5_empty_text_index_error :
  forall (DictReader : string -> list pydict) (text : string)
         (config_dict : pydict),
    _get_rows DictReader text config_dict = Raise IndexError <-> text = "".
Proof.
  intros DictReader text config_dict. unfold _get_rows.
  destruct (map strip (io_lines text)) as [|first_line other_lines] eqn:L.
  - apply map_eq_nil in L. apply io_lines_nil in L. tauto.
  - assert (NE : text <> "").
    { intros ->. discriminate. }
    split; [|tauto]. intros E. exfalso.
    destruct (new_header_line_list _ _) as [headers|e] eqn:H; simpl in E.
    + destruct (join "," headers) as [line|e] eqn:J; simpl in E.
      * destruct (negb (contains "propertyID" line)); discriminate.
      * injection E as ->. apply join_error in J. discriminate.
    + injection E as ->. apply new_header_line_list_error in H.
      destruct H as (_ & H & _). discriminate.
Qed.

(** X6. [_get_rows] raises [AttributeError] exactly when the text is not
    empty and the configured alias table is truthy without being a
    dictionary: the loop over its keys cannot start, whatever the headers
    are. *)
Theorem X6_alias_table_attribute_error :
  forall (DictReader : string -> list pydict) (text : string)
         (config_dict : pydict),
    _get_rows DictReader text config_dict = Raise AttributeError <->
    text <> "" /\
    truthy (dict_get config_dict "element_aliases") = true /\
    forall d, dict_get config_dict "element_aliases" <> PDict d.
Proof.
  intros DictReader text config_dict. unfold _get_rows.
  destruct (map strip (io_lines text)) as [|first_line other_lines] eqn:L.
  - apply map_eq_nil in L. apply io_lines_nil in L.
    split; [discriminate | intros [N _]; congruence].
  - assert (NE : text <> "").
    { intros ->. discriminate. }
    destruct (new_header_line_list _ _) as [headers|e] eqn:H; simpl.
    + split.
      * intros E. exfalso.
        destruct (join "," headers) as [line|e] eqn:J; simpl in E.
        -- destruct (negb (contains "propertyID" line)); discriminate.
        -- injection E as ->. apply join_error in J. discriminate.
      * intros (_ & T & ND). exfalso.
        assert (X : new_header_line_list (split "," first_line) config_dict
                    = Raise AttributeError).
        { apply new_header_line_list_error.
          split; [apply split_not_nil | auto]. }
        congruence.
    + apply new_header_line_list_error in H. destruct H as (_ & -> & T & ND).
      split; auto.
Qed.

(** X7. [_get_rows] raises the format error exactly when the headers were
    normalised and joined without an error and the text "propertyID" does
    not occur in the rebuilt header line. *)
Theorem X7_format_error_condition :
  forall (DictReader : string -> list pydict) (text : string)
         (config_dict : pydict) (msg : string),
    _get_rows DictReader text config_dict = Raise (DctapError msg) <->
    exists first_line other_lines headers line,
      map strip (io_lines text) = first_line :: other_lines /\
      new_header_line_list (split ","%char first_line) config_dict
      = Ok headers /\
      join "," headers = Ok line /\
      contains "propertyID" line = false /\
      msg = "Valid DCTAP CSV must have a 'propertyID' column.".
Proof. intros. apply format_error_iff. Qed.

(** X8. When "propertyID" is one of the normalised, alias-resolved header
    names, [_get_rows] does not raise the format error. *)
Theorem X8_header_present_no_format_error :
  forall (DictReader : string -> list pydict) (text : string)
         (config_dict : pydict) (first_line : string)
         (other_lines : list string) (headers : list pyval),
    map strip (io_lines text) = first_line :: other_lines ->
    new_header_line_list (split ","%char first_line) config_dict = Ok headers ->
    In (PStr "propertyID") headers ->
    forall msg,
      _get_rows DictReader text config_dict <> Raise (DctapError msg).
Proof. intros. eapply header_present_no_format_error; eauto. Qed.

Lemma X8_header_present_no_format_error_witness :
  map strip (io_lines sample_header) = [sample_header] /\
  new_header_line_list (split ","%char sample_header) aliased_config
  = Ok [PStr "shapeID"; PStr "propertyID"] /\
  In (PStr "propertyID") [PStr "shapeID"; PStr "propertyID"] /\
  forall msg,
    _get_rows (fixed_rows carry_rows) sample_header aliased_config
    <> Raise (DctapError msg).
Proof.
  assert (H1 : map strip (io_lines sample_header) = [sample_header])
    by (vm_compute; reflexivity).
  assert (H2 : new_header_line_list (split ","%char sample_header)
                 aliased_config
               = Ok [PStr "shapeID"; PStr "propertyID"])
    by (vm_compute; reflexivity).
  assert (H3 : In (PStr "propertyID") [PStr "shapeID"; PStr "propertyID"])
    by (simpl; auto).
  split; [exact H1|]. split; [exact H2|]. split; [exact H3|].
  exact (X8_header_present_no_format_error (fixed_rows carry_rows)
           sample_header aliased_config sample_header [] _ H1 H2 H3).
Defined.

Lemma chars_append (a b : string) :
  list_ascii_of_string (String.append a b)
  = list_ascii_of_string a ++ list_ascii_of_string b.
Proof. induction a as [|c a IH]; simpl; congruence. Qed.

Lemma prefix_chars (n h : string) :
  prefix n h = true ->
  incl (list_ascii_of_string n) (list_ascii_of_string h).
Proof.
  revert h. induction n as [|c n IH]; intros h P; [intros x []|].
  destruct h as [|a h]; simpl in P; [discriminate|].
  destruct (ascii_dec c a) as [->|]; [|discriminate].
  intros x [<-|I]; simpl; auto. right. now apply (IH h).
Qed.

(** Every character of a piece of text occurs in the texts that contain it. *)
Lemma contains_chars (n h : string) :
  contains n h = true ->
  incl (list_ascii_of_string n) (list_ascii_of_string h).
Proof.
  induction h as [|a h IH]; intros C.
  - destruct n; [intros x []|discriminate].
  - unfold contains in C; fold contains in C.
    apply orb_true_iff in C. destruct C as [P|C].
    + now apply prefix_chars in P.
    + intros x I. simpl. right. now apply IH.
Qed.

Lemma concat_chars (sep : string) (items : list string) (c : ascii) :
  In c (list_ascii_of_string (String.concat sep items)) ->
  In c (list_ascii_of_string sep) \/
  exists s, In s items /\ In c (list_ascii_of_string s).
Proof.
  induction items as [|x items IH]; simpl; [tauto|].
  destruct items as [|y items].
  - intros I. right. exists x. auto.
  - rewrite !chars_append, !in_app_iff. intros [I|[I|I]].
    + right. exists x. auto.
    + auto.
    + destruct (IH I) as [S|(s & Is & Ic)]; auto.
      right. exists s. split; [right; exact Is | exact Ic].
Qed.

Lemma str_items_map_PStr (f : string -> string) (raw : list string) :
  str_items (map (fun h => PStr (f h)) raw) = Ok (map f raw).
Proof. induction raw as [|h raw IH]; simpl; [|rewrite IH]; reflexivity. Qed.

(** Lines 26-30 when no alias table is configured. *)
Lemma new_header_line_list_no_aliases (raw : list string) (config_dict : pydict) :
  truthy (dict_get config_dict "element_aliases") = false ->
  new_header_line_list raw config_dict
  = Ok (map (fun h => PStr (_lowercase_despace_depunctuate h)) raw).
Proof.
  intros T. induction raw as [|h raw IH]; simpl; auto.
  unfold _normalize_element_name. rewrite T, IH. simpl.
  now rewrite (normalised_fixed _ (normalised_chars h)).
Qed.

(** X9. Without an alias table (none configured, or an empty one), every
    header comes out in lower case, so the text "propertyID" cannot occur in
    the rebuilt header line: [_get_rows] raises the format error on every
    text that is not empty, whatever its headers are. *)
Theorem X9_no_alias_table_format_error :
  forall (DictReader : string -> list pydict) (text : string)
         (config_dict : pydict),
    truthy (dict_get config_dict "element_aliases") = false ->
    text <> "" ->
    _get_rows DictReader text config_dict
    = Raise (DctapError "Valid DCTAP CSV must have a 'propertyID' column.").
Proof.
  intros DictReader text config_dict T NE. unfold _get_rows.
  destruct (map strip (io_lines text)) as [|first_line other_lines] eqn:L.
  - apply map_eq_nil in L. apply io_lines_nil in L. congruence.
  - rewrite (new_header_line_list_no_aliases _ _ T). simpl.
    unfold join. rewrite str_items_map_PStr. simpl.
    destruct (contains "propertyID" _) eqn:C; auto.
    exfalso. apply contains_chars in C.
    assert (I : In "I"%char (list_ascii_of_string "propertyID"))
      by (vm_compute; tauto).
    apply C in I. apply concat_chars in I.
    destruct I as [I|(s & Is & Ic)].
    + vm_compute in I. destruct I as [I|[]]. discriminate.
    + apply in_map_iff in Is. destruct Is as (h & <- & _).
      apply normalised_chars in Ic. destruct Ic as (_ & _ & _ & U).
      vm_compute in U. discriminate.
Qed.

Lemma X9_no_alias_table_format_error_witness :
  truthy (dict_get sample_config "element_aliases") = false /\
  "shapeID,propertyID" <> "" /\
  _get_rows (fixed_rows carry_rows) "shapeID,propertyID" sample_config
  = Raise (DctapError "Valid DCTAP CSV must have a 'propertyID' column.").
Proof.
  assert (H1 : truthy (dict_get sample_config "element_aliases") = false)
    by (vm_compute; reflexivity).
  assert (H2 : "shapeID,propertyID" <> "") by discriminate.
  split; [exact H1|]. split; [exact H2|].
  exact (X9_no_alias_table_format_error (fixed_rows carry_rows)
           "shapeID,propertyID" sample_config H1 H2).
Defined.

Lemma join_type_error (sep : string) (items : list pyval) :
  join sep items = Raise TypeError <->
  exists v, In v items /\ forall s, v <> PStr s.
Proof.
  unfold join.
  assert (H : (exists strs, str_items items = Ok strs) \/
              (str_items items = Raise TypeError /\
               exists v, In v items /\ forall s, v <> PStr s)).
  { induction items as [|v items IH]; simpl; [eauto|].
    destruct v; try (right; split; [reflexivity|];
                     eexists; split; [left; reflexivity | discriminate]).
    destruct IH as [[strs ->]|[-> (v & I & N)]]; simpl; eauto.
    right. split; auto. exists v. auto. }
  assert (G : forall strs, str_items items = Ok strs ->
              forall v, In v items -> exists s, v = PStr s).
  { clear H. induction items as [|v items IH]; simpl; intros strs E x I;
      [tauto|].
    destruct v; try discriminate.
    destruct (str_items items) as [strs'|] eqn:S; simpl in E; [|discriminate].
    destruct I as [<-|I]; eauto. }
  destruct H as [[strs S]|[S X]]; rewrite S; simpl.
  - split; [discriminate|]. intros (v & I & N).
    destruct (G _ S _ I) as [s ->]. exfalso. eapply N. reflexivity.
  - tauto.
Qed.

(** X10. [_get_rows] raises [TypeError] exactly when a header comes out of
    the alias resolution as something that is not a string (an alias whose
    value is [None], say): the headers cannot be joined into a line. *)
Theorem X10_non_string_alias_type_error :
  forall (DictReader : string -> list pydict) (text : string)
         (config_dict : pydict),
    _get_rows DictReader text config_dict = Raise TypeError <->
    exists first_line other_lines headers v,
      map strip (io_lines text) = first_line :: other_lines /\
      new_header_line_list (split ","%char first_line) config_dict
      = Ok headers /\
      In v headers /\ forall s, v <> PStr s.
Proof.
  intros DictReader text config_dict. unfold _get_rows.
  destruct (map strip (io_lines text)) as [|first_line other_lines] eqn:L.
  - split; [discriminate | intros (? & ? & ? & ? & ? & _); discriminate].
  - destruct (new_header_line_list _ _) as [headers|e] eqn:H; simpl.
    + destruct (join "," headers) as [line|e] eqn:J; simpl.
      * split.
        -- destruct (negb (contains "propertyID" line)); discriminate.
        -- intros (f & o & h & v & [= <- <-] & H' & I & N).
           assert (h = headers) by congruence. subst h.
           assert (X : join "," headers = Raise TypeError)
             by (apply join_type_error; eauto).
           congruence.
      * pose proof (join_error _ _ _ J) as ->.
        split; [|reflexivity]. intros _.
        apply join_type_error in J. destruct J as (v & I & N).
        exists first_line, other_lines, headers, v. auto.
    + split.
      * intros [= ->]. apply new_header_line_list_error in H.
        destruct H as (_ & H & _). discriminate.
      * intros (f & o & h & v & [= <- <-] & H' & _). congruence.
Qed.

(** * The text handed to the row reader (lines 24 and 35) *)














(** * Field population (lines 60-70 and 108-114) *)

Lemma list_remove_present (x : string) (l : list string) :
  In x l -> exists l', list_remove x l = Ok l'.
Proof.
  induction l as [|a l IH]; simpl; [tauto|]. intros I.
  destruct (String.eqb_spec x a) as [->|N]; [eauto|].
  destruct I as [->|I]; [congruence|].
  destruct (IH I) as [l' ->]. simpl. eauto.
Qed.

Lemma list_remove_absent (x : string) (l : list string) :
  ~ In x l -> list_remove x l = Raise ValueError.
Proof.
  induction l as [|a l IH]; simpl; [auto|]. intros NI.
  destruct (String.eqb_spec x a) as [->|N]; [tauto|].
  rewrite IH by tauto. reflexivity.
Qed.

(** X12. [set_shape_fields] returns a populated shape when the class
    [TAPShape] has both fields [sc_list] and [sh_warnings]; when it lacks
    one of them, the [remove] of line 62 or 64 raises [ValueError], whatever
    the shape and the row. *)
Theorem X12_set_shape_fields_needs_bookkeeping_fields :
  forall (TAPShape : dataclass) (shape : pyobj) (row : pydict),
    (In "sc_list" (map fst (fresh TAPShape)) ->
     In "sh_warnings" (map fst (fresh TAPShape)) ->
     exists o, set_shape_fields TAPShape shape row = Ok o) /\
    (~ (In "sc_list" (map fst (fresh TAPShape)) /\
        In "sh_warnings" (map fst (fresh TAPShape))) ->
     set_shape_fields TAPShape shape row = Raise ValueError).
Proof.
  intros TAPShape shape row. unfold set_shape_fields. split.
  - intros I1 I2. destruct (list_remove_present _ _ I1) as [k1 E1].
    rewrite E1. simpl.
    assert (I2' : In "sh_warnings" k1)
      by (eapply list_remove_keeps; eauto; discriminate).
    destruct (list_remove_present _ _ I2') as [k2 E2].
    rewrite E2. simpl. eauto.
  - intros N.
    destruct (in_dec string_dec "sc_list" (map fst (fresh TAPShape)))
      as [I1|N1].
    + destruct (list_remove_present _ _ I1) as [k1 E1]. rewrite E1. simpl.
      rewrite list_remove_absent; auto.
      intros I2. apply N. split; auto. eapply list_remove_incl; eauto.
    + rewrite list_remove_absent; auto.
Qed.

Lemma X12_set_shape_fields_needs_bookkeeping_fields_witness :
  In "sc_list" (map fst (fresh quiet_TAPShape)) /\
  In "sh_warnings" (map fst (fresh quiet_TAPShape)) /\
  (exists o, set_shape_fields quiet_TAPShape (fresh quiet_TAPShape)
               (sample_row "A" "p1") = Ok o) /\
  ~ (In "sc_list" (map fst (fresh quiet_TAPStatementConstraint)) /\
     In "sh_warnings" (map fst (fresh quiet_TAPStatementConstraint))) /\
  set_shape_fields quiet_TAPStatementConstraint (fresh quiet_TAPShape)
    (sample_row "A" "p1") = Raise ValueError.
Proof.
  assert (H1 : In "sc_list" (map fst (fresh quiet_TAPShape)))
    by (vm_compute; tauto).
  assert (H2 : In "sh_warnings" (map fst (fresh quiet_TAPShape)))
    by (vm_compute; tauto).
  assert (H3 : ~ (In "sc_list" (map fst (fresh quiet_TAPStatementConstraint))
                  /\ In "sh_warnings"
                        (map fst (fresh quiet_TAPStatementConstraint)))).
  { intros [I _]. vm_compute in I. repeat (destruct I as [I|I]; [discriminate|]).
    exact I. }
  split; [exact H1|]. split; [exact H2|]. split.
  - exact (proj1 (X12_set_shape_fields_needs_bookkeeping_fields quiet_TAPShape
                    (fresh quiet_TAPShape) (sample_row "A" "p1")) H1 H2).
  - split; [exact H3|].
    exact (proj2 (X12_set_shape_fields_needs_bookkeeping_fields
                    quiet_TAPStatementConstraint (fresh quiet_TAPShape)
                    (sample_row "A" "p1")) H3).
Defined.

(** X13. A shape populated by [set_shape_fields] has the fields of its
    class; [sc_list] and [sh_warnings] keep their defaults whatever the row
    holds; every other field has the value of the column of its name, and
    its default when the row has no such column; columns that name no field
    are not looked at. *)
Theorem X13_shape_population :
  forall (TAPShape : dataclass) (row : pydict) (o : pyobj),
    NoDup (map fst (fresh TAPShape)) ->
    set_shape_fields TAPShape (fresh TAPShape) row = Ok o ->
    map fst o = map fst (fresh TAPShape) /\
    getattr o "sc_list" = getattr (fresh TAPShape) "sc_list" /\
    getattr o "sh_warnings" = getattr (fresh TAPShape) "sh_warnings" /\
    forall name, In name (map fst (fresh TAPShape)) ->
      name <> "sc_list" -> name <> "sh_warnings" ->
      getattr o name =
      match getattr (fresh TAPShape) name, lookup (KStr name) row with
      | Some _, Some v => Some v
      | old, _ => old
      end.
Proof. intros. now apply set_shape_fields_fields. Qed.

Lemma X13_shape_population_witness :
  NoDup (map fst (fresh quiet_TAPShape)) /\
  set_shape_fields quiet_TAPShape (fresh quiet_TAPShape) row_with_sh_warnings
  = Ok [("shapeID", PStr "a"); ("shapeLabel", PStr "");
        ("sc_list", PList []); ("sh_warnings", PDict [])] /\
  let o := [("shapeID", PStr "a"); ("shapeLabel", PStr "");
            ("sc_list", PList []); ("sh_warnings", PDict [])] in
  map fst o = map fst (fresh quiet_TAPShape) /\
  getattr o "sc_list" = getattr (fresh quiet_TAPShape) "sc_list" /\
  getattr o "sh_warnings" = getattr (fresh quiet_TAPShape) "sh_warnings" /\
  forall name, In name (map fst (fresh quiet_TAPShape)) ->
    name <> "sc_list" -> name <> "sh_warnings" ->
    getattr o name =
    match getattr (fresh quiet_TAPShape) name,
          lookup (KStr name) row_with_sh_warnings with
    | Some _, Some v => Some v
    | old, _ => old
    end.
Proof.
  assert (H1 : NoDup (map fst (fresh quiet_TAPShape)))
    by exact TAPShape_fields_NoDup.
  assert (H2 : set_shape_fields quiet_TAPShape (fresh quiet_TAPShape)
                 row_with_sh_warnings
               = Ok [("shapeID", PStr "a"); ("shapeLabel", PStr "");
                     ("sc_list", PList []); ("sh_warnings", PDict [])])
    by (vm_compute; reflexivity).
  split; [exact H1|]. split; [exact H2|].
  exact (X13_shape_population quiet_TAPShape row_with_sh_warnings _ H1 H2).
Defined.

(** X14. A statement constraint built for a row has the fields of its
    class; every field, bookkeeping fields included, has the value of the
    column of its name, and its default when the row has no such column;
    columns that name no field are not looked at. *)
Theorem X14_statement_constraint_population :
  forall (TAPStatementConstraint : dataclass) (row : pydict),
    map fst (new_sc TAPStatementConstraint row)
    = map fst (fresh TAPStatementConstraint) /\
    forall name, In name (map fst (fresh TAPStatementConstraint)) ->
      getattr (new_sc TAPStatementConstraint row) name =
      match getattr (fresh TAPStatementConstraint) name,
            lookup (KStr name) row with
      | Some _, Some v => Some v
      | old, _ => old
      end.
Proof. intros. apply new_sc_fields. Qed.

Lemma X14_statement_constraint_population_witness :
  In "propertyID" (map fst (fresh quiet_TAPStatementConstraint)) /\
  getattr (new_sc quiet_TAPStatementConstraint (sample_row "A" "p1"))
          "propertyID"
  = match getattr (fresh quiet_TAPStatementConstraint) "propertyID",
          lookup (KStr "propertyID") (sample_row "A" "p1") with
    | Some _, Some v => Some v
    | old, _ => old
    end.
Proof.
  assert (H : In "propertyID" (map fst (fresh quiet_TAPStatementConstraint)))
    by (vm_compute; tauto).
  split; [exact H|].
  exact (proj2 (X14_statement_constraint_population
                  quiet_TAPStatementConstraint (sample_row "A" "p1"))
               "propertyID" H).
Defined.

(** * The first valid row and the second grouping call *)

(** X15. The first valid row is keyed by its own [shapeID] when that is
    truthy and is left as it is; otherwise it is keyed by the default shape
    name, which is written into the row, so that the row carries it
    afterwards.  Either way exactly one shape exists after the row. *)
Theorem X15_first_valid_row :
  forall (TAPShape TAPStatementConstraint : dataclass) (config_dict : pydict)
         (dshape : pyval) (row row' : pydict) (st : frame),
    valid row = true ->
    loop_body TAPShape TAPStatementConstraint config_dict dshape
              initial_frame row = Ok (st, row') ->
    exists k,
      sh_id st = Some k /\ keys (shapes st) = [k] /\
      if truthy (dict_get row "shapeID")
      then as_key (dict_get row "shapeID") = Ok k /\ row' = row
      else as_key dshape = Ok k /\
           row' = assign (KStr "shapeID") dshape row /\
           dict_get row' "shapeID" = dshape.
Proof. intros. eapply first_valid_row_key; eauto. Qed.

Lemma X15_first_valid_row_witness :
  valid row_without_shapeID = true /\
  loop_body quiet_TAPShape quiet_TAPStatementConstraint sample_config
            (PStr "default") initial_frame row_without_shapeID
  = Ok (frame_after quiet_TAPShape quiet_TAPStatementConstraint sample_config
          (PStr "default") [row_without_shapeID],
        assign (KStr "shapeID") (PStr "default") row_without_shapeID) /\
  exists k,
    sh_id (frame_after quiet_TAPShape quiet_TAPStatementConstraint
             sample_config (PStr "default") [row_without_shapeID]) = Some k /\
    keys (shapes (frame_after quiet_TAPShape quiet_TAPStatementConstraint
                    sample_config (PStr "default") [row_without_shapeID]))
    = [k] /\
    if truthy (dict_get row_without_shapeID "shapeID")
    then as_key (dict_get row_without_shapeID "shapeID") = Ok k /\
         assign (KStr "shapeID") (PStr "default") row_without_shapeID
         = row_without_shapeID
    else as_key (PStr "default") = Ok k /\
         assign (KStr "shapeID") (PStr "default") row_without_shapeID
         = assign (KStr "shapeID") (PStr "default") row_without_shapeID /\
         dict_get (assign (KStr "shapeID") (PStr "default") row_without_shapeID)
                  "shapeID"
         = PStr "default".
Proof.
  assert (H1 : valid row_without_shapeID = true) by (vm_compute; reflexivity).
  assert (H2 : loop_body quiet_TAPShape quiet_TAPStatementConstraint
                 sample_config (PStr "default") initial_frame
                 row_without_shapeID
               = Ok (frame_after quiet_TAPShape quiet_TAPStatementConstraint
                       sample_config (PStr "default") [row_without_shapeID],
                     assign (KStr "shapeID") (PStr "default")
                       row_without_shapeID))
    by (vm_compute; reflexivity).
  split; [exact H1|]. split; [exact H2|].
  exact (X15_first_valid_row quiet_TAPShape quiet_TAPStatementConstraint
           sample_config (PStr "default") row_without_shapeID _ _ H1 H2).
Defined.

(** X16. The second grouping call of [csvreader] runs over the rows as the
    first call left them and returns what the first call returned: the
    pipeline gives the pair of one grouping of the loaded rows, and fails as
    that grouping fails. *)
Theorem X16_csvreader_is_one_grouping :
  forall (DictReader : string -> list pydict)
         (TAPShape TAPStatementConstraint : dataclass)
         (open_csvfile_obj : string) (config_dict : pydict),
    csvreader DictReader TAPShape TAPStatementConstraint open_csvfile_obj
              config_dict
    = (rows_list <- _get_rows DictReader open_csvfile_obj config_dict ;;
       result_map fst
         (_get_tapshapes TAPShape TAPStatementConstraint rows_list
            config_dict)).
Proof.
  intros DictReader TAPShape TAPStatementConstraint open_csvfile_obj
         config_dict.
  unfold csvreader.
  destruct (_get_rows DictReader open_csvfile_obj config_dict) as [rows|e];
    simpl; auto.
  destruct (_get_tapshapes TAPShape TAPStatementConstraint rows config_dict)
    as [[[t w] rows']|e] eqn:G; simpl; auto.
  now rewrite (get_tapshapes_rerun _ _ _ _ _ _ G).
Qed.

(** * The keys of the shapes over a run *)

Lemma NoDup_snoc {A : Type} (l : list A) (x : A) :
  NoDup l -> ~ In x l -> NoDup (l ++ [x]).
Proof.
  induction 1 as [|a l NI ND IH]; simpl; intros NX.
  - constructor; [tauto | constructor].
  - constructor.
    + rewrite in_app_iff. simpl. intros [I|[E|[]]]; [tauto|].
      apply NX. auto.
    + apply IH. tauto.
Qed.

Section KeyFacts.
Variables TAPShape TAPStatementConstraint : dataclass.
Variable config_dict : pydict.
Variable dshape : pyval.

Local Abbreviation run :=
  (loop TAPShape TAPStatementConstraint config_dict dshape).
Local Abbreviation trace :=
  (events TAPShape TAPStatementConstraint config_dict dshape).

(** The keys of the shapes stay distinct, and the keys a run adds are the
    keys its valid rows resolve to. *)
Lemma loop_keys_events (rows : list pydict) :
  forall st st' rows',
    consistent st -> NoDup (keys (shapes st)) ->
    run st rows = Ok (st', rows') ->
    NoDup (keys (shapes st')) /\
    forall k, In k (keys (shapes st')) <->
              In k (keys (shapes st)) \/ In k (map ev_key (trace st rows)).
Proof.
  induction rows as [|row rest IH]; intros st st' rows' C ND E.
  - simpl in E. injection E as <- _. simpl. split; [auto | tauto].
  - apply loop_cons_inv in E. destruct E as (st1 & row1 & rest' & B & L & ->).
    simpl. rewrite B.
    destruct (body_cases _ _ _ _ _ _ _ _ C B)
      as [(V & -> & ->)|(V & C1 & R & ev & Sn & Er & S & _)].
    + rewrite V. simpl. eauto.
    + destruct (step_key _ _ _ _ _ _ _ _ _ C V B S) as (_ & K1 & I1).
      assert (ND1 : NoDup (keys (shapes st1))).
      { rewrite K1. destruct (mem (ev_key ev) (shapes st)) eqn:M; auto.
        apply NoDup_snoc; auto. intros I. apply mem_In_keys in I. congruence. }
      destruct (IH _ _ _ C1 ND1 L) as [ND' Hk]. split; auto.
      intros k. rewrite Hk, V, Sn. simpl. rewrite K1.
      destruct (mem (ev_key ev) (shapes st)) eqn:M.
      * apply mem_In_keys in M. split; [tauto|].
        intros [I|[<-|I]]; auto.
      * rewrite in_app_iff. simpl. tauto.
Qed.

End KeyFacts.

(** X17. After a run from the initial frame the keys of the shapes are
    pairwise distinct, and they are exactly the keys that the valid rows
    resolved to: every resolved key has its shape, and no shape exists that
    no row resolved to. *)
Theorem X17_shape_keys_distinct :
  forall (TAPShape TAPStatementConstraint : dataclass) (config_dict : pydict)
         (dshape : pyval) (rows rows' : list pydict) (st : frame),
    loop TAPShape TAPStatementConstraint config_dict dshape initial_frame rows
    = Ok (st, rows') ->
    NoDup (keys (shapes st)) /\
    forall k,
      In k (keys (shapes st)) <->
      In k (map ev_key (events TAPShape TAPStatementConstraint config_dict
                               dshape initial_frame rows)).
Proof.
  intros TAPShape TAPStatementConstraint config_dict dshape rows rows' st L.
  destruct (loop_keys_events _ _ _ _ _ _ _ _ consistent_initial
              (NoDup_nil _) L) as [ND H].
  split; auto. intros k. rewrite H. simpl. tauto.
Qed.

Lemma X17_shape_keys_distinct_witness :
  loop quiet_TAPShape quiet_TAPStatementConstraint sample_config
       (PStr "default") initial_frame carry_rows
  = Ok (frame_carry, carry_rows) /\
  NoDup (keys (shapes frame_carry)) /\
  forall k,
    In k (keys (shapes frame_carry)) <->
    In k (map ev_key (events quiet_TAPShape quiet_TAPStatementConstraint
                             sample_config (PStr "default") initial_frame
                             carry_rows)).
Proof.
  assert (H : loop quiet_TAPShape quiet_TAPStatementConstraint sample_config
                (PStr "default") initial_frame carry_rows
              = Ok (frame_carry, carry_rows)) by (vm_compute; reflexivity).
  split; [exact H|].
  exact (X17_shape_keys_distinct quiet_TAPShape quiet_TAPStatementConstraint
           sample_config (PStr "default") carry_rows carry_rows frame_carry H).
Defined.

(** X18. No shape of the result is empty: every shape holds at least one
    statement constraint, that of the row that created it.  (The methods of
    a shape are assumed to leave its [sc_list] alone, and a fresh shape to
    start with an empty one.) *)
Theorem X18_no_empty_shape :
  forall (TAPShape TAPStatementConstraint : dataclass) (config_dict : pydict)
         (dshape : pyval) (rows rows' : list pydict) (st : frame),
    (forall o,
        getattr (normalize TAPShape (set_settings TAPShape config_dict o))
                "sc_list"
        = getattr o "sc_list") ->
    getattr (fresh TAPShape) "sc_list" = Some (PList []) ->
    NoDup (map fst (fresh TAPShape)) ->
    loop TAPShape TAPStatementConstraint config_dict dshape initial_frame rows
    = Ok (st, rows') ->
    forall k, In k (keys (shapes st)) -> constraints_of (shapes st) k <> [].
Proof.
  intros TAPShape TAPStatementConstraint config_dict dshape rows rows' st
         Hm Hf Hn L k I.
  rewrite (loop_constraints _ _ _ _ Hm Hf Hn _ _ _ _ consistent_initial L k).
  simpl.
  destruct (loop_keys_events _ _ _ _ _ _ _ _ consistent_initial
              (NoDup_nil _) L) as [_ H].
  apply H in I. simpl in I. destruct I as [[]|I].
  apply in_map_iff in I. destruct I as (ev & <- & Iev).
  assert (F : In ev (filter (fun e => key_eqb (ev_key e) (ev_key ev))
                       (events TAPShape TAPStatementConstraint config_dict
                               dshape initial_frame rows))).
  { apply filter_In. split; auto. apply key_eqb_refl. }
  destruct (filter _ _); [destruct F | discriminate].
Qed.

Lemma X18_no_empty_shape_witness :
  (forall o,
      getattr (normalize quiet_TAPShape
                 (set_settings quiet_TAPShape sample_config o)) "sc_list"
      = getattr o "sc_list") /\
  getattr (fresh quiet_TAPShape) "sc_list" = Some (PList []) /\
  NoDup (map fst (fresh quiet_TAPShape)) /\
  loop quiet_TAPShape quiet_TAPStatementConstraint sample_config
       (PStr "default") initial_frame carry_rows
  = Ok (frame_carry, carry_rows) /\
  forall k, In k (keys (shapes frame_carry)) ->
            constraints_of (shapes frame_carry) k <> [].
Proof.
  assert (H1 : forall o,
             getattr (normalize quiet_TAPShape
                        (set_settings quiet_TAPShape sample_config o)) "sc_list"
             = getattr o "sc_list") by (intros o; reflexivity).
  assert (H2 : getattr (fresh quiet_TAPShape) "sc_list" = Some (PList []))
    by (vm_compute; reflexivity).
  assert (H3 : NoDup (map fst (fresh quiet_TAPShape)))
    by exact TAPShape_fields_NoDup.
  assert (H4 : loop quiet_TAPShape quiet_TAPStatementConstraint sample_config
                 (PStr "default") initial_frame carry_rows
               = Ok (frame_carry, carry_rows)) by (vm_compute; reflexivity).
  split; [exact H1|]. split; [exact H2|]. split; [exact H3|].
  split; [exact H4|].
  exact (X18_no_empty_shape quiet_TAPShape quiet_TAPStatementConstraint
           sample_config (PStr "default") carry_rows carry_rows frame_carry
           H1 H2 H3 H4).
Defined.

(** * What a run does to the rows *)

Section RowFacts.
Variables TAPShape TAPStatementConstraint : dataclass.
Variable config_dict : pydict.
Variable dshape : pyval.

Local Abbreviation run :=
  (loop TAPShape TAPStatementConstraint config_dict dshape).

(** Once a valid row has been seen, no row is written to. *)
Lemma loop_rows_unchanged (rows : list pydict) :
  forall st st' rows',
    consistent st -> first_valid_row_encountered st = false ->
    run st rows = Ok (st', rows') -> rows' = rows.
Proof.
  induction rows as [|row rest IH]; intros st st' rows' C F E.
  - simpl in E. now injection E as _ <-.
  - apply loop_cons_inv in E. destruct E as (st1 & row1 & rest' & B & L & ->).
    destruct (body_cases _ _ _ _ _ _ _ _ C B)
      as [(V & -> & ->)|(V & C1 & R & _)].
    + f_equal. eauto.
    + destruct (step_assembled _ _ _ _ _ _ _ _ C V B) as (F1 & _).
      unfold written_back in R. rewrite F in R. simpl in R. subst row1.
      f_equal. eauto.
Qed.

Lemma loop_rows_written (rows : list pydict) :
  forall st st' rows',
    consistent st -> first_valid_row_encountered st = true ->
    run st rows = Ok (st', rows') ->
    (Forall (fun r => valid r = false) rows /\ rows' = rows) \/
    exists before row rest,
      rows = before ++ row :: rest /\
      Forall (fun r => valid r = false) before /\ valid row = true /\
      rows' = before
              ++ (if truthy (dict_get row "shapeID") then row
                  else assign (KStr "shapeID") dshape row) :: rest.
Proof.
  induction rows as [|row rest IH]; intros st st' rows' C F E.
  - simpl in E. injection E as _ <-. left. auto.
  - apply loop_cons_inv in E. destruct E as (st1 & row1 & rest' & B & L & ->).
    destruct (body_cases _ _ _ _ _ _ _ _ C B)
      as [(V & -> & ->)|(V & C1 & R & _)].
    + destruct (IH _ _ _ C F L)
        as [[A ->]|(before & r & rest0 & -> & A & Vr & ->)].
      * left. split; auto.
      * right. exists (row :: before), r, rest0. simpl. auto.
    + destruct (step_assembled _ _ _ _ _ _ _ _ C V B) as (F1 & _).
      rewrite (loop_rows_unchanged _ _ _ _ C1 F1 L).
      right. exists [], row, rest. simpl. repeat split; auto.
      f_equal. rewrite R. unfold written_back. rewrite F. simpl.
      now destruct (truthy (dict_get row "shapeID")).
Qed.

Lemma loop_app_raise (before : list pydict) :
  forall st st1 before' rest e,
    run st before = Ok (st1, before') -> run st1 rest = Raise e ->
    run st (before ++ rest) = Raise e.
Proof.
  induction before as [|row before IH]; intros st st1 before' rest e E R.
  - simpl in E. injection E as <- _. exact R.
  - apply loop_cons_inv in E. destruct E as (s & r & b & B & L & _).
    simpl. rewrite B. simpl. now rewrite (IH _ _ _ _ _ L R).
Qed.

End RowFacts.

(** X19. A run writes to at most one row, the first valid one, and only
    when that row has no truthy [shapeID]: it then receives the default
    shape name as its [shapeID].  Every other row, and the order and number
    of the rows, are left as they were. *)
Theorem X19_only_first_valid_row_written :
  forall (TAPShape TAPStatementConstraint : dataclass) (config_dict : pydict)
         (dshape : pyval) (rows rows' : list pydict) (st : frame),
    loop TAPShape TAPStatementConstraint config_dict dshape initial_frame rows
    = Ok (st, rows') ->
    (Forall (fun r => valid r = false) rows /\ rows' = rows) \/
    exists before row rest,
      rows = before ++ row :: rest /\
      Forall (fun r => valid r = false) before /\ valid row = true /\
      rows' = before
              ++ (if truthy (dict_get row "shapeID") then row
                  else assign (KStr "shapeID") dshape row) :: rest.
Proof.
  intros TAPShape TAPStatementConstraint config_dict dshape rows rows' st L.
  eapply loop_rows_written; eauto using consistent_initial.
Qed.

Lemma X19_only_first_valid_row_written_witness :
  loop quiet_TAPShape quiet_TAPStatementConstraint sample_config
       (PStr "default") initial_frame carry_rows
  = Ok (frame_carry, carry_rows) /\
  ((Forall (fun r => valid r = false) carry_rows /\ carry_rows = carry_rows) \/
   exists before row rest,
     carry_rows = before ++ row :: rest /\
     Forall (fun r => valid r = false) before /\ valid row = true /\
     carry_rows
     = before
       ++ (if truthy (dict_get row "shapeID") then row
           else assign (KStr "shapeID") (PStr "default") row) :: rest).
Proof.
  assert (H : loop quiet_TAPShape quiet_TAPStatementConstraint sample_config
                (PStr "default") initial_frame carry_rows
              = Ok (frame_carry, carry_rows)) by (vm_compute; reflexivity).
  split; [exact H|].
  exact (X19_only_first_valid_row_written quiet_TAPShape
           quiet_TAPStatementConstraint sample_config (PStr "default")
           carry_rows carry_rows frame_carry H).
Defined.

(** X20. A row that has no [propertyID] key at all makes the grouping raise
    [KeyError] when the loop reaches it (line 73), whatever the rows after
    it are: such a row is not skipped. *)
Theorem X20_row_without_propertyID_key :
  forall (TAPShape TAPStatementConstraint : dataclass) (config_dict : pydict)
         (before rest before' : list pydict) (row : pydict) (st : frame),
    loop TAPShape TAPStatementConstraint config_dict
         (dict_get config_dict "default_shape_name") initial_frame before
    = Ok (st, before') ->
    lookup (KStr "propertyID") row = None ->
    _get_tapshapes TAPShape TAPStatementConstraint (before ++ row :: rest)
                   config_dict
    = Raise KeyError.
Proof.
  intros TAPShape TAPStatementConstraint config_dict before rest before' row
         st L N.
  unfold _get_tapshapes. rewrite default_shape_get. simpl.
  destruct (getitem config_dict (KStr "extra_shape_elements")) as [x|e] eqn:G1.
  - destruct (getitem config_dict (KStr "extra_statement_constraint_elements"))
      as [y|e] eqn:G2.
    + simpl.
      rewrite (loop_app_raise _ _ _ _ _ _ _ _ _ KeyError L); auto.
      simpl. unfold loop_body, getitem. now rewrite N.
    + simpl. unfold getitem in G2.
      destruct (lookup _ config_dict); [discriminate | now injection G2 as <-].
  - simpl. unfold getitem in G1.
    destruct (lookup _ config_dict); [discriminate | now injection G1 as <-].
Qed.

Lemma X20_row_without_propertyID_key_witness :
  loop quiet_TAPShape quiet_TAPStatementConstraint sample_config
       (dict_get sample_config "default_shape_name") initial_frame
       [sample_row "A" "p1"]
  = Ok (frame_A, [sample_row "A" "p1"]) /\
  lookup (KStr "propertyID") [(KStr "shapeID", PStr "B")] = None /\
  _get_tapshapes quiet_TAPShape quiet_TAPStatementConstraint
    ([sample_row "A" "p1"] ++ [(KStr "shapeID", PStr "B")] :: [])
    sample_config
  = Raise KeyError.
Proof.
  assert (H1 : loop quiet_TAPShape quiet_TAPStatementConstraint sample_config
                 (dict_get sample_config "default_shape_name") initial_frame
                 [sample_row "A" "p1"]
               = Ok (frame_A, [sample_row "A" "p1"]))
    by (vm_compute; reflexivity).
  assert (H2 : lookup (KStr "propertyID") [(KStr "shapeID", PStr "B")] = None)
    by (vm_compute; reflexivity).
  split; [exact H1|]. split; [exact H2|].
  exact (X20_row_without_propertyID_key quiet_TAPShape
           quiet_TAPStatementConstraint sample_config [sample_row "A" "p1"]
           [] [sample_row "A" "p1"] [(KStr "shapeID", PStr "B")] frame_A
           H1 H2).
Defined.

(** * The exceptions of the loop *)

Lemma as_key_error (v : pyval) (e : exn) : as_key v = Raise e -> e = TypeError.
Proof. destruct v; simpl; intros E; try discriminate; congruence. Qed.

Lemma list_remove_error (x : string) (l : list string) (e : exn) :
  list_remove x l = Raise e -> e = ValueError.
Proof.
  induction l as [|a l IH]; simpl; [congruence|].
  destruct (x =? a); [discriminate|].
  destruct (list_remove x l); simpl; [discriminate|].
  intros [= <-]. auto.
Qed.

Lemma last_key_ok {V : Type} (d : list (pykey * V)) :
  d <> [] -> exists k, last_key d = Ok k.
Proof.
  unfold last_key, keys. intros N.
  destruct (rev (map fst d)) as [|k ks] eqn:R; [|eauto].
  exfalso. apply N. apply (f_equal (@rev _)) in R. rewrite rev_involutive in R.
  simpl in R. now apply map_eq_nil in R.
Qed.

Section LoopErrors.
Variables TAPShape TAPStatementConstraint : dataclass.
Variable config_dict : pydict.
Variable dshape : pyval.

Local Abbreviation body :=
  (loop_body TAPShape TAPStatementConstraint config_dict dshape).
Local Abbreviation run :=
  (loop TAPShape TAPStatementConstraint config_dict dshape).

Lemma set_shape_fields_error (shape : pyobj) (row : pydict) (e : exn) :
  set_shape_fields TAPShape shape row = Raise e -> e = ValueError.
Proof.
  unfold set_shape_fields.
  destruct (list_remove "sc_list" _) as [k1|e1] eqn:E1; simpl.
  - destruct (list_remove "sh_warnings" k1) as [k2|e2] eqn:E2; simpl;
      [discriminate|].
    intros [= <-]. eapply list_remove_error; eauto.
  - intros [= <-]. eapply list_remove_error; eauto.
Qed.

Lemma first_valid_row_error (st : frame) (row : pydict) (e : exn) :
  first_valid_row TAPShape dshape st row = Raise e ->
  e = TypeError \/ e = ValueError.
Proof.
  unfold first_valid_row.
  destruct (first_valid_row_encountered st); [|discriminate].
  destruct (truthy (dict_get row "shapeID")); simpl;
    (destruct (as_key _) as [k|e1] eqn:K; simpl;
     [|intros [= <-]; left; eapply as_key_error; eauto]);
    (destruct (set_shape_fields _ _ _) as [o|e2] eqn:S; simpl;
     [discriminate|intros [= <-]; right; eapply set_shape_fields_error; eauto]).
Qed.

(** The frame after the first two phases: the flag is down and [shape]
    refers to a shape that exists. *)
Lemma after_first_valid_row (st st1 : frame) (row row1 : pydict) :
  bound st ->
  first_valid_row TAPShape dshape st row = Ok (st1, row1) ->
  first_valid_row_encountered st1 = false /\
  exists r, shape st1 = Some r /\ In r (keys (shapes st1)).
Proof.
  intros Bd E. apply first_valid_row_inv in E. destruct E as [_ E].
  destruct E as [[F ->]|[F (k & o & _ & _ & ->)]].
  - split; auto. destruct (Bd F) as (k & r & _ & S & I). eauto.
  - simpl. split; auto. exists k. split; auto. apply In_keys_assign. auto.
Qed.

Lemma later_valid_row_error (st : frame) (row : pydict) (e : exn) :
  shapes st <> [] -> later_valid_row st row = Raise e -> e = TypeError.
Proof.
  intros N. unfold later_valid_row.
  destruct (first_valid_row_encountered st); simpl; [discriminate|].
  destruct (truthy (dict_get row "shapeID")) eqn:T.
  - rewrite (truthy_dict_get _ _ T). simpl.
    destruct (as_key _) as [k|e1] eqn:K; simpl; [discriminate|].
    intros [= <-]. eapply as_key_error; eauto.
  - destruct (last_key_ok _ N) as [k ->]. discriminate.
Qed.

(** The frame after the key has been resolved: [sh_id] and [shape] are
    assigned and both name shapes that exist. *)
Lemma resolved_frame (st st1 st2 st3 : frame) (row row1 : pydict) :
  bound st ->
  first_valid_row TAPShape dshape st row = Ok (st1, row1) ->
  later_valid_row st1 row1 = Ok st2 ->
  new_shape TAPShape st2 row1 = Ok st3 ->
  first_valid_row_encountered st3 = false /\
  exists k r, sh_id st3 = Some k /\ shape st3 = Some r /\
    In r (keys (shapes st3)) /\ In k (keys (shapes st3)).
Proof.
  intros Bd E1 E2 E3.
  destruct (after_first_valid_row _ _ _ _ Bd E1) as (F1 & r & S1 & I1).
  apply later_valid_row_inv in E2.
  destruct E2 as [[F _]|[_ (k & -> & _)]]; [congruence|].
  apply new_shape_inv in E3. destruct E3 as (k' & S & E3).
  simpl in S. injection S as <-.
  destruct E3 as [[M ->]|[M (o & _ & ->)]]; simpl.
  - split; auto. exists k, r. repeat split; auto. now apply mem_In_keys.
  - split; auto. exists k, k. repeat split; auto;
      apply In_keys_assign; auto.
Qed.

Lemma In_keys_lookup {V : Type} (k : pykey) (d : list (pykey * V)) :
  In k (keys d) -> exists v, lookup k d = Some v.
Proof.
  intros I. apply lookup_In_keys in I. destruct (lookup k d); [eauto|congruence].
Qed.

(** An iteration that starts in a frame the loop can reach raises none of
    [IndexError], [UnboundLocalError] and [DctapError]. *)
Lemma body_errors (st : frame) (row : pydict) (e : exn) :
  bound st -> body st row = Raise e ->
  e = KeyError \/ e = TypeError \/ e = ValueError \/ e = AttributeError.
Proof.
  intros Bd. unfold loop_body, getitem.
  destruct (lookup (KStr "propertyID") row) as [pid|]; simpl;
    [|intros [= <-]; auto].
  destruct (negb (truthy pid)); [discriminate|].
  destruct (first_valid_row TAPShape dshape st row) as [[st1 row1]|e1] eqn:E1;
    simpl; [|intros [= <-];
             destruct (first_valid_row_error _ _ _ E1) as [->| ->]; auto].
  destruct (after_first_valid_row _ _ _ _ Bd E1) as (F1 & r1 & S1 & I1).
  destruct (later_valid_row st1 row1) as [st2|e2] eqn:E2; simpl.
  2:{ intros [= <-]. right. left. eapply later_valid_row_error; eauto.
      intros X. rewrite X in I1. destruct I1. }
  destruct (new_shape TAPShape st2 row1) as [st3|e3] eqn:E3; simpl.
  2:{ intros [= <-]. right. right. left.
      unfold new_shape in E3.
      apply later_valid_row_inv in E2.
      destruct E2 as [[F _]|[_ (k & -> & _)]]; [congruence|].
      simpl in E3. destruct (negb (mem k (shapes st1))); [|discriminate].
      destruct (set_shape_fields _ _ _) as [o|e4] eqn:S; simpl in E3;
        [discriminate|]. injection E3 as <-.
      eapply set_shape_fields_error; eauto. }
  destruct (resolved_frame _ _ _ _ _ _ Bd E1 E2 E3)
    as (F3 & k & r & S3 & R3 & Ir & Ik).
  destruct (In_keys_lookup _ _ Ir) as [o Lr].
  unfold shape_step. rewrite R3. simpl. unfold getitem. rewrite Lr. simpl.
  rewrite S3. simpl.
  unfold sc_step. simpl. rewrite S3. simpl. unfold getitem.
  assert (Ik' : In k (keys (assign r
                  (normalize TAPShape (set_settings TAPShape config_dict o))
                  (shapes st3))))
    by (apply In_keys_assign; auto).
  destruct (In_keys_lookup _ _ Ik') as [t Lk]. rewrite Lk. simpl.
  destruct (append_sc t _) as [t'|e5] eqn:A; simpl.
  - unfold assemble. simpl.
    destruct (public_shapes _) as [ds|e6] eqn:P; simpl; [discriminate|].
    intros [= <-]. left.
    clear - P. revert P. generalize (map snd (assign k
        (update_last_sc t'
           (normalize TAPStatementConstraint
              (set_settings TAPStatementConstraint config_dict
                 (new_sc TAPStatementConstraint row1))))
        (assign r (normalize TAPShape (set_settings TAPShape config_dict o))
           (shapes st3)))).
    intros objs. induction objs as [|x objs IH]; simpl; [discriminate|].
    destruct (public_shape x) as [d|e7] eqn:Px; simpl.
    + destruct (public_shapes objs); simpl; [discriminate|].
      intros [= <-]. auto.
    + intros [= <-]. unfold public_shape, pop in Px.
      destruct (lookup _ _); simpl in Px; [discriminate | congruence].
  - intros [= <-]. right. right. right.
    unfold append_sc in A.
    destruct (getattr t "sc_list") as [[]|]; congruence.
Qed.

(** [sh_id] and [shape] stay assigned. *)
Lemma body_bound (st st' : frame) (row row' : pydict) :
  bound st -> body st row = Ok (st', row') -> bound st'.
Proof.
  intros Bd B. destruct (valid row) eqn:V.
  - destruct (loop_body_valid _ _ _ _ _ _ _ _ V B)
      as (st1 & st2 & st3 & st4 & st5 & E1 & E2 & E3 & E4 & E5 & E6).
    destruct (resolved_frame _ _ _ _ _ _ Bd E1 E2 E3)
      as (F3 & k & r & S3 & R3 & Ir & Ik).
    apply shape_step_inv in E4.
    destruct E4 as (r4 & o4 & k4 & R4 & L4 & S4 & ->).
    apply sc_step_inv in E5.
    destruct E5 as (k5 & t5 & l5 & S5 & L5 & G5 & ->).
    apply assemble_inv in E6. destruct E6 as (ds & _ & ->).
    intros _. simpl in *. exists k, r. repeat split; auto.
    apply In_keys_assign. right. apply In_keys_assign. auto.
  - destruct (loop_body_invalid _ _ _ _ _ _ _ _ V B) as [-> _]. exact Bd.
Qed.

Lemma loop_errors (rows : list pydict) :
  forall st e,
    bound st -> run st rows = Raise e ->
    e = KeyError \/ e = TypeError \/ e = ValueError \/ e = AttributeError.
Proof.
  induction rows as [|row rest IH]; intros st e Bd E; [discriminate|].
  simpl in E.
  destruct (loop_body _ _ _ _ st row) as [[st1 row1]|e1] eqn:B; simpl in E.
  - destruct (loop _ _ _ _ st1 rest) as [[st2 rest']|e2] eqn:L; simpl in E;
      [discriminate|]. injection E as <-.
    apply (IH st1 e2); [|exact L].
    exact (body_bound st st1 row row1 Bd B).
  - injection E as <-. exact (body_errors st row e1 Bd B).
Qed.

End LoopErrors.

Lemma bound_initial : bound initial_frame.
Proof. intros F. discriminate. Qed.

(** X21. Inside the loop the grouping never reads a local before it is
    assigned and never finds [shapes] empty at [list(shapes)[-1]]: a run
    from the initial frame can only raise [KeyError], [TypeError],
    [ValueError] or [AttributeError], never [IndexError],
    [UnboundLocalError] or the format error. *)
Theorem X21_loop_exceptions :
  forall (TAPShape TAPStatementConstraint : dataclass) (config_dict : pydict)
         (dshape : pyval) (rows : list pydict) (e : exn),
    loop TAPShape TAPStatementConstraint config_dict dshape initial_frame rows
    = Raise e ->
    e = KeyError \/ e = TypeError \/ e = ValueError \/ e = AttributeError.
Proof.
  intros. eapply loop_errors; eauto using bound_initial.
Qed.

Lemma X21_loop_exceptions_witness :
  loop quiet_TAPShape quiet_TAPStatementConstraint sample_config
       (PStr "default") initial_frame
       [sample_row "A" "p1"; [(KStr "shapeID", PStr "B")]]
  = Raise KeyError /\
  (KeyError = KeyError \/ KeyError = TypeError \/ KeyError = ValueError
   \/ KeyError = AttributeError).
Proof.
  assert (H : loop quiet_TAPShape quiet_TAPStatementConstraint sample_config
                (PStr "default") initial_frame
                [sample_row "A" "p1"; [(KStr "shapeID", PStr "B")]]
              = Raise KeyError) by (vm_compute; reflexivity).
  split; [exact H|].
  exact (X21_loop_exceptions quiet_TAPShape quiet_TAPStatementConstraint
           sample_config (PStr "default") _ KeyError H).
Defined.

(** * When the grouping returns *)

Section ReturnFacts.
Variables TAPShape TAPStatementConstraint : dataclass.
Variable config_dict : pydict.
Variable dshape : pyval.

Local Abbreviation body :=
  (loop_body TAPShape TAPStatementConstraint config_dict dshape).
Local Abbreviation run :=
  (loop TAPShape TAPStatementConstraint config_dict dshape).

Lemma body_ok_has_key (st st' : frame) (row row' : pydict) :
  body st row = Ok (st', row') -> lookup (KStr "propertyID") row <> None.
Proof.
  unfold loop_body, getitem.
  destruct (lookup (KStr "propertyID") row); simpl; congruence.
Qed.

Lemma loop_ok_has_keys (rows : list pydict) :
  forall st st' rows',
    run st rows = Ok (st', rows') ->
    Forall (fun row => lookup (KStr "propertyID") row <> None) rows.
Proof.
  induction rows as [|row rest IH]; intros st st' rows' E; [constructor|].
  apply loop_cons_inv in E. destruct E as (st1 & row1 & rest' & B & L & ->).
  constructor; [eapply body_ok_has_key; eauto | eapply IH; eauto].
Qed.

(** The two results are assigned by the first valid row and stay so. *)
Lemma loop_results_assigned (rows : list pydict) :
  forall st st' rows',
    consistent st -> run st rows = Ok (st', rows') ->
    (tapshapes_dict st <> None /\ warnings_dict st <> None)
    \/ existsb valid rows = true ->
    tapshapes_dict st' <> None /\ warnings_dict st' <> None.
Proof.
  induction rows as [|row rest IH]; intros st st' rows' C E A.
  - simpl in E. injection E as <- _. simpl in A.
    destruct A as [A|A]; [exact A | discriminate].
  - apply loop_cons_inv in E. destruct E as (st1 & row1 & rest' & B & L & ->).
    destruct (body_cases _ _ _ _ _ _ _ _ C B)
      as [(V & -> & ->)|(V & C1 & _)].
    + apply (IH st st' rest' C L). simpl in A. rewrite V in A. exact A.
    + apply (IH st1 st' rest' C1 L). left.
      destruct (step_assembled _ _ _ _ _ _ _ _ C V B)
        as (_ & (ds & _ & T) & W).
      rewrite T, W. split; discriminate.
Qed.

Lemma loop_nothing_valid (rows : list pydict) :
  forall st st' rows',
    consistent st -> run st rows = Ok (st', rows') ->
    existsb valid rows = false -> st' = st.
Proof.
  induction rows as [|row rest IH]; intros st st' rows' C E A.
  - simpl in E. now injection E as <- _.
  - apply loop_cons_inv in E. destruct E as (st1 & row1 & rest' & B & L & ->).
    simpl in A. apply orb_false_iff in A. destruct A as [V A].
    destruct (body_cases _ _ _ _ _ _ _ _ C B)
      as [(_ & -> & ->)|(V' & _)]; [|congruence].
    eapply IH; eauto.
Qed.

End ReturnFacts.

Lemma getitem_error {V : Type} (d : list (pykey * V)) (k : pykey) (e : exn) :
  getitem d k = Raise e -> e = KeyError.
Proof. unfold getitem. destruct (lookup k d); congruence. Qed.

Lemma skipped_rows_iff (rows : list pydict) :
  Forall (fun row => exists v, lookup (KStr "propertyID") row = Some v
                               /\ truthy v = false) rows <->
  Forall (fun row => lookup (KStr "propertyID") row <> None) rows
  /\ existsb valid rows = false.
Proof.
  induction rows as [|row rest IH]; simpl.
  - split; [intros _; split; [constructor | reflexivity] | constructor].
  - split.
    + intros F. inversion F as [|? ? (v & L & T) F']; subst.
      apply IH in F'. destruct F' as [K A]. split.
      * constructor; [congruence | exact K].
      * unfold valid at 1. rewrite L, T. exact A.
    + intros [K A]. inversion K as [|? ? N K']; subst.
      apply orb_false_iff in A. destruct A as [V A].
      constructor; [|apply IH; auto].
      unfold valid in V. destruct (lookup (KStr "propertyID") row) as [v|];
        [eauto | congruence].
Qed.

(** X22. The grouping raises [UnboundLocalError] exactly when the
    configuration has both extra-element entries and every row (there may
    be none) has a [propertyID] key with a falsy value: nothing inside the
    loop raises it, and one valid row is enough for both results to be
    assigned at the return statement. *)
Theorem X22_unbound_local_iff :
  forall (TAPShape TAPStatementConstraint : dataclass) (rows : list pydict)
         (config_dict : pydict),
    _get_tapshapes TAPShape TAPStatementConstraint rows config_dict
    = Raise UnboundLocalError
    <->
    mem (KStr "extra_shape_elements") config_dict = true /\
    mem (KStr "extra_statement_constraint_elements") config_dict = true /\
    Forall (fun row => exists v, lookup (KStr "propertyID") row = Some v
                                 /\ truthy v = false) rows.
Proof.
  intros TAPShape TAPStatementConstraint rows config_dict.
  unfold _get_tapshapes. rewrite default_shape_get. simpl.
  unfold mem.
  destruct (getitem config_dict (KStr "extra_shape_elements"))
    as [x|e1] eqn:G1; simpl.
  2:{ apply getitem_error in G1 as E. subst e1. unfold getitem in G1.
      destruct (lookup _ config_dict); [discriminate|].
      split; [discriminate | intros [? _]; discriminate]. }
  destruct (getitem config_dict (KStr "extra_statement_constraint_elements"))
    as [y|e2] eqn:G2; simpl.
  2:{ apply getitem_error in G2 as E. subst e2. unfold getitem in G2.
      destruct (lookup (KStr "extra_statement_constraint_elements")
                  config_dict); [discriminate|].
      split; [discriminate | intros (_ & ? & _); discriminate]. }
  unfold getitem in G1, G2.
  destruct (lookup (KStr "extra_shape_elements") config_dict);
    [|discriminate].
  destruct (lookup (KStr "extra_statement_constraint_elements") config_dict);
    [|discriminate].
  split.
  - intros E. split; auto. split; auto.
    destruct (loop _ _ _ _ initial_frame rows) as [[st rows']|e] eqn:L;
      simpl in E.
    + apply skipped_rows_iff. split; [eapply loop_ok_has_keys; eauto|].
      destruct (existsb valid rows) eqn:A; auto. exfalso.
      destruct (loop_results_assigned _ _ _ _ _ _ _ _ consistent_initial L)
        as [T W]; auto.
      destruct (tapshapes_dict st); [|congruence].
      destruct (warnings_dict st); [|congruence].
      discriminate.
    + injection E as ->.
      apply loop_errors in L; [|exact bound_initial].
      destruct L as [L|[L|[L|L]]]; discriminate.
  - intros (_ & _ & F).
    rewrite (loop_all_skipped _ _ _ _ _ F). reflexivity.
Qed.

(** X23. The grouping returns a value exactly when the configuration has
    both extra-element entries, the loop raises nothing, and at least one
    row has a truthy [propertyID]; the rows it returns are then those the
    loop leaves. *)
Theorem X23_returns_iff :
  forall (TAPShape TAPStatementConstraint : dataclass) (rows : list pydict)
         (config_dict : pydict),
    is_ok (_get_tapshapes TAPShape TAPStatementConstraint rows config_dict)
    = true
    <->
    mem (KStr "extra_shape_elements") config_dict = true /\
    mem (KStr "extra_statement_constraint_elements") config_dict = true /\
    is_ok (loop TAPShape TAPStatementConstraint config_dict
             (dict_get config_dict "default_shape_name") initial_frame rows)
    = true /\
    existsb valid rows = true.
Proof.
  intros TAPShape TAPStatementConstraint rows config_dict.
  unfold _get_tapshapes. rewrite default_shape_get. simpl.
  unfold mem, getitem.
  destruct (lookup (KStr "extra_shape_elements") config_dict); simpl;
    [|split; [discriminate | intros [? _]; discriminate]].
  destruct (lookup (KStr "extra_statement_constraint_elements") config_dict);
    simpl; [|split; [discriminate | intros (_ & ? & _); discriminate]].
  destruct (loop _ _ _ _ initial_frame rows) as [[st rows']|e] eqn:L; simpl;
    [|split; [discriminate | intros (_ & _ & ? & _); discriminate]].
  destruct (existsb valid rows) eqn:A.
  - destruct (loop_results_assigned _ _ _ _ _ _ _ _ consistent_initial L)
      as [T W]; auto.
    destruct (tapshapes_dict st); [|congruence].
    destruct (warnings_dict st); [|congruence].
    simpl. tauto.
  - rewrite (loop_nothing_valid _ _ _ _ _ _ _ _ consistent_initial L A).
    simpl. split; [discriminate | intros (_ & _ & _ & ?); discriminate].
Qed.

(** * No dataclass instance in the output *)

Lemma plain_asdict : forall v, plain (asdict v) = true.
Proof.
  fix IH 1. intros [|s|l|d|fs]; simpl; auto.
  - induction l as [|x l IHl]; simpl; auto. now rewrite IH, IHl.
  - induction d as [|[k x] d IHd]; simpl; auto. now rewrite IH, IHd.
  - induction fs as [|[k x] fs IHfs]; simpl; auto. now rewrite IH, IHfs.
Qed.

Lemma plain_asdict_obj (o : pyobj) :
  forallb (fun kv => plain (snd kv)) (asdict_obj o) = true.
Proof.
  induction o as [|[k x] o IH]; simpl; auto. now rewrite plain_asdict, IH.
Qed.

Lemma plain_assign (k : pykey) (v : pyval) (d : pydict) :
  plain v = true -> forallb (fun kv => plain (snd kv)) d = true ->
  forallb (fun kv => plain (snd kv)) (assign k v d) = true.
Proof.
  intros Pv. induction d as [|[k' x] d IH]; simpl.
  - now rewrite Pv.
  - intros A. apply andb_true_iff in A. destruct A as [Px Pd].
    destruct (key_eqb k k'); simpl.
    + now rewrite Pv, Pd.
    + now rewrite Px, IH.
Qed.

Lemma plain_remove_key (k : pykey) (d : pydict) :
  forallb (fun kv => plain (snd kv)) d = true ->
  forallb (fun kv => plain (snd kv)) (remove_key k d) = true.
Proof.
  induction d as [|[k' x] d IH]; simpl; auto.
  intros A. apply andb_true_iff in A. destruct A as [Px Pd].
  destruct (key_eqb k k'); simpl; auto. now rewrite Px, IH.
Qed.

Lemma plain_public_shapes (objs : list pyobj) :
  forall ds, public_shapes objs = Ok ds -> forallb plain ds = true.
Proof.
  induction objs as [|o objs IH]; simpl; intros ds E.
  - now injection E as <-.
  - bind_inv E. bind_inv E. injection E as <-. simpl.
    rewrite (IH _ Ha0). apply public_shape_inv in Ha.
    destruct Ha as (x & _ & ->). simpl.
    rewrite plain_assign; auto using plain_asdict, plain_remove_key,
      plain_asdict_obj.
Qed.

(** X24. The first result of the grouping holds no dataclass instance any
    more: the shapes, and the statement constraints nested in them, have
    all been turned into dictionaries, lists and plain values. *)
Theorem X24_output_is_plain :
  forall (TAPShape TAPStatementConstraint : dataclass) (rows rows' : list pydict)
         (config_dict : pydict) (t w : pyval),
    _get_tapshapes TAPShape TAPStatementConstraint rows config_dict
    = Ok ((t, w), rows') ->
    plain t = true.
Proof.
  intros TAPShape TAPStatementConstraint rows rows' config_dict t w E.
  apply get_tapshapes_inv in E. destruct E as (st & L & T & W).
  assert (A0 : forall t w,
             tapshapes_dict initial_frame = Some t ->
             warnings_dict initial_frame = Some w ->
             (exists ds, public_shapes (map snd (shapes initial_frame)) = Ok ds
                         /\ t = PDict [(KStr "shapes", PList ds)])
             /\ w = warnings_as_dict (warnings initial_frame))
    by (intros t0 w0; discriminate).
  destruct (loop_assembled _ _ _ _ _ _ _ _ consistent_initial L A0 _ _ T W)
    as [(ds & P & ->) _].
  simpl. now rewrite (plain_public_shapes _ _ P).
Qed.

Lemma X24_output_is_plain_witness :
  _get_tapshapes quiet_TAPShape quiet_TAPStatementConstraint reopen_rows
                 sample_config
  = Ok ((fst (fst reopen_grouping), snd (fst reopen_grouping)),
        snd reopen_grouping) /\
  plain (fst (fst reopen_grouping)) = true.
Proof.
  assert (H : _get_tapshapes quiet_TAPShape quiet_TAPStatementConstraint
                reopen_rows sample_config
              = Ok ((fst (fst reopen_grouping), snd (fst reopen_grouping)),
                    snd reopen_grouping)) by (vm_compute; reflexivity).
  split; [exact H|].
  exact (X24_output_is_plain quiet_TAPShape quiet_TAPStatementConstraint
           reopen_rows _ sample_config _ _ H).
Defined.

(** * The frame after a valid row, in full *)

Lemma keys_assign_old {V : Type} (k : pykey) (v : V) (d : list (pykey * V)) :
  mem k d = true -> keys (assign k v d) = keys d.
Proof. intros M. now rewrite keys_assign, M. Qed.

Lemma keys_assign_new {V : Type} (k : pykey) (v : V) (d : list (pykey * V)) :
  mem k d = false -> keys (assign k v d) = keys d ++ [k].
Proof. intros M. now rewrite keys_assign, M. Qed.

Lemma last_key_keys {V W : Type} (d : list (pykey * V)) (d' : list (pykey * W)) :
  keys d = keys d' -> last_key d = last_key d'.
Proof. unfold last_key. now intros ->. Qed.

Lemma last_key_assign_new {V : Type} (k : pykey) (v : V) (d : list (pykey * V)) :
  mem k d = false -> last_key (assign k v d) = Ok k.
Proof.
  intros M. unfold last_key. rewrite (keys_assign_new _ _ _ M).
  now rewrite rev_app_distr.
Qed.

Lemma lookup_mem {V : Type} (k : pykey) (d : list (pykey * V)) (v : V) :
  lookup k d = Some v -> mem k d = true.
Proof. unfold mem. now intros ->. Qed.

Section StepFrame.
Variables TAPShape TAPStatementConstraint : dataclass.
Variable config_dict : pydict.
Variable dshape : pyval.

Local Abbreviation body :=
  (loop_body TAPShape TAPStatementConstraint config_dict dshape).
Local Abbreviation run :=
  (loop TAPShape TAPStatementConstraint config_dict dshape).
Local Abbreviation shape_methods :=
  (fun o => normalize TAPShape (set_settings TAPShape config_dict o)).
Local Abbreviation sc_methods :=
  (fun o => normalize TAPStatementConstraint
              (set_settings TAPStatementConstraint config_dict o)).

Lemma resolve_frame (st st1 st2 st3 : frame) (row row1 : pydict) :
  consistent st ->
  first_valid_row TAPShape dshape st row = Ok (st1, row1) ->
  later_valid_row st1 row1 = Ok st2 ->
  new_shape TAPShape st2 row1 = Ok st3 ->
  exists k, resolved TAPShape st st3 row1 k.
Proof.
  intros [C1 C2] E1 E2 E3.
  apply first_valid_row_inv in E1. destruct E1 as [-> E1].
  destruct E1 as [[F ->]|[F (k & o & K & O & ->)]].
  - apply later_valid_row_inv in E2.
    destruct E2 as [[F' _]|[_ (k & -> & K)]]; [congruence|].
    apply new_shape_inv in E3. destruct E3 as (k' & S & E3).
    simpl in S. injection S as <-.
    exists k. destruct E3 as [[M ->]|[M (o & O & ->)]]; simpl in *.
    + left. auto.
    + right. left. rewrite F. split; auto. split; auto. exists o. auto.
  - destruct (C1 F) as [S0 W0].
    apply later_valid_row_inv in E2. simpl in E2.
    destruct E2 as [[F' _]|[_ (k2 & -> & K2)]]; [discriminate|].
    assert (k2 = k) as ->.
    { unfold written_back in K2. rewrite F in K2. simpl in K2.
      destruct (truthy (dict_get row "shapeID")) eqn:T; simpl in K2.
      - rewrite T in K2. congruence.
      - unfold dict_get at 1 2 in K2.
        rewrite lookup_assign_same in K2.
        destruct (truthy dshape); [congruence|].
        rewrite S0 in K2. unfold last_key in K2. simpl in K2. congruence. }
    apply new_shape_inv in E3. destruct E3 as (k' & S & E3).
    simpl in S. injection S as <-.
    simpl in E3. rewrite S0 in E3. unfold mem in E3. simpl in E3.
    rewrite key_eqb_refl in E3.
    destruct E3 as [[_ ->]|[M _]]; [|discriminate].
    exists k. right. right. split; auto. exists o. auto.
Qed.

Lemma step_frame (st st' : frame) (row row' : pydict) :
  consistent st -> valid row = true -> body st row = Ok (st', row') ->
  exists k r st3 o3 target l,
    resolved TAPShape st st3 row' k /\
    shape st3 = Some r /\ lookup r (shapes st3) = Some o3 /\
    lookup k (assign r (shape_methods o3) (shapes st3)) = Some target /\
    getattr target "sc_list" = Some (PList l) /\
    let sw := get_warnings TAPShape (shape_methods o3) in
    let o := sc_methods (new_sc TAPStatementConstraint row') in
    let scw := get_warnings TAPStatementConstraint o in
    sh_id st' = Some k /\ shape st' = Some r /\
    first_valid_row_encountered st' = false /\
    shapes st' = assign k (setattr target "sc_list" (PList (l ++ [PObj o])))
                   (assign r (shape_methods o3) (shapes st3)) /\
    warnings st' = add_warnings (add_warnings (warnings st3) k sw) k scw /\
    shape_warnings st' = Some sw.
Proof.
  intros C V E.
  destruct (loop_body_valid _ _ _ _ _ _ _ _ V E)
    as (st1 & st2 & st3 & st4 & st5 & E1 & E2 & E3 & E4 & E5 & E6).
  destruct (resolve_frame _ _ _ _ _ _ C E1 E2 E3) as (k & R).
  assert (S3 : sh_id st3 = Some k /\ first_valid_row_encountered st3 = false).
  { destruct R as [(F & _ & ->)|[(F & _ & o & _ & ->)|(F & o & _ & ->)]];
      simpl; auto. }
  destruct S3 as [S3 F3].
  apply shape_step_inv in E4.
  destruct E4 as (r & o3 & k4 & R4 & L4 & S4 & ->).
  rewrite S3 in S4. injection S4 as <-.
  apply sc_step_inv in E5.
  destruct E5 as (k5 & target & l & S5 & L5 & G5 & ->).
  simpl in S5. rewrite S3 in S5. injection S5 as <-. simpl in L5.
  apply assemble_inv in E6. destruct E6 as (ds & P & ->).
  exists k, r, st3, o3, target, l. simpl. repeat split; auto.
Qed.

(** What a resolved frame holds. *)
Lemma resolved_shapes (st st3 : frame) (row1 : pydict) (k : pykey) :
  consistent st -> recent st -> resolved TAPShape st st3 row1 k ->
  In k (keys (shapes st3)) /\
  exists r, shape st3 = Some r /\ last_key (shapes st3) = Ok r /\
    In r (keys (shapes st3)) /\
    (mem k (shapes st) = true ->
     shapes st3 = shapes st /\ warnings st3 = warnings st /\
     shape st = Some r) /\
    (mem k (shapes st) = false ->
     r = k /\ keys (shapes st3) = keys (shapes st) ++ [k] /\
     forall j, j <> k -> lookup j (shapes st3) = lookup j (shapes st)).
Proof.
  intros [C1 C2] Rc R.
  assert (LI : forall (d : list (pykey * pyobj)) r,
             last_key d = Ok r -> In r (keys d)).
  { intros d r. unfold last_key. destruct (rev (keys d)) as [|x xs] eqn:Rv;
      [discriminate|]. intros [= ->]. apply in_rev. rewrite Rv. now left. }
  destruct R as [(F & M & ->)|[(F & M & o & _ & ->)|(F & o & _ & ->)]]; simpl.
  - split; [now apply mem_In_keys|].
    destruct (Rc F) as (r & S & L). exists r.
    split; auto. split; auto. split; [now apply LI|].
    split; [auto | intros M'; congruence].
  - split; [apply In_keys_assign; auto|].
    exists k. split; auto. split; [now apply last_key_assign_new|].
    split; [apply In_keys_assign; auto|]. split; [rewrite M; discriminate|].
    intros _. split; auto. split; [now apply keys_assign_new|].
    intros j N. now apply lookup_assign_other.
  - destruct (C1 F) as [S0 W0]. rewrite S0. simpl.
    split; [now left|]. exists k.
    split; auto. split; [reflexivity|]. split; [now left|].
    split; [discriminate|]. intros _. split; auto. split; auto.
    intros j N. now rewrite key_eqb_neq.
Qed.

(** The local [shape] keeps referring to the shape created last. *)
Lemma body_recent (st st' : frame) (row row' : pydict) :
  consistent st -> recent st -> body st row = Ok (st', row') -> recent st'.
Proof.
  intros C Rc B. destruct (valid row) eqn:V.
  - destruct (step_frame _ _ _ _ C V B)
      as (k & r & st3 & o3 & target & l & R & S3 & L3 & Lk & G & H).
    simpl in H. destruct H as (Sk & Sr & F' & Sh & _).
    destruct (resolved_shapes _ _ _ _ C Rc R) as (Ik & r' & S3' & Lr & Ir & _).
    rewrite S3 in S3'. injection S3' as <-.
    intros _. exists r. split; auto.
    rewrite <- Lr. apply last_key_keys. rewrite Sh.
    rewrite keys_assign_old.
    + apply keys_assign_old. now apply mem_In_keys.
    + apply mem_In_keys, In_keys_assign. auto.
  - destruct (loop_body_invalid _ _ _ _ _ _ _ _ V B) as [-> _]. exact Rc.
Qed.

Lemma loop_recent (rows : list pydict) :
  forall st st' rows',
    consistent st -> recent st -> run st rows = Ok (st', rows') -> recent st'.
Proof.
  induction rows as [|row rest IH]; intros st st' rows' C Rc E.
  - simpl in E. now injection E as <- _.
  - apply loop_cons_inv in E. destruct E as (st1 & row1 & rest' & B & L & ->).
    apply (IH st1 st' rest'); auto.
    + destruct (body_cases _ _ _ _ _ _ _ _ C B)
        as [(_ & -> & _)|(_ & C1 & _)]; auto.
    + exact (body_recent _ _ _ _ C Rc B).
Qed.

Lemma loop_flag (rows : list pydict) :
  forall st st' rows',
    consistent st -> run st rows = Ok (st', rows') ->
    first_valid_row_encountered st = false \/ existsb valid rows = true ->
    first_valid_row_encountered st' = false.
Proof.
  induction rows as [|row rest IH]; intros st st' rows' C E A.
  - simpl in E. injection E as <- _. simpl in A.
    destruct A as [A|A]; [exact A | discriminate].
  - apply loop_cons_inv in E. destruct E as (st1 & row1 & rest' & B & L & ->).
    destruct (body_cases _ _ _ _ _ _ _ _ C B)
      as [(V & -> & ->)|(V & C1 & _)].
    + apply (IH st st' rest' C L). simpl in A. rewrite V in A. exact A.
    + apply (IH st1 st' rest' C1 L). left.
      now destruct (step_assembled _ _ _ _ _ _ _ _ C V B) as (F & _).
Qed.

End StepFrame.

Lemma recent_initial : recent initial_frame.
Proof. intros F. discriminate. Qed.

Lemma last_key_nonempty {V : Type} (d : list (pykey * V)) (r : pykey) :
  last_key d = Ok r -> keys d <> [].
Proof.
  unfold last_key. intros E N. rewrite N in E. discriminate.
Qed.

Lemma tl_app {A : Type} (l m : list A) : l <> [] -> tl (l ++ m) = tl l ++ m.
Proof. destruct l; simpl; congruence. Qed.

Lemma assign_new {V : Type} (k : pykey) (v : V) (d : list (pykey * V)) :
  mem k d = false -> assign k v d = d ++ [(k, v)].
Proof.
  unfold mem. induction d as [|[k' v'] d IH]; simpl; auto.
  destruct (key_eqb k k'); [discriminate|]. intros M. now rewrite IH.
Qed.

Lemma keys_add_warning_mono (ws : list (pykey * list (pykey * list pyval)))
    (k elem x : pykey) (warn : pyval) :
  In x (keys ws) -> In x (keys (add_warning ws k elem warn)).
Proof. intros I. unfold add_warning. apply In_keys_assign. auto. Qed.

Lemma keys_add_warnings_mono (emitted : pydict) :
  forall (ws : list (pykey * list (pykey * list pyval))) (k x : pykey),
    In x (keys ws) -> In x (keys (add_warnings ws k emitted)).
Proof.
  unfold add_warnings.
  induction emitted as [|[e w] emitted IH]; intros ws k x I; simpl; auto.
  apply IH. now apply keys_add_warning_mono.
Qed.

Section ShapeFacts.
Variables TAPShape TAPStatementConstraint : dataclass.
Variable config_dict : pydict.
Variable dshape : pyval.

Local Abbreviation body :=
  (loop_body TAPShape TAPStatementConstraint config_dict dshape).
Local Abbreviation run :=
  (loop TAPShape TAPStatementConstraint config_dict dshape).

(** A valid row keeps the keys of the shapes that the resolution left. *)
Lemma step_keys (st st' : frame) (row row' : pydict) :
  consistent st -> recent st -> valid row = true ->
  body st row = Ok (st', row') ->
  exists k st3, resolved TAPShape st st3 row' k /\
    keys (shapes st') = keys (shapes st3) /\
    (forall x, In x (keys (warnings st3)) -> In x (keys (warnings st'))).
Proof.
  intros C Rc V B.
  destruct (step_frame _ _ _ _ _ _ _ _ C V B)
    as (k & r & st3 & o3 & target & l & R & S3 & L3 & Lk & G & H).
  simpl in H. destruct H as (Sk & Sr & F' & Sh & W & _).
  exists k, st3. split; auto.
  destruct (resolved_shapes _ _ _ _ _ C Rc R) as (Ik & _).
  split.
  - rewrite Sh. rewrite keys_assign_old.
    + apply keys_assign_old. eapply lookup_mem; eauto.
    + apply mem_In_keys, In_keys_assign. auto.
  - intros x I. rewrite W. now do 2 apply keys_add_warnings_mono.
Qed.

Lemma body_later_shapes_filed (st st' : frame) (row row' : pydict) :
  consistent st -> recent st -> later_shapes_filed st ->
  body st row = Ok (st', row') -> later_shapes_filed st'.
Proof.
  intros C Rc Fl B. destruct (valid row) eqn:V.
  2:{ destruct (loop_body_invalid _ _ _ _ _ _ _ _ V B) as [-> _]. exact Fl. }
  destruct (step_keys _ _ _ _ C Rc V B) as (k & st3 & R & K & W).
  intros x I. rewrite K in I. apply W. clear K W.
  destruct C as [C1 C2].
  destruct R as [(F & M & ->)|[(F & M & o & _ & ->)|(F & o & _ & ->)]];
    simpl in *.
  - now apply Fl.
  - destruct (Rc F) as (r & _ & L). apply last_key_nonempty in L.
    rewrite (keys_assign_new _ _ _ M), (tl_app _ _ L) in I.
    apply In_keys_assign. apply in_app_iff in I.
    destruct I as [I|[<-|[]]]; auto.
  - destruct (C1 F) as [S0 _]. rewrite S0 in I. simpl in I. destruct I.
Qed.

Lemma loop_later_shapes_filed (rows : list pydict) :
  forall st st' rows',
    consistent st -> recent st -> later_shapes_filed st ->
    run st rows = Ok (st', rows') -> later_shapes_filed st'.
Proof.
  induction rows as [|row rest IH]; intros st st' rows' C Rc Fl E.
  - simpl in E. now injection E as <- _.
  - apply loop_cons_inv in E. destruct E as (st1 & row1 & rest' & B & L & ->).
    apply (IH st1 st' rest'); auto.
    + destruct (body_cases _ _ _ _ _ _ _ _ C B)
        as [(_ & -> & _)|(_ & C1 & _)]; auto.
    + exact (body_recent _ _ _ _ _ _ _ _ C Rc B).
    + exact (body_later_shapes_filed _ _ _ _ C Rc Fl B).
Qed.

Hypothesis shape_quiet : forall o, get_warnings TAPShape o = [].
Hypothesis sc_quiet : forall o, get_warnings TAPStatementConstraint o = [].

Lemma body_quiet_filed (st st' : frame) (row row' : pydict) :
  consistent st -> recent st -> quiet_filed st ->
  body st row = Ok (st', row') -> quiet_filed st'.
Proof.
  intros C Rc Q B. destruct (valid row) eqn:V.
  2:{ destruct (loop_body_invalid _ _ _ _ _ _ _ _ V B) as [-> _]. exact Q. }
  destruct (step_frame _ _ _ _ _ _ _ _ C V B)
    as (k & r & st3 & o3 & target & l & R & S3 & L3 & Lk & G & H).
  simpl in H. destruct H as (Sk & Sr & F' & Sh & W & _).
  rewrite shape_quiet, sc_quiet in W. simpl in W.
  destruct (resolved_shapes _ _ _ _ _ C Rc R) as (Ik & _).
  assert (K : keys (shapes st') = keys (shapes st3)).
  { rewrite Sh. rewrite keys_assign_old.
    - apply keys_assign_old. eapply lookup_mem; eauto.
    - apply mem_In_keys, In_keys_assign. auto. }
  unfold quiet_filed in *. rewrite W, K. clear W K Sh.
  destruct C as [C1 C2].
  destruct R as [(F & M & ->)|[(F & M & o & _ & ->)|(F & o & _ & ->)]];
    simpl in *.
  - exact Q.
  - destruct (Rc F) as (r' & _ & L). apply last_key_nonempty in L.
    rewrite (keys_assign_new _ _ _ M), (tl_app _ _ L), map_app. simpl.
    rewrite <- Q. apply assign_new.
    destruct (mem k (warnings st)) eqn:Mw; auto.
    apply mem_In_keys, C2, mem_In_keys in Mw. congruence.
  - destruct (C1 F) as [S0 W0]. now rewrite S0, W0.
Qed.

Lemma loop_quiet_filed (rows : list pydict) :
  forall st st' rows',
    consistent st -> recent st -> quiet_filed st ->
    run st rows = Ok (st', rows') -> quiet_filed st'.
Proof.
  induction rows as [|row rest IH]; intros st st' rows' C Rc Q E.
  - simpl in E. now injection E as <- _.
  - apply loop_cons_inv in E. destruct E as (st1 & row1 & rest' & B & L & ->).
    apply (IH st1 st' rest'); auto.
    + destruct (body_cases _ _ _ _ _ _ _ _ C B)
        as [(_ & -> & _)|(_ & C1 & _)]; auto.
    + exact (body_recent _ _ _ _ _ _ _ _ C Rc B).
    + exact (body_quiet_filed _ _ _ _ C Rc Q B).
Qed.

End ShapeFacts.

(** X25. After a run in which some row was valid, the local [shape] refers
    to the shape that was created last, the last key of [shapes], whichever
    shape the latest row named: [shape] is only assigned where a shape is
    created (lines 81 and 93). *)
Theorem X25_shape_is_last_created :
  forall (TAPShape TAPStatementConstraint : dataclass) (config_dict : pydict)
         (dshape : pyval) (rows rows' : list pydict) (st : frame),
    loop TAPShape TAPStatementConstraint config_dict dshape initial_frame rows
    = Ok (st, rows') ->
    existsb valid rows = true ->
    exists r, shape st = Some r /\ last_key (shapes st) = Ok r.
Proof.
  intros TAPShape TAPStatementConstraint config_dict dshape rows rows' st L A.
  apply (loop_recent _ _ _ _ _ _ _ _ consistent_initial recent_initial L).
  apply (loop_flag _ _ _ _ _ _ _ _ consistent_initial L). auto.
Qed.

Lemma X25_shape_is_last_created_witness :
  loop quiet_TAPShape quiet_TAPStatementConstraint sample_config
       (PStr "default") initial_frame
       [sample_row "A" "p1"; sample_row "B" "p2"; sample_row "A" "p3"]
  = Ok (frame_ABA,
        [sample_row "A" "p1"; sample_row "B" "p2"; sample_row "A" "p3"]) /\
  existsb valid
    [sample_row "A" "p1"; sample_row "B" "p2"; sample_row "A" "p3"] = true /\
  exists r, shape frame_ABA = Some r /\ last_key (shapes frame_ABA) = Ok r.
Proof.
  assert (H1 : loop quiet_TAPShape quiet_TAPStatementConstraint sample_config
                 (PStr "default") initial_frame
                 [sample_row "A" "p1"; sample_row "B" "p2";
                  sample_row "A" "p3"]
               = Ok (frame_ABA,
                     [sample_row "A" "p1"; sample_row "B" "p2";
                      sample_row "A" "p3"]))
    by (vm_compute; reflexivity).
  assert (H2 : existsb valid
                 [sample_row "A" "p1"; sample_row "B" "p2";
                  sample_row "A" "p3"] = true)
    by (vm_compute; reflexivity).
  split; [exact H1|]. split; [exact H2|].
  exact (X25_shape_is_last_created quiet_TAPShape quiet_TAPStatementConstraint
           sample_config (PStr "default") _ _ frame_ABA H1 H2).
Defined.

(** X26. When a valid row names a shape that already exists, the calls
    [shape.set_settings], [shape.normalize] and [shape.get_warnings] of
    lines 97-99 go to the shape created last, not to the shape the row
    names: the warnings that are then filed under the row's key are those
    of the last shape, and it is the last shape that the two methods
    change. *)
Theorem X26_methods_on_last_created :
  forall (TAPShape TAPStatementConstraint : dataclass) (config_dict : pydict)
         (dshape : pyval) (before before' : list pydict) (st st' : frame)
         (row row' : pydict) (k : pykey),
    loop TAPShape TAPStatementConstraint config_dict dshape initial_frame
         before = Ok (st, before') ->
    valid row = true ->
    loop_body TAPShape TAPStatementConstraint config_dict dshape st row
    = Ok (st', row') ->
    sh_id st' = Some k ->
    mem k (shapes st) = true ->
    exists r o,
      last_key (shapes st) = Ok r /\ lookup r (shapes st) = Some o /\
      let o' := normalize TAPShape (set_settings TAPShape config_dict o) in
      shape_warnings st' = Some (get_warnings TAPShape o') /\
      (r <> k -> lookup r (shapes st') = Some o').
Proof.
  intros TAPShape TAPStatementConstraint config_dict dshape before before'
         st st' row row' k L V B Sk M.
  assert (C : consistent st)
    by (eapply loop_consistent; eauto using consistent_initial).
  assert (Rc : recent st)
    by exact (loop_recent _ _ _ _ _ _ _ _ consistent_initial recent_initial L).
  destruct (step_frame _ _ _ _ _ _ _ _ C V B)
    as (k0 & r & st3 & o3 & target & l & R & S3 & L3 & Lk & G & H).
  simpl in H. destruct H as (Sk' & Sr & F' & Sh & W & Sw).
  rewrite Sk in Sk'. injection Sk' as <-.
  destruct (resolved_shapes _ _ _ _ _ C Rc R)
    as (Ik & r' & S3' & Lr & Ir & Old & _).
  rewrite S3 in S3'. injection S3' as <-.
  destruct (Old M) as (E3 & _ & _). rewrite E3 in *.
  exists r, o3. simpl. repeat split; auto.
  intros N. rewrite Sh. rewrite lookup_assign_other by congruence.
  apply lookup_assign_same.
Qed.

Lemma X26_methods_on_last_created_witness :
  loop quiet_TAPShape quiet_TAPStatementConstraint sample_config
       (PStr "default") initial_frame
       [sample_row "A" "p1"; sample_row "B" "p2"]
  = Ok (frame_AB, [sample_row "A" "p1"; sample_row "B" "p2"]) /\
  valid (sample_row "A" "p3") = true /\
  loop_body quiet_TAPShape quiet_TAPStatementConstraint sample_config
            (PStr "default") frame_AB (sample_row "A" "p3")
  = Ok (frame_ABA, sample_row "A" "p3") /\
  sh_id frame_ABA = Some (KStr "A") /\
  mem (KStr "A") (shapes frame_AB) = true /\
  exists r o,
    last_key (shapes frame_AB) = Ok r /\
    lookup r (shapes frame_AB) = Some o /\
    let o' := normalize quiet_TAPShape
                (set_settings quiet_TAPShape sample_config o) in
    shape_warnings frame_ABA = Some (get_warnings quiet_TAPShape o') /\
    (r <> KStr "A" -> lookup r (shapes frame_ABA) = Some o').
Proof.
  assert (H1 : loop quiet_TAPShape quiet_TAPStatementConstraint sample_config
                 (PStr "default") initial_frame
                 [sample_row "A" "p1"; sample_row "B" "p2"]
               = Ok (frame_AB, [sample_row "A" "p1"; sample_row "B" "p2"]))
    by (vm_compute; reflexivity).
  assert (H2 : valid (sample_row "A" "p3") = true)
    by (vm_compute; reflexivity).
  assert (H3 : loop_body quiet_TAPShape quiet_TAPStatementConstraint
                 sample_config (PStr "default") frame_AB (sample_row "A" "p3")
               = Ok (frame_ABA, sample_row "A" "p3"))
    by (vm_compute; reflexivity).
  assert (H4 : sh_id frame_ABA = Some (KStr "A"))
    by (vm_compute; reflexivity).
  assert (H5 : mem (KStr "A") (shapes frame_AB) = true)
    by (vm_compute; reflexivity).
  split; [exact H1|]. split; [exact H2|]. split; [exact H3|].
  split; [exact H4|]. split; [exact H5|].
  exact (X26_methods_on_last_created quiet_TAPShape
           quiet_TAPStatementConstraint sample_config (PStr "default")
           _ _ frame_AB frame_ABA _ _ (KStr "A") H1 H2 H3 H4 H5).
Defined.

(** X27. A valid row leaves every shape untouched except the one it
    resolves to and the one created last: all other entries of [shapes]
    are the same before and after the iteration. *)
Theorem X27_other_shapes_untouched :
  forall (TAPShape TAPStatementConstraint : dataclass) (config_dict : pydict)
         (dshape : pyval) (before before' : list pydict) (st st' : frame)
         (row row' : pydict) (k r : pykey),
    loop TAPShape TAPStatementConstraint config_dict dshape initial_frame
         before = Ok (st, before') ->
    valid row = true ->
    loop_body TAPShape TAPStatementConstraint config_dict dshape st row
    = Ok (st', row') ->
    sh_id st' = Some k ->
    last_key (shapes st') = Ok r ->
    forall j, j <> k -> j <> r ->
      lookup j (shapes st') = lookup j (shapes st).
Proof.
  intros TAPShape TAPStatementConstraint config_dict dshape before before'
         st st' row row' k r L V B Sk Lr' j Nk Nr.
  assert (C : consistent st)
    by (eapply loop_consistent; eauto using consistent_initial).
  assert (Rc : recent st)
    by exact (loop_recent _ _ _ _ _ _ _ _ consistent_initial recent_initial L).
  assert (Rc' : recent st') by exact (body_recent _ _ _ _ _ _ _ _ C Rc B).
  destruct (step_frame _ _ _ _ _ _ _ _ C V B)
    as (k0 & r0 & st3 & o3 & target & l & R & S3 & L3 & Lk & G & H).
  simpl in H. destruct H as (Sk' & Sr & F' & Sh & W & Sw).
  rewrite Sk in Sk'. injection Sk' as <-.
  destruct (Rc' F') as (r1 & Sr1 & Lr1).
  assert (r0 = r) as -> by congruence.
  destruct (resolved_shapes _ _ _ _ _ C Rc R)
    as (Ik & r' & S3' & Lr & Ir & Old & New).
  rewrite Sh. rewrite !lookup_assign_other by congruence.
  destruct (mem k (shapes st)) eqn:M.
  - destruct (Old eq_refl) as (E3 & _). now rewrite E3.
  - destruct (New eq_refl) as (_ & _ & Other). now apply Other.
Qed.

Lemma X27_other_shapes_untouched_witness :
  loop quiet_TAPShape quiet_TAPStatementConstraint sample_config
       (PStr "default") initial_frame
       [sample_row "A" "p1"; sample_row "B" "p2"]
  = Ok (frame_AB, [sample_row "A" "p1"; sample_row "B" "p2"]) /\
  valid (sample_row "A" "p3") = true /\
  loop_body quiet_TAPShape quiet_TAPStatementConstraint sample_config
            (PStr "default") frame_AB (sample_row "A" "p3")
  = Ok (frame_ABA, sample_row "A" "p3") /\
  sh_id frame_ABA = Some (KStr "A") /\
  last_key (shapes frame_ABA) = Ok (KStr "B") /\
  forall j, j <> KStr "A" -> j <> KStr "B" ->
    lookup j (shapes frame_ABA) = lookup j (shapes frame_AB).
Proof.
  assert (H1 : loop quiet_TAPShape quiet_TAPStatementConstraint sample_config
                 (PStr "default") initial_frame
                 [sample_row "A" "p1"; sample_row "B" "p2"]
               = Ok (frame_AB, [sample_row "A" "p1"; sample_row "B" "p2"]))
    by (vm_compute; reflexivity).
  assert (H2 : valid (sample_row "A" "p3") = true)
    by (vm_compute; reflexivity).
  assert (H3 : loop_body quiet_TAPShape quiet_TAPStatementConstraint
                 sample_config (PStr "default") frame_AB (sample_row "A" "p3")
               = Ok (frame_ABA, sample_row "A" "p3"))
    by (vm_compute; reflexivity).
  assert (H4 : sh_id frame_ABA = Some (KStr "A"))
    by (vm_compute; reflexivity).
  assert (H5 : last_key (shapes frame_ABA) = Ok (KStr "B"))
    by (vm_compute; reflexivity).
  split; [exact H1|]. split; [exact H2|]. split; [exact H3|].
  split; [exact H4|]. split; [exact H5|].
  exact (X27_other_shapes_untouched quiet_TAPShape
           quiet_TAPStatementConstraint sample_config (PStr "default")
           _ _ frame_AB frame_ABA _ _ (KStr "A") (KStr "B") H1 H2 H3 H4 H5).
Defined.

(** X28. A valid row that names an existing shape other than the one
    created last changes that shape in one place only: the row's statement
    constraint goes to the end of its [sc_list].  The shape-level values of
    the row are not copied into it (lines 92-95 run for new shapes only). *)
Theorem X28_reopened_shape_only_grows :
  forall (TAPShape TAPStatementConstraint : dataclass) (config_dict : pydict)
         (dshape : pyval) (before before' : list pydict) (st st' : frame)
         (row row' : pydict) (k : pykey),
    loop TAPShape TAPStatementConstraint config_dict dshape initial_frame
         before = Ok (st, before') ->
    valid row = true ->
    loop_body TAPShape TAPStatementConstraint config_dict dshape st row
    = Ok (st', row') ->
    sh_id st' = Some k ->
    mem k (shapes st) = true ->
    last_key (shapes st) <> Ok k ->
    exists target l,
      lookup k (shapes st) = Some target /\
      getattr target "sc_list" = Some (PList l) /\
      let o := normalize TAPStatementConstraint
                 (set_settings TAPStatementConstraint config_dict
                    (new_sc TAPStatementConstraint row')) in
      lookup k (shapes st')
      = Some (setattr target "sc_list" (PList (l ++ [PObj o]))) /\
      forall name, name <> "sc_list" ->
        getattr (setattr target "sc_list" (PList (l ++ [PObj o]))) name
        = getattr target name.
Proof.
  intros TAPShape TAPStatementConstraint config_dict dshape before before'
         st st' row row' k L V B Sk M N.
  assert (C : consistent st)
    by (eapply loop_consistent; eauto using consistent_initial).
  assert (Rc : recent st)
    by exact (loop_recent _ _ _ _ _ _ _ _ consistent_initial recent_initial L).
  destruct (step_frame _ _ _ _ _ _ _ _ C V B)
    as (k0 & r & st3 & o3 & target & l & R & S3 & L3 & Lk & G & H).
  simpl in H. destruct H as (Sk' & Sr & F' & Sh & W & Sw).
  rewrite Sk in Sk'. injection Sk' as <-.
  destruct (resolved_shapes _ _ _ _ _ C Rc R)
    as (Ik & r' & S3' & Lr & Ir & Old & _).
  rewrite S3 in S3'. injection S3' as <-.
  destruct (Old M) as (E3 & _ & _). rewrite E3 in *.
  assert (Nr : r <> k) by congruence.
  rewrite lookup_assign_other in Lk by exact Nr.
  exists target, l. simpl. split; auto. split; auto. split.
  - rewrite Sh. apply lookup_assign_same.
  - intros name Nn. rewrite getattr_setattr.
    destruct (String.eqb_spec "sc_list" name); congruence.
Qed.

Lemma X28_reopened_shape_only_grows_witness :
  loop quiet_TAPShape quiet_TAPStatementConstraint sample_config
       (PStr "default") initial_frame
       [sample_row "A" "p1"; sample_row "B" "p2"]
  = Ok (frame_AB, [sample_row "A" "p1"; sample_row "B" "p2"]) /\
  valid (sample_row "A" "p3") = true /\
  loop_body quiet_TAPShape quiet_TAPStatementConstraint sample_config
            (PStr "default") frame_AB (sample_row "A" "p3")
  = Ok (frame_ABA, sample_row "A" "p3") /\
  sh_id frame_ABA = Some (KStr "A") /\
  mem (KStr "A") (shapes frame_AB) = true /\
  last_key (shapes frame_AB) <> Ok (KStr "A") /\
  exists target l,
    lookup (KStr "A") (shapes frame_AB) = Some target /\
    getattr target "sc_list" = Some (PList l) /\
    let o := normalize quiet_TAPStatementConstraint
               (set_settings quiet_TAPStatementConstraint sample_config
                  (new_sc quiet_TAPStatementConstraint (sample_row "A" "p3")))
    in
    lookup (KStr "A") (shapes frame_ABA)
    = Some (setattr target "sc_list" (PList (l ++ [PObj o]))) /\
    forall name, name <> "sc_list" ->
      getattr (setattr target "sc_list" (PList (l ++ [PObj o]))) name
      = getattr target name.
Proof.
  assert (H1 : loop quiet_TAPShape quiet_TAPStatementConstraint sample_config
                 (PStr "default") initial_frame
                 [sample_row "A" "p1"; sample_row "B" "p2"]
               = Ok (frame_AB, [sample_row "A" "p1"; sample_row "B" "p2"]))
    by (vm_compute; reflexivity).
  assert (H2 : valid (sample_row "A" "p3") = true)
    by (vm_compute; reflexivity).
  assert (H3 : loop_body quiet_TAPShape quiet_TAPStatementConstraint
                 sample_config (PStr "default") frame_AB (sample_row "A" "p3")
               = Ok (frame_ABA, sample_row "A" "p3"))
    by (vm_compute; reflexivity).
  assert (H4 : sh_id frame_ABA = Some (KStr "A"))
    by (vm_compute; reflexivity).
  assert (H5 : mem (KStr "A") (shapes frame_AB) = true)
    by (vm_compute; reflexivity).
  assert (H6 : last_key (shapes frame_AB) <> Ok (KStr "A"))
    by (vm_compute; discriminate).
  split; [exact H1|]. split; [exact H2|]. split; [exact H3|].
  split; [exact H4|]. split; [exact H5|]. split; [exact H6|].
  exact (X28_reopened_shape_only_grows quiet_TAPShape
           quiet_TAPStatementConstraint sample_config (PStr "default")
           _ _ frame_AB frame_ABA _ _ (KStr "A") H1 H2 H3 H4 H5 H6).
Defined.

Lemma later_shapes_filed_initial : later_shapes_filed initial_frame.
Proof. intros k []. Qed.

(** X29. The warning collection has an entry for every shape except,
    possibly, the first one created (line 95 runs for later shapes only),
    and it has entries for existing shapes only. *)
Theorem X29_warning_keys :
  forall (TAPShape TAPStatementConstraint : dataclass) (config_dict : pydict)
         (dshape : pyval) (rows rows' : list pydict) (st : frame),
    loop TAPShape TAPStatementConstraint config_dict dshape initial_frame rows
    = Ok (st, rows') ->
    (forall k, In k (tl (keys (shapes st))) -> In k (keys (warnings st))) /\
    (forall k, In k (keys (warnings st)) -> In k (keys (shapes st))).
Proof.
  intros TAPShape TAPStatementConstraint config_dict dshape rows rows' st L.
  split.
  - exact (loop_later_shapes_filed _ _ _ _ _ _ _ _ consistent_initial
             recent_initial later_shapes_filed_initial L).
  - assert (C : consistent st)
      by (eapply loop_consistent; eauto using consistent_initial).
    now destruct C.
Qed.

Lemma X29_warning_keys_witness :
  loop quiet_TAPShape quiet_TAPStatementConstraint sample_config
       (PStr "default") initial_frame
       [sample_row "A" "p1"; sample_row "B" "p2"]
  = Ok (frame_AB, [sample_row "A" "p1"; sample_row "B" "p2"]) /\
  (forall k, In k (tl (keys (shapes frame_AB))) ->
             In k (keys (warnings frame_AB))) /\
  (forall k, In k (keys (warnings frame_AB)) -> In k (keys (shapes frame_AB))).
Proof.
  assert (H1 : loop quiet_TAPShape quiet_TAPStatementConstraint sample_config
                 (PStr "default") initial_frame
                 [sample_row "A" "p1"; sample_row "B" "p2"]
               = Ok (frame_AB, [sample_row "A" "p1"; sample_row "B" "p2"]))
    by (vm_compute; reflexivity).
  split; [exact H1|].
  exact (X29_warning_keys quiet_TAPShape quiet_TAPStatementConstraint
           sample_config (PStr "default") _ _ frame_AB H1).
Defined.

Lemma quiet_filed_initial : quiet_filed initial_frame.
Proof. reflexivity. Qed.

(** X30. When neither class reports a warning, the second result of the
    grouping is a dictionary with one empty dictionary for each shape
    except the first one, in the order in which the shapes were created. *)
Theorem X30_warnings_without_messages :
  forall (TAPShape TAPStatementConstraint : dataclass) (rows rows' : list pydict)
         (config_dict : pydict) (t w : pyval),
    (forall o, get_warnings TAPShape o = []) ->
    (forall o, get_warnings TAPStatementConstraint o = []) ->
    _get_tapshapes TAPShape TAPStatementConstraint rows config_dict
    = Ok ((t, w), rows') ->
    exists st,
      loop TAPShape TAPStatementConstraint config_dict
           (dict_get config_dict "default_shape_name") initial_frame rows
      = Ok (st, rows') /\
      w = PDict (map (fun k => (k, PDict [])) (tl (keys (shapes st)))).
Proof.
  intros TAPShape TAPStatementConstraint rows rows' config_dict t w Q1 Q2 E.
  apply get_tapshapes_inv in E. destruct E as (st & L & T & W).
  exists st. split; auto.
  assert (A0 : forall t w,
             tapshapes_dict initial_frame = Some t ->
             warnings_dict initial_frame = Some w ->
             (exists ds, public_shapes (map snd (shapes initial_frame)) = Ok ds
                         /\ t = PDict [(KStr "shapes", PList ds)])
             /\ w = warnings_as_dict (warnings initial_frame))
    by (intros t0 w0; discriminate).
  destruct (loop_assembled _ _ _ _ _ _ _ _ consistent_initial L A0 _ _ T W)
    as [_ ->].
  rewrite (loop_quiet_filed _ _ _ _ Q1 Q2 _ _ _ _ consistent_initial
             recent_initial quiet_filed_initial L).
  unfold warnings_as_dict. rewrite map_map. reflexivity.
Qed.

Lemma X30_warnings_without_messages_witness :
  (forall o, get_warnings quiet_TAPShape o = []) /\
  (forall o, get_warnings quiet_TAPStatementConstraint o = []) /\
  _get_tapshapes quiet_TAPShape quiet_TAPStatementConstraint reopen_rows
                 sample_config
  = Ok ((fst (fst reopen_grouping), snd (fst reopen_grouping)),
        snd reopen_grouping) /\
  exists st,
    loop quiet_TAPShape quiet_TAPStatementConstraint sample_config
         (dict_get sample_config "default_shape_name") initial_frame
         reopen_rows
    = Ok (st, snd reopen_grouping) /\
    snd (fst reopen_grouping)
    = PDict (map (fun k => (k, PDict [])) (tl (keys (shapes st)))).
Proof.
  assert (H1 : forall o, get_warnings quiet_TAPShape o = [])
    by (intros o; reflexivity).
  assert (H2 : forall o, get_warnings quiet_TAPStatementConstraint o = [])
    by (intros o; reflexivity).
  assert (H3 : _get_tapshapes quiet_TAPShape quiet_TAPStatementConstraint
                 reopen_rows sample_config
               = Ok ((fst (fst reopen_grouping), snd (fst reopen_grouping)),
                     snd reopen_grouping)) by (vm_compute; reflexivity).
  split; [exact H1|]. split; [exact H2|]. split; [exact H3|].
  exact (X30_warnings_without_messages quiet_TAPShape
           quiet_TAPStatementConstraint reopen_rows _ sample_config _ _
           H1 H2 H3).
Defined.
